(** * VPS seller portal: authentication, sessions and pricing

    A shallow embedding of the backend of the portal:
    - [services/authService.ts]  (token service, session store, TOTP),
    - [middleware/auth.ts]       (the [authenticate] middleware),
    - [controllers/authController.ts] (register, login, verify2FA, verifyEmail),
    - [routes/vps.ts]            (the calculate-price handler).

    Asynchronous handlers run to completion one at a time, so an [async]
    function is a state transformer over the database and the outside
    world, with exceptions.  JavaScript numbers of the price calculator are
    IEEE binary64 floats.  The tokens of jsonwebtoken and the hashes of
    bcryptjs are modelled symbolically: a signature or a hash is a term that
    remembers what was signed or hashed, and with which secret.  The
    one-time passwords of speakeasy are computed, as RFC 4226 and RFC 6238
    define them over HMAC-SHA-1. *)

From Stdlib Require Import ZArith NArith List String Ascii Bool Lia Floats.
Import ListNotations.

Set Warnings "-register-all,-inexact-float".

Local Open Scope string_scope.
Local Open Scope Z_scope.
Local Open Scope list_scope.

(** ** Errors and results *)

(** The two error classes of jsonwebtoken that the code tells apart. *)
Inductive JwtErrorKind : Type :=
| TokenExpiredError
| JsonWebTokenError.

(** What a JavaScript [throw] can carry in this code. *)
Inductive Error : Type :=
| AppError (message : string) (statusCode : Z)
| JwtError (kind : JwtErrorKind)
| PrismaError (code : string)
| TypeError (message : string)
| PlainError (message : string).

(** Modelled from the spec: [createError] of middleware/errorHandler, which is
    not among the sources.  Its call sites pass a user-safe message and the
    HTTP status that encodes the kind of error. *)
Definition createError (message : string) (statusCode : Z) : Error :=
  AppError message statusCode.

Inductive Result (A : Type) : Type :=
| Ok (a : A)
| Throw (e : Error).
Arguments Ok {A} a.
Arguments Throw {A} e.

(** ** Strings as JavaScript uses them here *)

Module Js.

(** [s.slice(-1)]: the last character, or the empty string. *)
Fixpoint slice_last (s : string) : string :=
  match s with
  | EmptyString => EmptyString
  | String c EmptyString => String c EmptyString
  | String _ rest => slice_last rest
  end.

(** [s.slice(0, -1)]: everything but the last character. *)
Fixpoint slice_init (s : string) : string :=
  match s with
  | EmptyString => EmptyString
  | String _ EmptyString => EmptyString
  | String c rest => String c (slice_init rest)
  end.

Definition is_white (c : ascii) : bool :=
  let n := nat_of_ascii c in
  ((9 <=? n) && (n <=? 13))%nat || (n =? 32)%nat.

Fixpoint skip_white (s : string) : string :=
  match s with
  | String c rest => if is_white c then skip_white rest else s
  | EmptyString => s
  end.

Definition digit_of (radix : Z) (c : ascii) : option Z :=
  let n := Z.of_nat (nat_of_ascii c) in
  let v := if (48 <=? n) && (n <=? 57) then n - 48
           else if (97 <=? n) && (n <=? 122) then n - 87
           else if (65 <=? n) && (n <=? 90) then n - 55
           else 36 in
  if v <? radix then Some v else None.

(** The longest prefix of digits, read in the radix; [None] when the
    prefix is empty. *)
Fixpoint digits (radix : Z) (acc : option Z) (s : string) : option Z :=
  match s with
  | String c rest =>
      match digit_of radix c with
      | Some d =>
          digits radix
            (Some (radix * match acc with Some a => a | None => 0 end + d))
            rest
      | None => acc
      end
  | EmptyString => acc
  end.

Definition strip_hex_prefix (s : string) : option string :=
  match s with
  | String "0" (String "x" rest) => Some rest
  | String "0" (String "X" rest) => Some rest
  | _ => None
  end.

Definition unsigned_int (s : string) : option Z :=
  match strip_hex_prefix s with
  | Some rest => digits 16 None rest
  | None => digits 10 None s
  end.

(** [parseInt(s)] with no radix argument: leading white space, an optional
    sign, an optional [0x], then digits.  [None] is [NaN]. *)
Definition parseInt (s : string) : option Z :=
  match skip_white s with
  | String "-" rest => option_map Z.opp (unsigned_int rest)
  | String "+" rest => unsigned_int rest
  | t => unsigned_int t
  end.

(** [parseInt(s, 10)]: leading white space, an optional sign, then decimal
    digits; no [0x] prefix is read. *)
Definition parseInt10 (s : string) : option Z :=
  match skip_white s with
  | String "-" rest => option_map Z.opp (digits 10 None rest)
  | String "+" rest => digits 10 None rest
  | t => digits 10 None t
  end.

Fixpoint startsWith (p s : string) : bool :=
  match p, s with
  | EmptyString, _ => true
  | String a p', String b s' => Ascii.eqb a b && startsWith p' s'
  | String _ _, EmptyString => false
  end.

(** [s.includes(p)]: [p] occurs somewhere in [s]. *)
Fixpoint includes (s p : string) : bool :=
  startsWith p s ||
  match s with
  | String _ rest => includes rest p
  | EmptyString => false
  end.

(** [a || b] on a possibly missing string: the empty string is falsy. *)
Definition or_default (a : option string) (b : string) : string :=
  match a with
  | Some (String c r) => String c r
  | _ => b
  end.

End Js.

(** ** SHA-1 and SHA-256 (FIPS 180-4), HMAC (RFC 2104) *)

Module sha1.

Definition w32 (x : Z) : Z := Z.land x 0xFFFFFFFF.

Definition rotl (n x : Z) : Z :=
  w32 (Z.lor (Z.shiftl x n) (Z.shiftr x (32 - n))).

Definition not32 (x : Z) : Z := Z.lxor x 0xFFFFFFFF.

Definition f (t : nat) (b c d : Z) : Z :=
  if (t <? 20)%nat then Z.lor (Z.land b c) (Z.land (not32 b) d)
  else if (t <? 40)%nat then Z.lxor (Z.lxor b c) d
  else if (t <? 60)%nat then
    Z.lor (Z.lor (Z.land b c) (Z.land b d)) (Z.land c d)
  else Z.lxor (Z.lxor b c) d.

Definition K (t : nat) : Z :=
  if (t <? 20)%nat then 0x5A827999
  else if (t <? 40)%nat then 0x6ED9EBA1
  else if (t <? 60)%nat then 0x8F1BBCDC
  else 0xCA62C1D6.

(** The message schedule, newest word first. *)
Fixpoint extend (n : nat) (rev_w : list Z) : list Z :=
  match n with
  | O => rev_w
  | S n' =>
      let w := rotl 1 (Z.lxor (Z.lxor (nth 2 rev_w 0) (nth 7 rev_w 0))
                              (Z.lxor (nth 13 rev_w 0) (nth 15 rev_w 0))) in
      extend n' (w :: rev_w)
  end.

Definition schedule (block : list Z) : list Z := rev (extend 64 (rev block)).

Record state : Type := mk { a : Z; b : Z; c : Z; d : Z; e : Z }.

Fixpoint rounds (t : nat) (ws : list Z) (s : state) : state :=
  match ws with
  | [] => s
  | w :: ws' =>
      let temp :=
        w32 (rotl 5 (a s) + f t (b s) (c s) (d s) + e s + K t + w) in
      rounds (S t) ws' (mk temp (a s) (rotl 30 (b s)) (c s) (d s))
  end.

Definition compress (h : state) (block : list Z) : state :=
  let s := rounds 0 (schedule block) h in
  mk (w32 (a h + a s)) (w32 (b h + b s)) (w32 (c h + c s))
     (w32 (d h + d s)) (w32 (e h + e s)).

(** [x] as [n] bytes, most significant first. *)
Definition be_bytes (n : nat) (x : Z) : list Z :=
  map (fun i => Z.land (Z.shiftr x (8 * Z.of_nat i)) 255) (rev (seq 0 n)).

Fixpoint be_word (bytes : list Z) (acc : Z) : Z :=
  match bytes with
  | [] => acc
  | x :: r => be_word r (acc * 256 + x)
  end.

Definition pad (msg : list Z) : list Z :=
  let len := Z.of_nat (List.length msg) in
  msg ++ [128] ++ repeat 0 (Z.to_nat ((55 - len) mod 64))
      ++ be_bytes 8 (8 * len).

Fixpoint words (n : nat) (bytes : list Z) : list Z :=
  match n with
  | O => []
  | S n' => be_word (firstn 4 bytes) 0 :: words n' (skipn 4 bytes)
  end.

Fixpoint blocks (n : nat) (bytes : list Z) (h : state) : state :=
  match n with
  | O => h
  | S n' =>
      blocks n' (skipn 64 bytes) (compress h (words 16 (firstn 64 bytes)))
  end.

Definition init : state :=
  mk 0x67452301 0xEFCDAB89 0x98BADCFE 0x10325476 0xC3D2E1F0.

Definition digest (msg : list Z) : list Z :=
  let p := pad msg in
  let s := blocks (List.length p / 64) p init in
  be_bytes 4 (a s) ++ be_bytes 4 (b s) ++ be_bytes 4 (c s)
    ++ be_bytes 4 (d s) ++ be_bytes 4 (e s).

Definition hmac (key msg : list Z) : list Z :=
  let k := if (64 <? List.length key)%nat then digest key else key in
  let k := k ++ repeat 0 (64 - List.length k) in
  digest (map (Z.lxor 0x5c) k ++ digest (map (Z.lxor 0x36) k ++ msg)).

End sha1.

(** SHA-256 (FIPS 180-4), with the padding and the word order of SHA-1.
    jsonwebtoken signs with HMAC-SHA-256, which hashes a key that is longer
    than the block of 64 bytes. *)
Module sha256.

Definition rotr (n x : Z) : Z :=
  sha1.w32 (Z.lor (Z.shiftr x n) (Z.shiftl x (32 - n))).

Definition Ch (x y z : Z) : Z :=
  Z.lxor (Z.land x y) (Z.land (sha1.not32 x) z).

Definition Maj (x y z : Z) : Z :=
  Z.lxor (Z.lxor (Z.land x y) (Z.land x z)) (Z.land y z).

Definition Sigma0 (x : Z) : Z :=
  Z.lxor (Z.lxor (rotr 2 x) (rotr 13 x)) (rotr 22 x).

Definition Sigma1 (x : Z) : Z :=
  Z.lxor (Z.lxor (rotr 6 x) (rotr 11 x)) (rotr 25 x).

Definition sigma0 (x : Z) : Z :=
  Z.lxor (Z.lxor (rotr 7 x) (rotr 18 x)) (Z.shiftr x 3).

Definition sigma1 (x : Z) : Z :=
  Z.lxor (Z.lxor (rotr 17 x) (rotr 19 x)) (Z.shiftr x 10).

(** The constants of FIPS 180-4, as the standard defines them: the first 32
    bits of the fractional parts of the cube roots (for the rounds) and of
    the square roots (for the initial hash value) of the first primes. *)
Definition is_prime (n : nat) : bool :=
  forallb (fun d => negb (n mod d =? 0)%nat) (seq 2 (n - 2)).

Definition primes (below : nat) : list Z :=
  map Z.of_nat (filter is_prime (seq 2 (below - 2))).

(** The integer part of the [e]-th root of [n], found bit by bit. *)
Fixpoint root_from (bits : nat) (e n acc : Z) : Z :=
  match bits with
  | O => acc
  | S b =>
      let candidate := acc + 2 ^ Z.of_nat b in
      root_from b e n (if candidate ^ e <=? n then candidate else acc)
  end.

Definition fraction_bits (e p : Z) : Z :=
  sha1.w32 (root_from 40 e (p * 2 ^ (32 * e)) 0).

Definition K : list Z :=
  Eval vm_compute in map (fraction_bits 3) (primes 312).

(** The message schedule, newest word first. *)
Fixpoint extend (n : nat) (rev_w : list Z) : list Z :=
  match n with
  | O => rev_w
  | S n' =>
      let w :=
        sha1.w32 (sigma1 (nth 1 rev_w 0) + nth 6 rev_w 0
                  + sigma0 (nth 14 rev_w 0) + nth 15 rev_w 0) in
      extend n' (w :: rev_w)
  end.

Definition schedule (block : list Z) : list Z := rev (extend 48 (rev block)).

(** The eight working variables, [a] first. *)
Fixpoint rounds (ks ws : list Z) (s : list Z) : list Z :=
  match ks, ws, s with
  | k :: ks', w :: ws', [a; b; c; d; e; f; g; h] =>
      let t1 := h + Sigma1 e + Ch e f g + k + w in
      let t2 := Sigma0 a + Maj a b c in
      rounds ks' ws'
             [sha1.w32 (t1 + t2); a; b; c; sha1.w32 (d + t1); e; f; g]
  | _, _, _ => s
  end.

Definition compress (h : list Z) (block : list Z) : list Z :=
  map (fun xy => sha1.w32 (fst xy + snd xy))
      (combine h (rounds K (schedule block) h)).

Fixpoint blocks (n : nat) (bytes : list Z) (h : list Z) : list Z :=
  match n with
  | O => h
  | S n' =>
      blocks n' (skipn 64 bytes)
             (compress h (sha1.words 16 (firstn 64 bytes)))
  end.

Definition init : list Z :=
  Eval vm_compute in map (fraction_bits 2) (primes 20).

Definition digest (msg : list Z) : list Z :=
  let p := sha1.pad msg in
  flat_map (sha1.be_bytes 4) (blocks (List.length p / 64) p init).

End sha256.

(** ** The token payload *)

Module JWTPayload.
Record t : Type := mk { userId : N; email : string; role : string }.

Definition eq_dec (x y : t) : {x = y} + {x <> y}.
Proof. decide equality; auto using N.eq_dec, string_dec. Defined.
End JWTPayload.

(** ** jsonwebtoken, symbolically *)

Module jwt.

(** A string handed to [jwt.verify] either is a token that was signed (the
    term records the payload, the HMAC key of the signature, and the [iat]
    and [exp] claims in seconds), or does not decode as one. *)
Inductive Token : Type :=
| Signed (payload : JWTPayload.t) (key : string) (iat exp : Z)
| Malformed (raw : string).

Definition eq_dec (x y : Token) : {x = y} + {x <> y}.
Proof.
  decide equality; auto using Z.eq_dec, string_dec, JWTPayload.eq_dec.
Defined.

Definition eqb (x y : Token) : bool := if eq_dec x y then true else false.

Fixpoint all_digits (s : string) : bool :=
  match s with
  | EmptyString => true
  | String c rest =>
      match Js.digit_of 10 c with Some _ => all_digits rest | None => false end
  end.

(** The [expiresIn] option in seconds, for the spellings this application
    configures ("15m", "7d": decimal digits and one of s, m, h, d).  The
    other spellings that the library understands are outside the model and
    are treated as refused. *)
Definition timespan (expiresIn : string) : option Z :=
  let value := Js.slice_init expiresIn in
  match value with
  | EmptyString => None
  | _ =>
      if all_digits value then
        match Js.digits 10 None value with
        | Some n =>
            match Js.slice_last expiresIn with
            | "s" => Some n
            | "m" => Some (n * 60)
            | "h" => Some (n * 3600)
            | "d" => Some (n * 86400)
            | _ => None
            end
        | None => None
        end
      else None
  end.

(** The secret is a string of bytes (the UTF-8 encoding of the value of the
    environment variable, which holds no NUL). *)
Definition bytes (s : string) : list Z :=
  map (fun c => Z.of_nat (nat_of_ascii c)) (list_ascii_of_string s).

Definition of_bytes (l : list Z) : string :=
  string_of_list_ascii (map (fun b => ascii_of_nat (Z.to_nat b)) l).

(** The string without the NUL characters at its end. *)
Fixpoint strip_zeros (s : string) : string :=
  match s with
  | EmptyString => EmptyString
  | String c rest =>
      match strip_zeros rest with
      | EmptyString =>
          if Ascii.eqb c Ascii.zero then EmptyString
          else String c EmptyString
      | kept => String c kept
      end
  end.

(** The key of HMAC-SHA-256 (RFC 2104): a secret that is longer than the
    block of 64 bytes is replaced by its SHA-256 digest, and the key is then
    padded with zero bytes to the block.  The signature depends on the
    secret through this block only, so two secrets sign alike exactly when
    their blocks are equal; [hmac_key] is the block without its padding. *)
Definition hmac_key (secret : string) : string :=
  strip_zeros
    (if (64 <? String.length secret)%nat
     then of_bytes (sha256.digest (bytes secret))
     else secret).

(** [jwt.sign(payload, secret, {expiresIn})] at clock [now] (milliseconds),
    with the default algorithm HS256. *)
Definition sign (payload : JWTPayload.t) (secret expiresIn : string) (now : Z)
  : Result Token :=
  match timespan expiresIn with
  | Some span =>
      let iat := now / 1000 in
      Ok (Signed payload (hmac_key secret) iat (iat + span))
  | None => Throw (PlainError "invalid expiresIn option")
  end.

(** [jwt.verify(token, secret)]: the signature is checked before the
    expiry. *)
Definition verify (token : Token) (secret : string) (now : Z)
  : Result JWTPayload.t :=
  match token with
  | Malformed _ => Throw (JwtError JsonWebTokenError)
  | Signed payload key _ exp =>
      if negb (String.eqb key (hmac_key secret)) then
        Throw (JwtError JsonWebTokenError)
      else if exp <=? now / 1000 then Throw (JwtError TokenExpiredError)
      else Ok payload
  end.

End jwt.

(** ** bcryptjs, symbolically *)

Module bcrypt.

(** A stored hash either was produced by [bcrypt.hash] from a password (the
    salt is hidden in the term), or is some other string. *)
Inductive Hash : Type :=
| Hashed (password : string)
| OtherHash (raw : string).

Definition hash (password : string) : Hash := Hashed password.

Definition compare (password : string) (h : Hash) : bool :=
  match h with
  | Hashed p => String.eqb password p
  | OtherHash _ => false
  end.

End bcrypt.

(** ** speakeasy: HOTP and TOTP (RFC 4226, RFC 6238) over HMAC-SHA-1 *)

Module speakeasy.

Definition upper (c : ascii) : ascii :=
  let n := nat_of_ascii c in
  if ((97 <=? n) && (n <=? 122))%nat then ascii_of_nat (n - 32) else c.

(** The symbol of a character in the RFC 4648 alphabet, after upper-casing;
    the decoder also reads 0 as O and 1 as I, and any other character as
    the symbol 0. *)
Definition symbol (c : ascii) : Z :=
  let n := Z.of_nat (nat_of_ascii (upper c)) in
  if (65 <=? n) && (n <=? 90) then n - 65
  else if (50 <=? n) && (n <=? 55) then n - 24
  else if n =? 48 then 14
  else if n =? 49 then 8
  else 0.

(** base32 decoding: five bits per character, padding skipped, a non-zero
    remainder flushed as a last byte. *)
Fixpoint decode (s : string) (shift carry : Z) : list Z :=
  match s with
  | EmptyString =>
      if negb (shift =? 8) && negb (carry =? 0) then [carry] else []
  | String ch rest =>
      if Ascii.eqb ch "=" then decode rest shift carry
      else
        let sym := symbol ch in
        let shift' := shift - 5 in
        if 0 <? shift' then
          decode rest shift' (Z.lor carry (Z.shiftl sym shift'))
        else if shift' <? 0 then
          Z.lor carry (Z.shiftr sym (- shift'))
            :: decode rest (shift' + 8)
                 (Z.land (Z.shiftl sym (shift' + 8)) 255)
        else Z.lor carry sym :: decode rest 8 0
  end.

Definition base32_decode (secret : string) : list Z := decode secret 8 0.

(** [ToInt32], which the bit operators of JavaScript apply first. *)
Definition to_int32 (x : Z) : Z := (x + 2 ^ 31) mod 2 ^ 32 - 2 ^ 31.

(** The counter as a buffer of eight bytes, filled from the last one with
    [tmp & 0xff] and [tmp = tmp >> 8]: the big-endian bytes of the counter
    as long as it is below 2^31. *)
Fixpoint counter_buffer (n : nat) (tmp : Z) (buf : list Z) : list Z :=
  match n with
  | O => buf
  | S n' =>
      counter_buffer n' (Z.shiftr (to_int32 tmp) 8)
                     (Z.land (to_int32 tmp) 255 :: buf)
  end.

(** The six-digit HOTP value of a counter (dynamic truncation of the
    HMAC-SHA-1 of the counter buffer), as a number. *)
Definition hotp (secret : string) (counter : Z) : Z :=
  let h := sha1.hmac (base32_decode secret) (counter_buffer 8 counter []) in
  let offset := Z.to_nat (Z.land (nth 19 h 0) 15) in
  let code :=
    Z.lor (Z.lor (Z.shiftl (Z.land (nth offset h 0) 127) 24)
                 (Z.shiftl (nth (offset + 1) h 0) 16))
          (Z.lor (Z.shiftl (nth (offset + 2) h 0) 8)
                 (nth (offset + 3) h 0)) in
  code mod 1000000.

(** The time-step counter at clock [now] (milliseconds): steps of 30 s. *)
Definition counter (now : Z) : Z := now / 1000 / 30.

Definition digit_char (d : Z) : ascii := ascii_of_nat (48 + Z.to_nat d).

(** The value as the six-character string that an authenticator shows:
    decimal, padded with zeros on the left. *)
Definition code_string (n : Z) : string :=
  let q1 := n / 10 in
  let q2 := q1 / 10 in
  let q3 := q2 / 10 in
  let q4 := q3 / 10 in
  let q5 := q4 / 10 in
  String (digit_char (q5 mod 10))
    (String (digit_char (q4 mod 10))
       (String (digit_char (q3 mod 10))
          (String (digit_char (q2 mod 10))
             (String (digit_char (q1 mod 10))
                (String (digit_char (n mod 10)) EmptyString))))).

(** [speakeasy.totp({secret, encoding: 'base32'})] at clock [now]: the code
    generated at that time. *)
Definition totp (secret : string) (now : Z) : string :=
  code_string (hotp secret (counter now)).

(** The counters examined for a two-sided window: from [c - window] to
    [c + window], in this order. *)
Definition window_counters (c window : Z) : list Z :=
  map (fun i => c - window + Z.of_nat i) (seq 0 (Z.to_nat (2 * window + 1))).

(** [speakeasy.totp.verify({secret, encoding: 'base32', token, window})]:
    a token of six characters, read with [parseInt(token, 10)]. *)
Definition totp_verify (secret token : string) (window now : Z) : bool :=
  if negb (String.length token =? 6)%nat then false
  else
    match Js.parseInt10 token with
    | None => false
    | Some n =>
        existsb (fun c => hotp secret c =? n)
                (window_counters (counter now) window)
    end.

End speakeasy.

(** ** JSON values *)

Inductive JsValue : Type :=
| JsUndefined
| JsNull
| JsBool (b : bool)
| JsNumber (x : float)
| JsString (s : string)
| JsArray (items : list JsValue)
| JsObject (fields : list (string * JsValue)).

(** ** The database rows *)

(** The columns are those the code reads and writes.  Identifiers, opaque
    strings in the code, are numbered in the order in which the database
    assigns them; [role] and [status] are kept as the strings the code
    compares them with; dates are milliseconds since the epoch. *)

Module User.
Record t : Type := mk {
  id : N;
  email : string;
  passwordHash : bcrypt.Hash;
  firstName : string;
  lastName : string;
  phoneNumber : option string;
  role : string;
  status : string;
  emailVerified : bool;
  twoFactorEnabled : bool;
  twoFactorSecret : option string;
  lastLoginAt : option Z
}.

Definition with_lastLoginAt (at_ : Z) (u : t) : t :=
  mk (id u) (email u) (passwordHash u) (firstName u) (lastName u)
     (phoneNumber u) (role u) (status u) (emailVerified u)
     (twoFactorEnabled u) (twoFactorSecret u) (Some at_).

Definition with_verified (u : t) : t :=
  mk (id u) (email u) (passwordHash u) (firstName u) (lastName u)
     (phoneNumber u) (role u) "ACTIVE" true
     (twoFactorEnabled u) (twoFactorSecret u) (lastLoginAt u).
End User.

Module AuthTokens.
Record t : Type := mk {
  accessToken : jwt.Token;
  refreshToken : jwt.Token
}.
End AuthTokens.

Module Session.
Record t : Type := mk {
  id : N;
  userId : N;
  token : jwt.Token;
  refreshToken : jwt.Token;
  expiresAt : Z;
  refreshExpiresAt : Z;
  ipAddress : option string;
  userAgent : option string
}.
End Session.

Module AuditLog.
Record t : Type := mk {
  userId : N;
  action : string;
  resourceType : string;
  resourceId : N;
  details : option JsValue;
  ipAddress : option string;
  userAgent : option string
}.
End AuditLog.

(** A message handed to the mail transport.  The HTML and text bodies are
    fixed templates around the verification link, which embeds the token. *)
Module Mail.
Record t : Type := mk {
  to : string;
  subject : string;
  linkToken : jwt.Token
}.
End Mail.

(** ** The world a request handler runs in *)

Record World : Type := mkWorld {
  users : list User.t;
  sessions : list Session.t;
  auditLogs : list AuditLog.t;
  outbox : list Mail.t;      (* what the mail transport has accepted *)
  smtpUp : bool;             (* whether the transport accepts a message *)
  nextId : N;                (* the next identifier the database assigns *)
  clock : Z                  (* Date.now(), in milliseconds *)
}.

Definition set_users (us : list User.t) (w : World) : World :=
  mkWorld us (sessions w) (auditLogs w) (outbox w) (smtpUp w) (nextId w)
          (clock w).

Definition set_sessions (ss : list Session.t) (w : World) : World :=
  mkWorld (users w) ss (auditLogs w) (outbox w) (smtpUp w) (nextId w)
          (clock w).

Definition set_clock (t : Z) (w : World) : World :=
  mkWorld (users w) (sessions w) (auditLogs w) (outbox w) (smtpUp w)
          (nextId w) t.

(** ** Asynchronous computations: state and exceptions *)

Definition Async (A : Type) : Type := World -> Result A * World.

Definition ret {A} (a : A) : Async A := fun w => (Ok a, w).

Definition throw {A} (e : Error) : Async A := fun w => (Throw e, w).

Definition bind {A B} (m : Async A) (k : A -> Async B) : Async B :=
  fun w =>
    match m w with
    | (Ok a, w') => k a w'
    | (Throw e, w') => (Throw e, w')
    end.

(** [try { m } catch (error) { h error }] *)
Definition try_catch {A} (m : Async A) (h : Error -> Async A) : Async A :=
  fun w =>
    match m w with
    | (Ok a, w') => (Ok a, w')
    | (Throw e, w') => h e w'
    end.

Definition lift {A} (r : Result A) : Async A := fun w => (r, w).

Definition now : Async Z := fun w => (Ok (clock w), w).

Declare Scope async_scope.
Delimit Scope async_scope with async.
Notation "x <- m ;; k" := (bind m (fun x => k))
  (at level 61, m at next level, right associativity) : async_scope.
Notation "m ;; k" := (bind m (fun _ => k))
  (at level 61, right associativity) : async_scope.
Local Open Scope async_scope.

(** ** The ORM calls the code makes *)

(** The tables are kept in the world.  A call fails only for a reason that
    the code itself can cause (no row for an update or a delete, a value
    that is taken in a unique column, an invalid date); a database that is
    down or refuses a write for another reason is outside the model. *)
Module prisma.

Module user.
Definition findUnique_email (email : string) : Async (option User.t) :=
  fun w => (Ok (find (fun u => String.eqb (User.email u) email) (users w)), w).

Definition findUnique_id (id : N) : Async (option User.t) :=
  fun w => (Ok (find (fun u => N.eqb (User.id u) id) (users w)), w).

(** [create]: the database assigns the identifier; the columns the caller
    does not give take their defaults (not verified, no second factor,
    never logged in). *)
Definition create (email : string) (passwordHash : bcrypt.Hash)
           (firstName lastName : string) (phoneNumber : option string)
           (role status : string) : Async User.t :=
  fun w =>
    let u := User.mk (nextId w) email passwordHash firstName lastName
                     phoneNumber role status false false None None in
    (Ok u,
     mkWorld (users w ++ [u]) (sessions w) (auditLogs w) (outbox w)
             (smtpUp w) (N.succ (nextId w)) (clock w)).

(** [update({where: {id}, data})]: throws when no row has the id. *)
Definition update (id : N) (data : User.t -> User.t) : Async unit :=
  fun w =>
    if existsb (fun u => N.eqb (User.id u) id) (users w) then
      (Ok tt,
       set_users
         (map (fun u => if N.eqb (User.id u) id then data u else u)
              (users w)) w)
    else (Throw (PrismaError "P2025"), w).
End user.

Module session.
(** [create]: an invalid date is refused; [refreshToken] is a unique
    column (the code looks sessions up with [findUnique] on it). *)
Definition create (userId : N) (token refreshToken : jwt.Token)
           (expiresAt refreshExpiresAt : option Z)
           (ipAddress userAgent : option string) : Async unit :=
  fun w =>
    match expiresAt, refreshExpiresAt with
    | Some e, Some r =>
        if existsb (fun s => jwt.eqb (Session.refreshToken s) refreshToken)
                   (sessions w)
        then (Throw (PrismaError "P2002"), w)
        else
          let s := Session.mk (nextId w) userId token refreshToken e r
                              ipAddress userAgent in
          (Ok tt,
           mkWorld (users w) (sessions w ++ [s]) (auditLogs w) (outbox w)
                   (smtpUp w) (N.succ (nextId w)) (clock w))
    | _, _ => (Throw (PrismaError "invalid date"), w)
    end.

Definition findUnique_refreshToken (refreshToken : jwt.Token)
  : Async (option Session.t) :=
  fun w =>
    (Ok (find (fun s => jwt.eqb (Session.refreshToken s) refreshToken)
              (sessions w)), w).

(** [delete({where: {id}})]: throws when no row has the id. *)
Definition delete (id : N) : Async unit :=
  fun w =>
    if existsb (fun s => N.eqb (Session.id s) id) (sessions w) then
      (Ok tt,
       set_sessions
         (filter (fun s => negb (N.eqb (Session.id s) id)) (sessions w)) w)
    else (Throw (PrismaError "P2025"), w).

Definition deleteMany_token (token : jwt.Token) : Async unit :=
  fun w =>
    (Ok tt,
     set_sessions
       (filter (fun s => negb (jwt.eqb (Session.token s) token))
               (sessions w)) w).

Definition deleteMany_userId (userId : N) : Async unit :=
  fun w =>
    (Ok tt,
     set_sessions
       (filter (fun s => negb (N.eqb (Session.userId s) userId))
               (sessions w)) w).
End session.

Module auditLog.
Definition create (entry : AuditLog.t) : Async unit :=
  fun w =>
    (Ok tt,
     mkWorld (users w) (sessions w) (auditLogs w ++ [entry]) (outbox w)
             (smtpUp w) (nextId w) (clock w)).
End auditLog.

End prisma.

(** ** services/emailService.ts *)

Module emailService.

(** [sendEmail]: a failure of the transport becomes a 500 error. *)
Definition sendEmail (m : Mail.t) : Async unit :=
  fun w =>
    if smtpUp w then
      (Ok tt,
       mkWorld (users w) (sessions w) (auditLogs w) (outbox w ++ [m])
               (smtpUp w) (nextId w) (clock w))
    else (Throw (createError "Failed to send email" 500), w).

Definition sendVerificationEmail (email : string) (token : jwt.Token)
  : Async unit :=
  sendEmail
    (Mail.mk email "Verify Your Email Address - VPS Seller Portal" token).

End emailService.

(** ** services/authService.ts *)

Module AuthService.

Record t : Type := mk {
  jwtSecret : string;
  jwtRefreshSecret : string;
  jwtExpiresIn : string;
  jwtRefreshExpiresIn : string
}.

(** The constructor, from the four environment variables it reads. *)
Definition constructor
           (JWT_SECRET JWT_REFRESH_SECRET
            JWT_EXPIRES_IN JWT_REFRESH_EXPIRES_IN : option string)
  : Result t :=
  match JWT_SECRET, JWT_REFRESH_SECRET with
  | Some (String a s), Some (String b r) =>
      Ok (mk (String a s) (String b r)
             (Js.or_default JWT_EXPIRES_IN "15m")
             (Js.or_default JWT_REFRESH_EXPIRES_IN "7d"))
  | _, _ => Throw (PlainError "JWT secrets are not configured")
  end.

Definition hashPassword (password : string) : Async bcrypt.Hash :=
  ret (bcrypt.hash password).

Definition comparePassword (password : string) (hash : bcrypt.Hash)
  : Async bool :=
  ret (bcrypt.compare password hash).

Definition generateTokens (this : t) (payload : JWTPayload.t)
  : Async AuthTokens.t :=
  t <- now ;;
  accessToken <-
    lift (jwt.sign payload (jwtSecret this) (jwtExpiresIn this) t) ;;
  refreshToken <-
    lift (jwt.sign payload (jwtRefreshSecret this)
                   (jwtRefreshExpiresIn this) t) ;;
  ret (AuthTokens.mk accessToken refreshToken).

Definition verifyAccessToken (this : t) (token : jwt.Token)
  : Async JWTPayload.t :=
  t <- now ;;
  try_catch (lift (jwt.verify token (jwtSecret this) t))
    (fun error =>
       match error with
       | JwtError TokenExpiredError =>
           throw (createError "Access token expired" 401)
       | JwtError JsonWebTokenError =>
           throw (createError "Invalid access token" 401)
       | _ => throw error
       end).

Definition verifyRefreshToken (this : t) (token : jwt.Token)
  : Async JWTPayload.t :=
  t <- now ;;
  try_catch (lift (jwt.verify token (jwtRefreshSecret this) t))
    (fun error =>
       match error with
       | JwtError TokenExpiredError =>
           throw (createError "Refresh token expired" 401)
       | JwtError JsonWebTokenError =>
           throw (createError "Invalid refresh token" 401)
       | _ => throw error
       end).

(** [parseTimeToMs]: [None] is [NaN]. *)
Definition parseTimeToMs (timeString : string) : Result (option Z) :=
  let unit := Js.slice_last timeString in
  let value := Js.parseInt (Js.slice_init timeString) in
  match unit with
  | "s" => Ok (option_map (fun v => v * 1000) value)
  | "m" => Ok (option_map (fun v => v * 60 * 1000) value)
  | "h" => Ok (option_map (fun v => v * 60 * 60 * 1000) value)
  | "d" => Ok (option_map (fun v => v * 24 * 60 * 60 * 1000) value)
  | _ => Throw (PlainError ("Invalid time format: " ++ timeString)%string)
  end.

(** [new Date(now.getTime() + ms)]: [None] is an invalid date.  (A sum
    beyond the range of [Date], 8.64e15 ms from the epoch, is an invalid
    date too; lifetimes of that size are outside the model.) *)
Definition date_after (t : Z) (ms : option Z) : option Z :=
  option_map (fun d => t + d) ms.

Definition storeSession (this : t) (userId : N) (tokens : AuthTokens.t)
           (ipAddress userAgent : option string) : Async unit :=
  t <- now ;;
  access_ms <- lift (parseTimeToMs (jwtExpiresIn this)) ;;
  refresh_ms <- lift (parseTimeToMs (jwtRefreshExpiresIn this)) ;;
  prisma.session.create userId (AuthTokens.accessToken tokens)
                        (AuthTokens.refreshToken tokens)
                        (date_after t access_ms) (date_after t refresh_ms)
                        ipAddress userAgent.

Definition refreshSession (this : t) (refreshToken : jwt.Token)
  : Async AuthTokens.t :=
  payload <- verifyRefreshToken this refreshToken ;;
  session <- prisma.session.findUnique_refreshToken refreshToken ;;
  (* include: { user: true } *)
  user <- match session with
          | Some s => prisma.user.findUnique_id (Session.userId s)
          | None => ret None
          end ;;
  t <- now ;;
  match session with
  | None => throw (createError "Session expired" 401)
  | Some session =>
      if Session.refreshExpiresAt session <? t then
        throw (createError "Session expired" 401)
      else
        match user with
        | None => throw (TypeError "Cannot read properties of null")
        | Some user =>
            if negb (String.eqb (User.status user) "ACTIVE") then
              throw (createError "Account is not active" 401)
            else
              prisma.session.delete (Session.id session) ;;
              newTokens <-
                generateTokens this
                  (JWTPayload.mk (JWTPayload.userId payload)
                                 (JWTPayload.email payload)
                                 (JWTPayload.role payload)) ;;
              storeSession this (JWTPayload.userId payload) newTokens
                           None None ;;
              ret newTokens
        end
  end.

Definition revokeSession (token : jwt.Token) : Async unit :=
  prisma.session.deleteMany_token token.

Definition revokeAllUserSessions (userId : N) : Async unit :=
  prisma.session.deleteMany_userId userId.

(** [verify2FAToken]: a window of two steps before and after. *)
Definition verify2FAToken (secret token : string) : Async bool :=
  t <- now ;;
  ret (speakeasy.totp_verify secret token 2 t).

End AuthService.

(** ** Requests, responses and what a handler does with them *)

Record Request (Body : Type) : Type := mkRequest {
  body : Body;
  ip : option string;
  userAgent : option string;
  (* the Authorization header after [replace('Bearer ', '')] *)
  authorization : option jwt.Token
}.
Arguments mkRequest {Body}.
Arguments body {Body}.
Arguments ip {Body}.
Arguments userAgent {Body}.
Arguments authorization {Body}.

(** [req.user], as the middleware attaches it. *)
Module AuthUser.
Record t : Type := mk {
  id : N;
  email : string;
  role : string;
  status : string
}.
End AuthUser.

(** The price of each dimension of a configuration. *)
Record Breakdown : Type := mkBreakdown {
  cpu : float;
  ram : float;
  storage : float;
  operatingSystem : float
}.

Inductive ResponseData : Type :=
| NoData
| PriceData (totalPrice : float) (breakdown : Breakdown)
| RegisterData (user : User.t)
| LoginData (user : User.t) (tokens : option AuthTokens.t)
            (requires2FA : bool) (tempToken : option jwt.Token)
| Verify2FAData (user : User.t) (tokens : AuthTokens.t)
| RefreshData (tokens : AuthTokens.t).

Record Response : Type := mkResponse {
  statusCode : Z;
  success : bool;
  message : option string;
  data : ResponseData
}.

(** How an Express handler ends: it sends a response, calls [next()] (a
    middleware, with what it attached to the request), or calls
    [next(error)]. *)
Inductive Outcome : Type :=
| Sent (res : Response)
| Next (user : AuthUser.t)
| NextError (e : Error).

(** [try { ... res.json(r) } catch (error) { next(error) }] *)
Definition controller (m : Async Response) (w : World) : Outcome * World :=
  match m w with
  | (Ok r, w') => (Sent r, w')
  | (Throw e, w') => (NextError e, w')
  end.

(** [try { ... next() } catch (error) { next(error) }] *)
Definition middleware (m : Async AuthUser.t) (w : World) : Outcome * World :=
  match m w with
  | (Ok u, w') => (Next u, w')
  | (Throw e, w') => (NextError e, w')
  end.

(** ** middleware/auth.ts *)

(** [!token] on the header value: absent, or the empty string. *)
Definition falsy_token (token : option jwt.Token) : bool :=
  match token with
  | None => true
  | Some (jwt.Malformed "") => true
  | Some _ => false
  end.

Definition authenticate {B} (JWT_SECRET : string) (req : Request B)
  : World -> Outcome * World :=
  middleware (
    match authorization req with
    | None => throw (createError "Access token required" 401)
    | Some token =>
        if falsy_token (Some token) then
          throw (createError "Access token required" 401)
        else
          t <- now ;;
          decoded <- lift (jwt.verify token JWT_SECRET t) ;;
          user <- prisma.user.findUnique_id (JWTPayload.userId decoded) ;;
          match user with
          | None => throw (createError "User not found" 401)
          | Some user =>
              if negb (String.eqb (User.status user) "active") then
                throw (createError "Account is not active" 401)
              else if negb (User.emailVerified user) then
                throw (createError "Email not verified" 401)
              else
                ret (AuthUser.mk (User.id user) (User.email user)
                                 (User.role user) (User.status user))
          end
    end).

(** [authorize(...roles)], applied to what [req.user] holds. *)
Definition authorize (roles : list string) (user : option AuthUser.t)
  : Outcome :=
  match user with
  | None => NextError (createError "Authentication required" 401)
  | Some user =>
      if existsb (fun r => String.eqb r (AuthUser.role user)) roles then
        Next user
      else NextError (createError "Insufficient permissions" 403)
  end.

(** [optionalAuth]: every path ends in [next()], with or without a user
    attached to the request; whatever the token check throws is caught. *)
Definition optionalAuth {B} (JWT_SECRET : string) (req : Request B)
           (w : World) : option AuthUser.t * World :=
  match authorization req with
  | None => (None, w)
  | Some token =>
      if falsy_token (Some token) then (None, w)
      else
        match
          (t <- now ;;
           decoded <- lift (jwt.verify token JWT_SECRET t) ;;
           user <- prisma.user.findUnique_id (JWTPayload.userId decoded) ;;
           match user with
           | Some user =>
               if String.eqb (User.status user) "active"
                  && User.emailVerified user
               then ret (Some (AuthUser.mk (User.id user) (User.email user)
                                           (User.role user) (User.status user)))
               else ret None
           | None => ret None
           end) w
        with
        | (Ok attached, w') => (attached, w')
        | (Throw _, w') => (None, w')
        end
  end.

(** ** controllers/authController.ts *)

Module authController.

Import AuthService.

Record RegisterBody : Type := mkRegisterBody {
  reg_email : string;
  reg_password : string;
  reg_firstName : string;
  reg_lastName : string;
  reg_phoneNumber : option string
}.

Record LoginBody : Type := mkLoginBody {
  login_email : string;
  login_password : string;
  login_rememberMe : option bool
}.

Record Verify2FABody : Type := mkVerify2FABody {
  v2fa_token : string;
  v2fa_tempToken : jwt.Token
}.

Definition json_of_flag (b : option bool) : JsValue :=
  match b with Some v => JsBool v | None => JsUndefined end.

Definition registered : string :=
  "Registration successful. Please check your email to verify your account.".

Definition register (authService : AuthService.t) (req : Request RegisterBody)
  : World -> Outcome * World :=
  controller (
    let email := reg_email (body req) in
    let password := reg_password (body req) in
    let firstName := reg_firstName (body req) in
    let lastName := reg_lastName (body req) in
    let phoneNumber := reg_phoneNumber (body req) in
    existingUser <- prisma.user.findUnique_email email ;;
    match existingUser with
    | Some _ => throw (createError "A user with this email already exists" 409)
    | None =>
        passwordHash <- hashPassword password ;;
        user <- prisma.user.create email passwordHash firstName lastName
                                   phoneNumber "CUSTOMER" "PENDING" ;;
        tokens <- generateTokens authService
                    (JWTPayload.mk (User.id user) (User.email user)
                                   (User.role user)) ;;
        let verificationToken := AuthTokens.accessToken tokens in
        emailService.sendVerificationEmail (User.email user)
                                           verificationToken ;;
        prisma.auditLog.create
          (AuditLog.mk (User.id user) "USER_REGISTERED" "USER" (User.id user)
             (Some (JsObject [("email", JsString (User.email user));
                              ("firstName", JsString firstName);
                              ("lastName", JsString lastName)]))
             (ip req) (userAgent req)) ;;
        ret (mkResponse 201 true
               (Some registered)
               (RegisterData user))
    end).

Definition login (authService : AuthService.t) (req : Request LoginBody)
  : World -> Outcome * World :=
  controller (
    let email := login_email (body req) in
    let password := login_password (body req) in
    let rememberMe := login_rememberMe (body req) in
    user <- prisma.user.findUnique_email email ;;
    match user with
    | None => throw (createError "Invalid email or password" 401)
    | Some user =>
        isPasswordValid <- comparePassword password (User.passwordHash user) ;;
        if negb isPasswordValid then
          throw (createError "Invalid email or password" 401)
        else if String.eqb (User.status user) "SUSPENDED" then
          throw (createError "Account has been suspended" 403)
        else if String.eqb (User.status user) "TERMINATED" then
          throw (createError "Account has been terminated" 403)
        else
          tokens <- generateTokens authService
                      (JWTPayload.mk (User.id user) (User.email user)
                                     (User.role user)) ;;
          storeSession authService (User.id user) tokens
                       (ip req) (userAgent req) ;;
          t <- now ;;
          prisma.user.update (User.id user) (User.with_lastLoginAt t) ;;
          prisma.auditLog.create
            (AuditLog.mk (User.id user) "USER_LOGIN" "USER" (User.id user)
               (Some (JsObject [("email", JsString email);
                                ("rememberMe", json_of_flag rememberMe)]))
               (ip req) (userAgent req)) ;;
          if User.twoFactorEnabled user then
            ret (mkResponse 200 true
                   (Some "Login successful. Please enter your 2FA code.")
                   (LoginData user None true
                              (Some (AuthTokens.accessToken tokens))))
          else
            ret (mkResponse 200 true (Some "Login successful")
                   (LoginData user (Some tokens) false None))
    end).

(** [!user.twoFactorSecret]: absent, or the empty string. *)
Definition usable_secret (u : User.t) : option string :=
  match User.twoFactorSecret u with
  | Some (String c r) => Some (String c r)
  | _ => None
  end.

Definition verify2FA (authService : AuthService.t) (req : Request Verify2FABody)
  : World -> Outcome * World :=
  controller (
    let token := v2fa_token (body req) in
    let tempToken := v2fa_tempToken (body req) in
    payload <- try_catch (verifyAccessToken authService tempToken)
                 (fun _ =>
                    throw (createError "Invalid or expired temporary token"
                                       401)) ;;
    user <- prisma.user.findUnique_id (JWTPayload.userId payload) ;;
    match user with
    | None => throw (createError "2FA not set up for this account" 400)
    | Some user =>
        match usable_secret user with
        | None => throw (createError "2FA not set up for this account" 400)
        | Some twoFactorSecret =>
            isValidToken <- verify2FAToken twoFactorSecret token ;;
            if negb isValidToken then
              throw (createError "Invalid 2FA code" 401)
            else
              tokens <- generateTokens authService
                          (JWTPayload.mk (User.id user) (User.email user)
                                         (User.role user)) ;;
              storeSession authService (User.id user) tokens
                           (ip req) (userAgent req) ;;
              prisma.auditLog.create
                (AuditLog.mk (User.id user) "2FA_VERIFIED" "USER"
                   (User.id user) None (ip req) (userAgent req)) ;;
              ret (mkResponse 200 true (Some "2FA verification successful")
                     (Verify2FAData user tokens))
        end
    end).

Definition refreshToken (authService : AuthService.t)
           (req : Request jwt.Token) : World -> Outcome * World :=
  controller (
    tokens <- refreshSession authService (body req) ;;
    ret (mkResponse 200 true (Some "Token refreshed successfully")
           (RefreshData tokens))).

Definition verifyEmail (authService : AuthService.t) (req : Request jwt.Token)
  : World -> Outcome * World :=
  controller (
    let token := body req in
    payload <- verifyAccessToken authService token ;;
    user <- prisma.user.findUnique_id (JWTPayload.userId payload) ;;
    match user with
    | None => throw (createError "Invalid verification token" 400)
    | Some user =>
        if User.emailVerified user then
          ret (mkResponse 200 true (Some "Email already verified") NoData)
        else
          prisma.user.update (User.id user) User.with_verified ;;
          prisma.auditLog.create
            (AuditLog.mk (User.id user) "EMAIL_VERIFIED" "USER"
               (User.id user) None (ip req) (userAgent req)) ;;
          ret (mkResponse 200 true (Some "Email verified successfully") NoData)
    end).

(** [logout]: [reqUser] is [req.user], which the route's middleware
    attaches. *)
Definition logout (req : Request unit) (reqUser : option AuthUser.t)
  : World -> Outcome * World :=
  controller (
    match authorization req with
    | Some token =>
        if falsy_token (Some token) then ret tt else revokeSession token
    | None => ret tt
    end ;;
    match reqUser with
    | Some user =>
        prisma.auditLog.create
          (AuditLog.mk (AuthUser.id user) "USER_LOGOUT" "USER"
             (AuthUser.id user) None (ip req) (userAgent req))
    | None => ret tt
    end ;;
    ret (mkResponse 200 true (Some "Logout successful") NoData)).

(** [getProfile]: the answer is [{success, data: {user}}], the shape of
    [RegisterData]; [reqUser] is the [req.user] that the code asserts. *)
Definition getProfile (reqUser : AuthUser.t) : World -> Outcome * World :=
  controller (
    user <- prisma.user.findUnique_id (AuthUser.id reqUser) ;;
    match user with
    | None => throw (createError "User not found" 404)
    | Some user => ret (mkResponse 200 true None (RegisterData user))
    end).

End authController.

(** ** routes/vps.ts: the calculate-price handler *)

Module vps.

(** [Number(x.toFixed(2))].  [toFixed] takes the integer [n] closest to
    [100 |x|] (the larger one on a tie) and prints [n / 100] with the sign
    of [x]; [Number] reads the decimal back as the closest float.  From
    1e21 on, and for infinities and NaN, the string is that of [x]. *)
Definition nearest_cents (m : positive) (e : Z) : Z :=
  if 0 <=? e then Z.pos m * 2 ^ e * 100
  else Z.shiftr (Z.pos m * 200 + 2 ^ (- e)) (- e + 1).

Definition float_of_cents (negative : bool) (n : Z) : float :=
  match n with
  | Z.pos p =>
      SF2Prim (SFdiv prec emax (S754_finite negative p 0)
                     (S754_finite false 100 0))
  | _ => if negative then (-0)%float else 0%float
  end.

Definition toFixed2 (x : float) : float :=
  match Prim2SF x with
  | S754_finite s m e =>
      if PrimFloat.leb 1e21 (PrimFloat.abs x) then x
      else float_of_cents s (nearest_cents m e)
  | S754_zero _ => 0%float
  | _ => x
  end.

(** The request body: the three sizes are JSON numbers; the operating
    system is whatever JSON value the client sent, or [JsUndefined] when
    the field is absent. *)
Record PriceBody : Type := mkPriceBody {
  cpuCores : float;
  ramGb : float;
  storageGb : float;
  operatingSystem : JsValue
}.

Definition same_string (search : string) (v : JsValue) : bool :=
  match v with
  | JsString s => String.eqb s search
  | _ => false
  end.

(** [operatingSystem.includes(search)]: strings and arrays have the method;
    reading it from [undefined] or [null] throws, and so does calling it on
    a number, a boolean or an object of the body. *)
Definition includes (operatingSystem : JsValue) (search : string)
  : Result bool :=
  match operatingSystem with
  | JsString s => Ok (Js.includes s search)
  | JsArray items => Ok (existsb (same_string search) items)
  | JsUndefined =>
      Throw (TypeError
               "Cannot read properties of undefined (reading 'includes')")
  | JsNull =>
      Throw (TypeError "Cannot read properties of null (reading 'includes')")
  | _ => Throw (TypeError "operatingSystem.includes is not a function")
  end.

(** The handler has no [try]: what it throws goes to Express, which calls
    [next(error)]. *)
Definition calculate_price (req : Request PriceBody) (w : World)
  : Outcome * World :=
  let cpuPrice := (cpuCores (body req) * 5)%float in
  let ramPrice := (ramGb (body req) * 4)%float in
  let storagePrice := (storageGb (body req) * 0.1)%float in
  match includes (operatingSystem (body req)) "Windows" with
  | Throw e => (NextError e, w)
  | Ok windows =>
      let osPrice := if windows then 15%float else 0%float in
      let totalPrice := (cpuPrice + ramPrice + storagePrice + osPrice)%float in
      (Sent (mkResponse 200 true None
               (PriceData (toFixed2 totalPrice)
                  (mkBreakdown cpuPrice ramPrice storagePrice osPrice))),
       w)
  end.

End vps.

(** ** routes/auth.ts and routes/admin.ts *)

Module routes.

Import authController.

(** [router.post(path, authenticate, handler)] *)
Definition behind_authenticate {B} (JWT_SECRET : string) (req : Request B)
           (handler : AuthUser.t -> World -> Outcome * World) (w : World)
  : Outcome * World :=
  match authenticate JWT_SECRET req w with
  | (Next user, w') => handler user w'
  | other => other
  end.

(** The requests that the authentication router serves, with bodies that
    passed the schema of the route. *)
Inductive Call : Type :=
| PostRegister (req : Request RegisterBody)
| PostLogin (req : Request LoginBody)
| PostVerify2FA (req : Request Verify2FABody)
| PostRefreshToken (req : Request jwt.Token)
| PostLogout (req : Request unit)
| PostVerifyEmail (req : Request jwt.Token)
| GetProfile (req : Request unit).

(** The middleware reads the secret that the service copied at start. *)
Definition auth (authService : AuthService.t) (call : Call)
  : World -> Outcome * World :=
  match call with
  | PostRegister req => register authService req
  | PostLogin req => login authService req
  | PostVerify2FA req => verify2FA authService req
  | PostRefreshToken req => refreshToken authService req
  | PostLogout req =>
      behind_authenticate (AuthService.jwtSecret authService) req
        (fun user => logout req (Some user))
  | PostVerifyEmail req => verifyEmail authService req
  | GetProfile req =>
      behind_authenticate (AuthService.jwtSecret authService) req getProfile
  end.

(** Requests served one after the other, each at its own time. *)
Fixpoint serve (authService : AuthService.t) (calls : list (Z * Call))
         (w : World) : World :=
  match calls with
  | [] => w
  | (t, call) :: rest =>
      serve authService rest (snd (auth authService call (set_clock t w)))
  end.

(** The administration router: [router.use(authenticate)], then
    [router.use(authorize('ADMIN', 'SUPER_ADMIN'))], then a handler that
    answers 501 with its message. *)
Definition admin {B} (JWT_SECRET message : string) (req : Request B)
  : World -> Outcome * World :=
  behind_authenticate JWT_SECRET req
    (fun user w =>
       match authorize ["ADMIN"; "SUPER_ADMIN"] (Some user) with
       | Next _ => (Sent (mkResponse 501 false (Some message) NoData), w)
       | refused => (refused, w)
       end).

End routes.

(** ** The answer of GET /api/vps/plans *)

Module plans.

Definition pricePerCore : float := 5.
Definition pricePerGb : float := 4.
Definition storagePricePerGb : float := 0.1.

Definition operatingSystems : list (string * float) :=
  [("Ubuntu 22.04 LTS", 0%float); ("Debian 11", 0%float);
   ("CentOS Stream 9", 0%float); ("Windows Server 2022", 15%float)].

End plans.

(** ** contexts/AuthContext.tsx: the reducer of the client *)

Module AuthContext.

(** A parsed JSON object: its properties, in order. *)
Definition Obj : Type := list (string * JsValue).

Fixpoint lookup (key : string) (o : Obj) : option JsValue :=
  match o with
  | [] => None
  | (k, v) :: rest => if String.eqb k key then Some v else lookup key rest
  end.

Definition has (key : string) (o : Obj) : bool :=
  match lookup key o with Some _ => true | None => false end.

(** [{ ...a, ...b }]: the properties of [a], with the values that [b] gives
    them, then the properties that only [b] has. *)
Definition spread (a b : Obj) : Obj :=
  map (fun kv => match lookup (fst kv) b with
                 | Some v => (fst kv, v)
                 | None => kv
                 end) a
  ++ filter (fun kv => negb (has (fst kv) a)) b.

Record AuthState : Type := mkState {
  user : option Obj;
  tokens : option AuthTokens.t;
  isLoading : bool;
  isAuthenticated : bool;
  requires2FA : bool;
  tempToken : option jwt.Token
}.

(** The actions that the provider dispatches, with their payloads; any other
    [type] is [Other]. *)
Inductive AuthAction : Type :=
| AUTH_START
| LOGIN_SUCCESS (user : Obj) (tokens : AuthTokens.t)
| REQUIRED_2FA (tempToken : option jwt.Token)
| LOGOUT
| UPDATE_USER (payload : Obj)
| SET_LOADING (payload : bool)
| INIT_AUTH (user : option Obj) (tokens : AuthTokens.t)
| Other (type : string).

Definition initialState : AuthState :=
  mkState None None true false false None.

Definition authReducer (state : AuthState) (action : AuthAction)
  : AuthState :=
  match action with
  | AUTH_START =>
      mkState (user state) (tokens state) true (isAuthenticated state)
              (requires2FA state) (tempToken state)
  | LOGIN_SUCCESS u t => mkState (Some u) (Some t) false true false None
  | REQUIRED_2FA temp =>
      mkState (user state) (tokens state) false (isAuthenticated state)
              true temp
  | LOGOUT => mkState None None false false false None
  | UPDATE_USER payload =>
      mkState (Some (spread (match user state with
                             | Some u => u
                             | None => []
                             end) payload))
              (tokens state) (isLoading state) (isAuthenticated state)
              (requires2FA state) (tempToken state)
  | SET_LOADING b =>
      mkState (user state) (tokens state) b (isAuthenticated state)
              (requires2FA state) (tempToken state)
  | INIT_AUTH u t =>
      mkState u (Some t) false
              (match u with Some _ => true | None => false end)
              (requires2FA state) (tempToken state)
  | Other _ => state
  end.

End AuthContext.

(** ** pages/configure.tsx: the price that the client shows *)

Module configurePage.

Record VPSConfiguration : Type := mkConfiguration {
  cpuCores : float;
  ramGb : float;
  storageGb : float;
  operatingSystem : string;
  datacenterLocation : string
}.

Definition operatingSystems : list (string * float) :=
  [("Ubuntu 22.04 LTS", 0%float); ("Debian 11", 0%float);
   ("CentOS Stream 9", 0%float); ("Windows Server 2022", 15%float)].

(** [x || 0] on the price of the entry found, if any: zero and NaN are
    falsy. *)
Definition or_zero (price : option float) : float :=
  match price with
  | Some x =>
      if PrimFloat.eqb x 0 || PrimFloat.is_nan x then 0%float else x
  | None => 0%float
  end.

(** What [calculatePrice] hands to [setPricing]. *)
Definition calculatePrice (configuration : VPSConfiguration)
  : float * Breakdown :=
  let cpuPrice := (cpuCores configuration * 5)%float in
  let ramPrice := (ramGb configuration * 4)%float in
  let storagePrice := (storageGb configuration * 0.1)%float in
  let osPrice :=
    or_zero
      (option_map snd
         (find (fun os =>
                  String.eqb (fst os) (operatingSystem configuration))
               operatingSystems)) in
  let totalPrice := (cpuPrice + ramPrice + storagePrice + osPrice)%float in
  (vps.toFixed2 totalPrice,
   mkBreakdown cpuPrice ramPrice (vps.toFixed2 storagePrice) osPrice).

End configurePage.

Import AuthService authController.

(** ** An example configuration, database and requests *)

Definition demoService : AuthService.t :=
  AuthService.mk "access-secret" "refresh-secret" "15m" "7d".

(** The secret of the RFC 4226 test vectors, in base32 (it is the secret of
    [alice] when her second factor is on). *)
Definition rfcSecret : string := "GEZDGNBVGY3TQOJQGEZDGNBVGY3TQOJQ".

Definition alice (status : string) (verified twoFactor : bool) : User.t :=
  User.mk 1 "a@x.com" (bcrypt.hash "Passw0rd!") "Alice" "Doe" None
          "CUSTOMER" status verified twoFactor
          (if twoFactor then Some rfcSecret else None)
          None.

Definition demoWorld (us : list User.t) : World :=
  mkWorld us [] [] [] true 2 1704067200000.

Definition registerAlice : Request RegisterBody :=
  mkRequest (mkRegisterBody "a@x.com" "Passw0rd!" "Alice" "Doe" None)
            (Some "10.0.0.1") (Some "curl") None.

Definition loginAlice : Request LoginBody :=
  mkRequest (mkLoginBody "a@x.com" "Passw0rd!" None)
            (Some "10.0.0.1") (Some "curl") None.

Definition alicePayload : JWTPayload.t := JWTPayload.mk 1 "a@x.com" "CUSTOMER".

(** The token pair signed for Alice at the clock of [demoWorld]. *)
Definition aliceTokens : AuthTokens.t :=
  AuthTokens.mk (jwt.Signed alicePayload "access-secret" 1704067200 1704068100)
           (jwt.Signed alicePayload "refresh-secret" 1704067200 1704672000).

(** The session row that [storeSession] writes for [aliceTokens]. *)
Definition aliceSession : Session.t :=
  Session.mk 2 1 (AuthTokens.accessToken aliceTokens)
             (AuthTokens.refreshToken aliceTokens)
             1704068100000 1704672000000 (Some "10.0.0.1") (Some "curl").

Definition bearerAlice : Request unit :=
  mkRequest tt (Some "10.0.0.1") (Some "curl")
            (Some (AuthTokens.accessToken aliceTokens)).

(** Two secrets with one HMAC key: a secret of 80 bytes, and the 32 bytes
    of its SHA-256 digest.  Both are values that a process can find in its
    environment: well-formed UTF-8 without NUL. *)
Definition longSecret : string :=
  "vps-portal-access-secret-that-is-longer-than-one-block-of-sha256-000000369531765".




(** Bytes in hexadecimal, as digests are printed. *)
Definition hex_digit (n : Z) : ascii :=
  ascii_of_nat (Z.to_nat (if n <? 10 then 48 + n else 87 + n)).

Fixpoint hex (l : list Z) : string :=
  match l with
  | [] => EmptyString
  | b :: rest =>
      String (hex_digit (b / 16)) (String (hex_digit (b mod 16)) (hex rest))
  end.



(** The answer of verifyEmail for an email that is verified already. *)
Definition alreadyVerified : Response :=
  mkResponse 200 true (Some "Email already verified") NoData.

(** The world one minute after Alice logged in, and what a refresh makes of
    it. *)
Definition loggedIn : World :=
  mkWorld [alice "ACTIVE" true false] [aliceSession] [] [] true 3 1704067260000.

Definition rotatedTokens : AuthTokens.t :=
  AuthTokens.mk
    (jwt.Signed alicePayload "access-secret" 1704067260 1704068160)
    (jwt.Signed alicePayload "refresh-secret" 1704067260 1704672060).

Definition rotatedSession : Session.t :=
  Session.mk 3 1 (AuthTokens.accessToken rotatedTokens)
             (AuthTokens.refreshToken rotatedTokens)
             1704068160000 1704672060000 None None.

Definition rotated : World :=
  mkWorld [alice "ACTIVE" true false] [rotatedSession] [] [] true 4
          1704067260000.

(** The second step of a login with the second factor, with the code of the
    moment. *)
Definition verifyAlice : Request Verify2FABody :=
  mkRequest (mkVerify2FABody (speakeasy.totp rfcSecret 1704067200000)
                             (AuthTokens.accessToken aliceTokens))
            (Some "10.0.0.1") (Some "curl") None.

(** The four values of the status column (the ones the application writes
    and the client types list). *)
Definition known_status (status : string) : Prop :=
  status = "PENDING" \/ status = "ACTIVE" \/
  status = "SUSPENDED" \/ status = "TERMINATED".

(** ** Vocabulary of the session store *)

Definition SessionExpired : Error := createError "Session expired" 401.

(** No session row carries the refresh token, or the row found for it has
    its [refreshExpiresAt] in the past. *)
Definition no_live_session (refreshToken : jwt.Token) (w : World) : Prop :=
  match find (fun s => jwt.eqb (Session.refreshToken s) refreshToken)
             (sessions w) with
  | None => True
  | Some s => Session.refreshExpiresAt s < clock w
  end.

(** The unique constraint on the [refreshToken] column. *)
Definition unique_refreshTokens (w : World) : Prop :=
  NoDup (map Session.refreshToken (sessions w)).

(** ** Vocabulary of the price calculator *)

(** The price as the specification words it: five per core, four per GB of
    memory, a tenth per GB of storage, and fifteen more when the name of the
    operating system contains "Windows". *)
Definition price_formula (cpuCores ramGb storageGb : float) (os : string)
  : float :=
  (cpuCores * 5 + ramGb * 4 + storageGb * 0.1
   + (if Js.includes os "Windows" then 15 else 0))%float.

(** A JSON value on which [.includes] can be called. *)
Definition has_includes (v : JsValue) : bool :=
  match v with
  | JsString _ | JsArray _ => true
  | _ => false
  end.

Definition priceRequest (cpuCores ramGb storageGb : float)
           (operatingSystem : JsValue) : Request vps.PriceBody :=
  mkRequest (vps.mkPriceBody cpuCores ramGb storageGb operatingSystem)
            None None None.

(** What a price response says, if the handler sent one. *)
Definition priced (o : Outcome * World) : option (float * Breakdown) :=
  match fst o with
  | Sent res =>
      match data res with
      | PriceData total b => Some (total, b)
      | _ => None
      end
  | _ => None
  end.

(** The configurations that GET /plans offers: 1 to 16 cores, 1 to 64 GB of
    memory, 10 to 1000 GB of storage in steps of 10, and four systems. *)
Definition float_of_nat (n : nat) : float :=
  PrimFloat.of_uint63 (Uint63.of_Z (Z.of_nat n)).

Definition plan_systems : list string :=
  ["Ubuntu 22.04 LTS"; "Debian 11"; "CentOS Stream 9"; "Windows Server 2022"].

Definition in_plans (cpuCores ramGb storageTens : nat) (os : string) : Prop :=
  (1 <= cpuCores <= 16)%nat /\ (1 <= ramGb <= 64)%nat /\
  (1 <= storageTens <= 100)%nat /\ In os plan_systems.

(** ** Two moments three hours apart *)

(** 2024-01-01 01:06:00 and 04:08:30 UTC, in milliseconds. *)
Definition earlier : Z := 1704071160000.
Definition later : Z := 1704082110000.

(** ** Vocabulary of the database as a whole *)

(** The columns of a user row that are set when the row is created. *)
Definition identity (u : User.t) :=
  (User.id u, User.email u, User.passwordHash u,
   (User.firstName u, User.lastName u, User.phoneNumber u),
   User.role u, (User.twoFactorEnabled u, User.twoFactorSecret u)).

Definition extends {A} (l l' : list A) : Prop := exists more, l' = l ++ more.

(** From [w] to [w']: the audit log and the outbox only got longer, the
    user rows are the same rows with the same identity columns, followed by
    new ones, and the identifier counter did not go back. *)
Definition grows (w w' : World) : Prop :=
  extends (auditLogs w) (auditLogs w') /\
  extends (outbox w) (outbox w') /\
  extends (map identity (users w)) (map identity (users w')) /\
  (nextId w <= nextId w')%N.

(** The constraints of the schema: identifiers and emails of users are
    unique, identifiers and refresh tokens of sessions are unique, and every
    identifier in use was assigned already. *)
Definition db_ok (w : World) : Prop :=
  NoDup (map User.id (users w)) /\
  NoDup (map User.email (users w)) /\
  (forall u, In u (users w) -> (User.id u < nextId w)%N) /\
  NoDup (map Session.id (sessions w)) /\
  unique_refreshTokens w /\
  (forall s, In s (sessions w) -> (Session.id s < nextId w)%N).

(** A computation whose every run relates the world before to the world
    after. *)
Definition respects (R : World -> World -> Prop) {A} (m : Async A) : Prop :=
  forall w, R w (snd (m w)).

(** ** Vocabulary of the invariants *)

(** Every run keeps the constraints of the schema. *)
Definition keeps_db (w w' : World) : Prop := db_ok w -> db_ok w'.

(** Every status in the user table is one of the four upper-case values. *)
Definition statuses_known (w : World) : Prop :=
  forall u, In u (users w) -> known_status (User.status u).

Definition keeps_known (w w' : World) : Prop :=
  statuses_known w -> statuses_known w'.

(** The errors that login and verify2FA can end in before anything is
    written: their own refusals, and what signing the pair and storing the
    session raise (the insert of the session is their first write).  The
    two writes that follow it never fail in this store; a rejection of one
    of them by a real database would be none of these errors. *)
Definition storeSession_errors (authService : AuthService.t) : list Error :=
  [PlainError "invalid expiresIn option";
   PlainError ("Invalid time format: " ++ jwtExpiresIn authService)%string;
   PlainError ("Invalid time format: " ++ jwtRefreshExpiresIn authService)%string;
   PrismaError "invalid date";
   PrismaError "P2002"].

Definition login_errors (authService : AuthService.t) : list Error :=
  [createError "Invalid email or password" 401;
   createError "Account has been suspended" 403;
   createError "Account has been terminated" 403]
  ++ storeSession_errors authService.

Definition verify2FA_errors (authService : AuthService.t) : list Error :=
  [createError "Invalid or expired temporary token" 401;
   createError "2FA not set up for this account" 400;
   createError "Invalid 2FA code" 401]
  ++ storeSession_errors authService.

(** * Properties *)

(** ** Running a computation *)

Ltac run :=
  cbv beta iota delta
    [bind ret throw lift try_catch now controller middleware
     prisma.user.findUnique_email prisma.user.findUnique_id
     prisma.session.findUnique_refreshToken
     hashPassword comparePassword].

Lemma find_some_of_In {A} (p : A -> bool) (l : list A) (x : A) :
  In x l -> p x = true -> exists y, find p l = Some y.
Proof.
  induction l as [| a l IH]; simpl; [tauto |].
  intros [-> | Hin] Hp.
  - rewrite Hp. eauto.
  - destruct (p a); eauto.
Qed.

(** ** Registration *)

(** C8. A register request whose email already belongs to a user ends in
    [next(error)] with the 409 conflict error, and the world is left exactly
    as it was: no user row is added or changed, no mail is handed to the
    transport, no audit entry is written. *)
Theorem register_duplicate_email_conflict
        (authService : AuthService.t) (req : Request RegisterBody)
        (w : World) (u : User.t) :
  In u (users w) ->
  User.email u = reg_email (body req) ->
  register authService req w =
    (NextError (createError "A user with this email already exists" 409), w).
Proof.
  intros Hin Hmail.
  destruct (find_some_of_In
              (fun x => String.eqb (User.email x) (reg_email (body req)))
              (users w) u Hin) as [y Hy].
  - rewrite Hmail. apply String.eqb_refl.
  - unfold register. run. rewrite Hy. reflexivity.
Qed.

Lemma register_duplicate_email_conflict_witness :
  register demoService registerAlice (demoWorld [alice "ACTIVE" true false]) =
    (NextError (createError "A user with this email already exists" 409),
     demoWorld [alice "ACTIVE" true false]).
Proof.
  apply (register_duplicate_email_conflict demoService registerAlice
           (demoWorld [alice "ACTIVE" true false])
           (alice "ACTIVE" true false)).
  - simpl. left. reflexivity.
  - reflexivity.
Defined.

(** ** Login and the account status *)

(** C1, as stated, fails: a PENDING account with the right password
    completes login, receives a token pair and gets a session row. *)
Lemma login_pending_account_completes :
  User.status (alice "PENDING" false false) <> "ACTIVE" /\
  fst (login demoService loginAlice (demoWorld [alice "PENDING" false false])) =
    Sent (mkResponse 200 true (Some "Login successful")
            (LoginData (alice "PENDING" false false) (Some aliceTokens)
                       false None)) /\
  sessions (snd (login demoService loginAlice
                       (demoWorld [alice "PENDING" false false]))) =
    [aliceSession].
Proof.
  split; [discriminate |].
  split; vm_compute; reflexivity.
Qed.

(** C1, amended.  When the user found for the email has the right password
    and the status SUSPENDED or TERMINATED, login ends in [next(error)] with
    a 403 error; no response (hence no token) is sent and the world is
    unchanged (no session row, no audit entry, no update of the user). *)
Theorem login_refuses_suspended_and_terminated
        (authService : AuthService.t) (req : Request LoginBody)
        (w : World) (u : User.t) :
  find (fun x => String.eqb (User.email x) (login_email (body req))) (users w)
    = Some u ->
  bcrypt.compare (login_password (body req)) (User.passwordHash u) = true ->
  User.status u = "SUSPENDED" \/ User.status u = "TERMINATED" ->
  login authService req w =
    (NextError
       (createError
          (if String.eqb (User.status u) "SUSPENDED"
           then "Account has been suspended"
           else "Account has been terminated") 403), w).
Proof.
  intros Hfind Hpw Hst.
  unfold login. run. rewrite Hfind, Hpw. simpl.
  destruct Hst as [-> | ->]; reflexivity.
Qed.

Lemma login_refuses_suspended_and_terminated_witness :
  login demoService loginAlice (demoWorld [alice "SUSPENDED" true false]) =
    (NextError (createError "Account has been suspended" 403),
     demoWorld [alice "SUSPENDED" true false]).
Proof.
  apply (login_refuses_suspended_and_terminated demoService loginAlice
           (demoWorld [alice "SUSPENDED" true false])
           (alice "SUSPENDED" true false)).
  - reflexivity.
  - reflexivity.
  - left. reflexivity.
Defined.

(** C4, on the code: a login by a user with the second factor enabled
    answers [requires2FA: true] with the access token as [tempToken], and
    has already stored a session row for the token pair. *)
Theorem login_2fa_persists_session :
  fst (login demoService loginAlice (demoWorld [alice "ACTIVE" true true])) =
    Sent (mkResponse 200 true
            (Some "Login successful. Please enter your 2FA code.")
            (LoginData (alice "ACTIVE" true true) None true
                       (Some (AuthTokens.accessToken aliceTokens)))) /\
  sessions (snd (login demoService loginAlice
                       (demoWorld [alice "ACTIVE" true true]))) =
    [aliceSession].
Proof.
  split; vm_compute; reflexivity.
Qed.

(** Every login that sends a response has stored a session row before,
    whether or not the second factor is required. *)
Lemma login_sent_stores_session
      (authService : AuthService.t) (req : Request LoginBody)
      (w w' : World) (res : Response) :
  login authService req w = (Sent res, w') ->
  exists s, sessions w' = sessions w ++ [s] /\
    match data res with
    | LoginData _ tokens _ tempToken =>
        tokens = None /\ tempToken = Some (Session.token s) \/
        tempToken = None /\
        tokens = Some (AuthTokens.mk (Session.token s) (Session.refreshToken s))
    | _ => False
    end.
Proof.
  unfold login, generateTokens, storeSession, prisma.session.create,
    prisma.user.update, prisma.auditLog.create.
  run.
  destruct (find _ (users w)) as [u |]; [| discriminate].
  destruct (negb (bcrypt.compare _ _)); [discriminate |].
  destruct (String.eqb (User.status u) "SUSPENDED"); [discriminate |].
  destruct (String.eqb (User.status u) "TERMINATED"); [discriminate |].
  destruct (jwt.sign _ (jwtSecret authService) _ _) as [a |]; [| discriminate].
  destruct (jwt.sign _ (jwtRefreshSecret authService) _ _) as [r |];
    [| discriminate].
  destruct (parseTimeToMs (jwtExpiresIn authService)) as [[ea |] |];
    try discriminate;
    destruct (parseTimeToMs (jwtRefreshExpiresIn authService)) as [[er |] |];
    try discriminate.
  simpl.
  destruct (existsb _ (sessions w)); [discriminate |].
  simpl.
  destruct (existsb _ (users w)); [| discriminate].
  simpl.
  destruct (User.twoFactorEnabled u); intros H; inversion H; subst; simpl;
    eexists; (split; [reflexivity |]); simpl; auto.
Qed.

(** verify2FA looks at no status: the holder of a temporary token and of a
    valid code completes the second step on a SUSPENDED account. *)
Example verify2FA_ignores_status :
  fst (verify2FA demoService verifyAlice
                 (demoWorld [alice "SUSPENDED" true true])) =
    Sent (mkResponse 200 true (Some "2FA verification successful")
            (Verify2FAData (alice "SUSPENDED" true true) aliceTokens)) /\
  sessions (snd (verify2FA demoService verifyAlice
                           (demoWorld [alice "SUSPENDED" true true]))) =
    [aliceSession].
Proof. split; vm_compute; reflexivity. Qed.

(** ** The authentication middleware *)

(** What the middleware does, for every request: it attaches the user and
    calls [next()] exactly when the header carries a token that verifies
    under the access secret, the user of the token exists, the status column
    is the lower-case string "active" and the email is verified.  It never
    changes the world. *)
Lemma authenticate_proceeds_iff {B}
      (JWT_SECRET : string) (req : Request B) (w w' : World) (a : AuthUser.t) :
  authenticate JWT_SECRET req w = (Next a, w') <->
  w' = w /\
  exists token payload user,
    authorization req = Some token /\
    falsy_token (Some token) = false /\
    jwt.verify token JWT_SECRET (clock w) = Ok payload /\
    find (fun u => N.eqb (User.id u) (JWTPayload.userId payload)) (users w)
      = Some user /\
    User.status user = "active" /\
    User.emailVerified user = true /\
    a = AuthUser.mk (User.id user) (User.email user) (User.role user)
                    (User.status user).
Proof.
  unfold authenticate. run.
  destruct (authorization req) as [token |].
  2:{ split; [discriminate |].
      intros (_ & t & p & u & H & _). discriminate. }
  destruct (falsy_token (Some token)) eqn:Hf.
  { split; [discriminate |].
    intros (_ & t & p & u & H & H' & _). inversion H; subst. congruence. }
  destruct (jwt.verify token JWT_SECRET (clock w)) as [payload | e] eqn:Hv.
  2:{ split; [discriminate |].
      intros (_ & t & p & u & H & _ & H' & _). inversion H; subst. congruence. }
  destruct (find _ (users w)) as [user |] eqn:Hu.
  2:{ split; [discriminate |].
      intros (_ & t & p & u & H & _ & H' & H'' & _).
      inversion H; subst. rewrite Hv in H'. inversion H'; subst. congruence. }
  destruct (String.eqb (User.status user) "active") eqn:Hs; simpl.
  2:{ split; [discriminate |].
      intros (_ & t & p & u & H & _ & H' & H'' & Hst & _).
      inversion H; subst. rewrite Hv in H'. inversion H'; subst.
      rewrite Hu in H''. inversion H''; subst.
      rewrite Hst in Hs. discriminate. }
  apply String.eqb_eq in Hs.
  destruct (User.emailVerified user) eqn:He; simpl.
  2:{ split; [discriminate |].
      intros (_ & t & p & u & H & _ & H' & H'' & _ & Hev & _).
      inversion H; subst. rewrite Hv in H'. inversion H'; subst.
      rewrite Hu in H''. inversion H''; subst. congruence. }
  split.
  - intros H. inversion H; subst. split; [reflexivity |].
    exists token, payload, user. repeat split; auto.
  - intros (-> & t & p & u & H & _ & H' & H'' & _ & _ & ->).
    inversion H; subst. rewrite Hv in H'. inversion H'; subst.
    rewrite Hu in H''. inversion H''; subst. reflexivity.
Qed.

(** As long as the status column holds its four upper-case values, the
    middleware lets no request through. *)
Lemma authenticate_never_proceeds {B}
      (JWT_SECRET : string) (req : Request B) (w w' : World) (a : AuthUser.t) :
  (forall u, In u (users w) -> known_status (User.status u)) ->
  authenticate JWT_SECRET req w <> (Next a, w').
Proof.
  intros Hknown H. apply authenticate_proceeds_iff in H.
  destruct H as (_ & token & payload & user & _ & _ & _ & Hfind & Hst & _).
  apply find_some in Hfind. destruct Hfind as [Hin _].
  destruct (Hknown user Hin) as [E | [E | [E | E]]];
    rewrite E in Hst; discriminate Hst.
Qed.

(** C2, on the code: a request with a valid access token of an existing,
    email-verified user whose status is ACTIVE is refused, because the
    middleware compares the status with "active". *)
Theorem authenticate_refuses_ACTIVE_account :
  jwt.verify (AuthTokens.accessToken aliceTokens) (jwtSecret demoService)
             (clock (demoWorld [alice "ACTIVE" true false]))
    = Ok alicePayload /\
  authenticate (jwtSecret demoService) bearerAlice
               (demoWorld [alice "ACTIVE" true false]) =
    (NextError (createError "Account is not active" 401),
     demoWorld [alice "ACTIVE" true false]).
Proof.
  split; vm_compute; reflexivity.
Qed.

(** ** Access and refresh tokens *)

Example sha256_vectors :
  List.length sha256.K = 64%nat /\
  nth 0 sha256.K 0 = 0x428a2f98 /\ nth 63 sha256.K 0 = 0xc67178f2 /\
  nth 0 sha256.init 0 = 0x6a09e667 /\ nth 7 sha256.init 0 = 0x5be0cd19 /\
  hex (sha256.digest (jwt.bytes "abc")) =
    "ba7816bf8f01cfea414140de5dae2223b00361a396177a9cb410ff61f20015ad" /\
  hex (sha256.digest (jwt.bytes longSecret)) =
    "1160093e056d011ec5a907e1afa151f3bbb7a8d68b763577445a0b7a255e1c43".
Proof. repeat split; vm_compute; reflexivity. Qed.






(** ** Email verification *)

Lemma find_after_update (i : N) (f : User.t -> User.t) (l : list User.t) :
  (forall u, User.id (f u) = User.id u) ->
  find (fun u => N.eqb (User.id u) i)
       (map (fun u => if N.eqb (User.id u) i then f u else u) l) =
  option_map f (find (fun u => N.eqb (User.id u) i) l).
Proof.
  intros Hid. induction l as [| a l IH]; simpl; [reflexivity |].
  destruct (N.eqb (User.id a) i) eqn:E.
  - rewrite Hid, E. reflexivity.
  - rewrite E. exact IH.
Qed.

Lemma verifyAccessToken_ok (authService : AuthService.t) (token : jwt.Token)
      (w : World) (payload : JWTPayload.t) :
  jwt.verify token (jwtSecret authService) (clock w) = Ok payload ->
  verifyAccessToken authService token w = (Ok payload, w).
Proof. intros H. unfold verifyAccessToken. run. rewrite H. reflexivity. Qed.

Lemma verifyAccessToken_inv (authService : AuthService.t) (token : jwt.Token)
      (w w' : World) (payload : JWTPayload.t) :
  verifyAccessToken authService token w = (Ok payload, w') ->
  jwt.verify token (jwtSecret authService) (clock w) = Ok payload /\ w' = w.
Proof.
  unfold verifyAccessToken. run.
  destruct (jwt.verify token (jwtSecret authService) (clock w)) as [p | e].
  - intros H. inversion H. auto.
  - destruct e as [| [|] | | |]; discriminate.
Qed.

(** C9. With a token that verifies and names an existing user: when the
    user's email is already verified, verifyEmail answers success and leaves
    the world (the user row included) exactly as it was; and after any call
    that answered success, a further call with the same token, at any time at
    which the token still verifies, answers success and changes nothing. *)
Theorem verifyEmail_idempotent
        (authService : AuthService.t) (req : Request jwt.Token)
        (w : World) (payload : JWTPayload.t) (u : User.t) :
  jwt.verify (body req) (jwtSecret authService) (clock w) = Ok payload ->
  find (fun x => N.eqb (User.id x) (JWTPayload.userId payload)) (users w)
    = Some u ->
  (User.emailVerified u = true ->
   verifyEmail authService req w = (Sent alreadyVerified, w)) /\
  (forall (res : Response) (w1 : World) (t' : Z),
      verifyEmail authService req w = (Sent res, w1) ->
      jwt.verify (body req) (jwtSecret authService) t' = Ok payload ->
      verifyEmail authService req (set_clock t' w1) =
        (Sent alreadyVerified, set_clock t' w1)).
Proof.
  intros Hv Hu. split.
  - intros He. unfold verifyEmail. run.
    rewrite (verifyAccessToken_ok _ _ _ _ Hv), Hu, He. reflexivity.
  - intros res w1 t' H1 Hv'.
    assert (Hgoal : forall w2 u2,
               users w2 = users w1 ->
               find (fun x => N.eqb (User.id x) (JWTPayload.userId payload))
                    (users w1) = Some u2 ->
               User.emailVerified u2 = true ->
               jwt.verify (body req) (jwtSecret authService) (clock w2)
                 = Ok payload ->
               verifyEmail authService req w2 = (Sent alreadyVerified, w2)).
    { intros w2 u2 Husers Hf He Hvv. unfold verifyEmail. run.
      rewrite (verifyAccessToken_ok _ _ _ _ Hvv), Husers, Hf, He.
      reflexivity. }
    revert H1. unfold verifyEmail. run.
    rewrite (verifyAccessToken_ok _ _ _ _ Hv), Hu.
    destruct (User.emailVerified u) eqn:He.
    + intros H. inversion H; subst.
      apply (Hgoal _ u); auto.
    + unfold prisma.user.update, prisma.auditLog.create.
      destruct (existsb _ (users w)); [| discriminate].
      simpl. intros H. inversion H; subst; clear H.
      apply (Hgoal _ (User.with_verified u)); auto.
      assert (Hid : User.id u = JWTPayload.userId payload).
      { apply find_some in Hu. apply N.eqb_eq. tauto. }
      simpl. rewrite Hid, find_after_update by reflexivity.
      rewrite Hu. reflexivity.
Qed.

Lemma verifyEmail_idempotent_witness :
  verifyEmail demoService
              (mkRequest (AuthTokens.accessToken aliceTokens) None None None)
              (demoWorld [alice "ACTIVE" true false]) =
    (Sent alreadyVerified, demoWorld [alice "ACTIVE" true false]).
Proof.
  apply (verifyEmail_idempotent demoService
           (mkRequest (AuthTokens.accessToken aliceTokens) None None None)
           (demoWorld [alice "ACTIVE" true false])
           alicePayload (alice "ACTIVE" true false)).
  - reflexivity.
  - reflexivity.
  - reflexivity.
Defined.

(** ** Refreshing a session *)

Lemma jwt_eqb_eq (x y : jwt.Token) : jwt.eqb x y = true <-> x = y.
Proof.
  unfold jwt.eqb. destruct (jwt.eq_dec x y); split; congruence.
Qed.

Lemma find_none_iff {A} (p : A -> bool) (l : list A) :
  find p l = None <-> forall x, In x l -> p x = false.
Proof.
  split.
  - intros H x Hx. exact (find_none p l H x Hx).
  - intros H. destruct (find p l) as [y |] eqn:E; [| reflexivity].
    apply find_some in E. destruct E as [Hin Hp].
    rewrite (H y Hin) in Hp. discriminate.
Qed.

Lemma NoDup_map_injective {A B} (f : A -> B) (l : list A) (x y : A) :
  NoDup (map f l) -> In x l -> In y l -> f x = f y -> x = y.
Proof.
  induction l as [| a l IH]; simpl; [tauto |].
  intros Hnd. inversion Hnd as [| b m Hnotin Hnd']; subst.
  intros [-> | Hx] [-> | Hy] Hf; auto.
  - exfalso. apply Hnotin. rewrite Hf. apply in_map. exact Hy.
  - exfalso. apply Hnotin. rewrite <- Hf. apply in_map. exact Hx.
Qed.

Lemma verifyRefreshToken_ok (authService : AuthService.t) (token : jwt.Token)
      (w : World) (payload : JWTPayload.t) :
  jwt.verify token (jwtRefreshSecret authService) (clock w) = Ok payload ->
  verifyRefreshToken authService token w = (Ok payload, w).
Proof. intros H. unfold verifyRefreshToken. run. rewrite H. reflexivity. Qed.

(** With a token that verifies and no session row for it, refreshSession
    throws SessionExpired and changes nothing. *)
Lemma refreshSession_without_row
      (authService : AuthService.t) (token : jwt.Token) (w : World)
      (payload : JWTPayload.t) :
  jwt.verify token (jwtRefreshSecret authService) (clock w) = Ok payload ->
  find (fun s => jwt.eqb (Session.refreshToken s) token) (sessions w) = None ->
  refreshSession authService token w = (Throw SessionExpired, w).
Proof.
  intros Hv Hf. unfold refreshSession. run.
  rewrite (verifyRefreshToken_ok _ _ _ _ Hv), Hf. reflexivity.
Qed.

(** C3, as stated, fails: for a string that is not a token there is no
    session row, and refreshSession fails with the invalid-token error, not
    with SessionExpired. *)
Lemma refreshSession_garbage_is_not_SessionExpired :
  find (fun s => jwt.eqb (Session.refreshToken s) (jwt.Malformed "garbage"))
       (sessions (demoWorld [alice "ACTIVE" true false])) = None /\
  refreshSession demoService (jwt.Malformed "garbage")
                 (demoWorld [alice "ACTIVE" true false]) =
    (Throw (createError "Invalid refresh token" 401),
     demoWorld [alice "ACTIVE" true false]) /\
  createError "Invalid refresh token" 401 <> SessionExpired.
Proof.
  split; [reflexivity |]. split; [reflexivity | discriminate].
Qed.

Lemma sign_throws (p : JWTPayload.t) (secret expiresIn : string) (t : Z)
      (err : Error) :
  jwt.sign p secret expiresIn t = Throw err ->
  err = PlainError "invalid expiresIn option".
Proof.
  unfold jwt.sign. destruct (jwt.timespan expiresIn); congruence.
Qed.

Lemma parseTimeToMs_throws (timeString : string) (err : Error) :
  parseTimeToMs timeString = Throw err ->
  err = PlainError ("Invalid time format: " ++ timeString)%string.
Proof.
  unfold parseTimeToMs.
  repeat match goal with
         | |- context [match ?x with _ => _ end] => destruct x
         end; congruence.
Qed.

Ltac other_outcome :=
  split;
  [ unfold SessionExpired, createError; discriminate
  | let H := fresh in intros ? ? H; discriminate H ].

(** The three ways a refreshSession with a verified token can go. *)
Lemma refreshSession_outcome
      (authService : AuthService.t) (token : jwt.Token) (w : World)
      (payload : JWTPayload.t) :
  jwt.verify token (jwtRefreshSecret authService) (clock w) = Ok payload ->
  match find (fun s => jwt.eqb (Session.refreshToken s) token) (sessions w) with
  | None => refreshSession authService token w = (Throw SessionExpired, w)
  | Some s =>
      if Session.refreshExpiresAt s <? clock w then
        refreshSession authService token w = (Throw SessionExpired, w)
      else
        fst (refreshSession authService token w) <> Throw SessionExpired /\
        forall tokens w1,
          refreshSession authService token w = (Ok tokens, w1) ->
          exists s',
            Session.refreshToken s' = AuthTokens.refreshToken tokens /\
            sessions w1 =
              filter (fun x => negb (N.eqb (Session.id x) (Session.id s)))
                     (sessions w) ++ [s']
  end.
Proof.
  intros Hv.
  unfold refreshSession, generateTokens, storeSession,
    prisma.session.delete, prisma.session.create.
  run.
  rewrite (verifyRefreshToken_ok _ _ _ _ Hv).
  destruct (find _ (sessions w)) as [s |] eqn:Hs; [| reflexivity].
  destruct (Session.refreshExpiresAt s <? clock w); [reflexivity |].
  destruct (find _ (users w)) as [u |]; simpl.
  2:{ other_outcome. }
  destruct (String.eqb (User.status u) "ACTIVE"); simpl.
  2:{ other_outcome. }
  destruct (existsb _ (sessions w)); simpl.
  2:{ other_outcome. }
  destruct (jwt.sign _ (jwtSecret authService) _ _) as [a | e1] eqn:E1; simpl.
  2:{ rewrite (sign_throws _ _ _ _ _ E1). other_outcome. }
  destruct (jwt.sign _ (jwtRefreshSecret authService) _ _) as [r | e2] eqn:E2;
    simpl.
  2:{ rewrite (sign_throws _ _ _ _ _ E2). other_outcome. }
  destruct (parseTimeToMs (jwtExpiresIn authService)) as [ea | e3] eqn:E3;
    simpl.
  2:{ rewrite (parseTimeToMs_throws _ _ E3). other_outcome. }
  destruct (parseTimeToMs (jwtRefreshExpiresIn authService)) as [er | e4]
    eqn:E4; simpl.
  2:{ rewrite (parseTimeToMs_throws _ _ E4). other_outcome. }
  destruct (date_after (clock w) ea) as [dea |]; simpl.
  2:{ other_outcome. }
  destruct (date_after (clock w) er) as [der |]; simpl.
  2:{ other_outcome. }
  destruct (existsb _ (filter _ (sessions w))); simpl.
  { other_outcome. }
  split; [unfold SessionExpired, createError; discriminate |].
  intros tokens w1 H. inversion H; subst; clear H.
  eexists. split; [| reflexivity]. reflexivity.
Qed.

(** C3, amended.  For a refresh token that verifies under the refresh
    secret: refreshSession fails with SessionExpired exactly when no session
    row carries the token or the row found has its refreshExpiresAt in the
    past; on that failure the world is unchanged; and after a successful
    refreshSession that issued a different refresh token, presenting the
    consumed token again (while it still verifies) fails with
    SessionExpired and changes nothing. *)
Theorem refreshSession_SessionExpired_iff
        (authService : AuthService.t) (token : jwt.Token) (w : World)
        (payload : JWTPayload.t) :
  jwt.verify token (jwtRefreshSecret authService) (clock w) = Ok payload ->
  (fst (refreshSession authService token w) = Throw SessionExpired <->
   no_live_session token w) /\
  (fst (refreshSession authService token w) = Throw SessionExpired ->
   snd (refreshSession authService token w) = w) /\
  (forall (tokens : AuthTokens.t) (w1 : World) (t' : Z),
      unique_refreshTokens w ->
      refreshSession authService token w = (Ok tokens, w1) ->
      AuthTokens.refreshToken tokens <> token ->
      jwt.verify token (jwtRefreshSecret authService) t' = Ok payload ->
      refreshSession authService token (set_clock t' w1) =
        (Throw SessionExpired, set_clock t' w1)).
Proof.
  intros Hv.
  pose proof (refreshSession_outcome authService token w payload Hv) as Hout.
  unfold no_live_session.
  destruct (find _ (sessions w)) as [s |] eqn:Hs.
  2:{ rewrite Hout. simpl. repeat split; auto.
      intros tokens w1 t' _ H. discriminate H. }
  destruct (Z.ltb_spec (Session.refreshExpiresAt s) (clock w)) as [Hlt | Hge].
  { rewrite Hout. simpl. repeat split; auto.
    intros tokens w1 t' _ H. discriminate H. }
  destruct Hout as [Hne Hok].
  split; [split; [tauto | lia] |].
  split; [tauto |].
  intros tokens w1 t' Huniq H Hdiff Hv'.
  destruct (Hok tokens w1 H) as (s' & Hs' & Hsess).
  apply (refreshSession_without_row authService token _ payload).
  - exact Hv'.
  - simpl. rewrite Hsess. apply find_none_iff. intros x Hx.
    destruct (jwt.eqb (Session.refreshToken x) token) eqn:E; [| reflexivity].
    exfalso. apply jwt_eqb_eq in E.
    apply in_app_or in Hx. destruct Hx as [Hx | [<- | []]].
    + apply filter_In in Hx. destruct Hx as [Hx Hid].
      apply find_some in Hs. destruct Hs as [Hsin Hst'].
      apply jwt_eqb_eq in Hst'.
      assert (x = s).
      { apply (NoDup_map_injective Session.refreshToken (sessions w));
          auto. congruence. }
      subst x. rewrite N.eqb_refl in Hid. discriminate.
    + apply Hdiff. congruence.
Qed.

Lemma refreshSession_SessionExpired_iff_witness :
  fst (refreshSession demoService (AuthTokens.refreshToken aliceTokens)
                      (demoWorld [alice "ACTIVE" true false]))
    = Throw SessionExpired /\
  snd (refreshSession demoService (AuthTokens.refreshToken aliceTokens)
                      (demoWorld [alice "ACTIVE" true false]))
    = demoWorld [alice "ACTIVE" true false].
Proof.
  pose proof (refreshSession_SessionExpired_iff demoService
                (AuthTokens.refreshToken aliceTokens)
                (demoWorld [alice "ACTIVE" true false]) alicePayload) as H.
  destruct H as (Hiff & Hframe & _).
  - reflexivity.
  - assert (E : fst (refreshSession demoService
                       (AuthTokens.refreshToken aliceTokens)
                       (demoWorld [alice "ACTIVE" true false]))
                = Throw SessionExpired).
    { apply Hiff. exact I. }
    split; [exact E | exact (Hframe E)].
Defined.

Lemma NoDup_snoc {A} (l : list A) (x : A) :
  NoDup l -> ~ In x l -> NoDup (l ++ [x]).
Proof.
  induction l as [| a l IH]; simpl; intros Hnd Hx.
  - constructor; [tauto | constructor].
  - inversion Hnd as [| b m Hnotin Hnd']; subst.
    constructor.
    + intros Hin. apply in_app_or in Hin. simpl in Hin.
      destruct Hin as [Hin | [-> | []]]; tauto.
    + apply IH; tauto.
Qed.

(** The unique constraint is an invariant of the session store. *)
Lemma session_create_keeps_unique
      (userId : N) (token refreshToken : jwt.Token)
      (expiresAt refreshExpiresAt : option Z)
      (ipAddress userAgent : option string)
      (w w' : World) :
  unique_refreshTokens w ->
  prisma.session.create userId token refreshToken expiresAt refreshExpiresAt
                        ipAddress userAgent w = (Ok tt, w') ->
  unique_refreshTokens w'.
Proof.
  unfold unique_refreshTokens, prisma.session.create. intros Hnd.
  destruct expiresAt; [| discriminate].
  destruct refreshExpiresAt; [| discriminate].
  destruct (existsb _ (sessions w)) eqn:E; [discriminate |].
  intros H. inversion H; subst; clear H. simpl.
  rewrite map_app. simpl.
  apply NoDup_snoc; [exact Hnd |].
  intros Hin. apply in_map_iff in Hin. destruct Hin as (x & Hx & Hxin).
  assert (Hex : existsb
                  (fun s => jwt.eqb (Session.refreshToken s) refreshToken)
                  (sessions w) = true).
  { apply existsb_exists. exists x. split; [exact Hxin |].
    apply jwt_eqb_eq. exact Hx. }
  rewrite Hex in E. discriminate E.
Qed.

Lemma session_delete_keeps_unique (id : N) (w w' : World) :
  unique_refreshTokens w ->
  prisma.session.delete id w = (Ok tt, w') ->
  unique_refreshTokens w'.
Proof.
  unfold unique_refreshTokens, prisma.session.delete. intros Hnd.
  destruct (existsb _ (sessions w)); [| discriminate].
  intros H. inversion H; subst; clear H. simpl.
  induction (sessions w) as [| a l IH]; simpl; [constructor |].
  inversion Hnd as [| x m Hnotin Hnd']; subst.
  destruct (negb (N.eqb (Session.id a) id)); simpl; auto.
  constructor; auto.
  intros Hin. apply Hnotin. apply in_map_iff in Hin.
  destruct Hin as (y & Hy & Hyin). apply filter_In in Hyin.
  apply in_map_iff. exists y. tauto.
Qed.

(** A rotation, one minute after the login: the old row is replaced, and
    the consumed token is refused from then on. *)
Example rotation_then_replay :
  refreshSession demoService (AuthTokens.refreshToken aliceTokens) loggedIn =
    (Ok rotatedTokens, rotated) /\
  sessions rotated = [rotatedSession] /\
  refreshSession demoService (AuthTokens.refreshToken aliceTokens) rotated =
    (Throw SessionExpired, rotated).
Proof. repeat split; vm_compute; reflexivity. Qed.

(** Within the second of the login the rotation signs the very same token
    pair again, so the row it stores carries the presented token. *)
Remark rotation_in_the_same_second :
  refreshSession demoService (AuthTokens.refreshToken aliceTokens)
                 (set_clock (clock (demoWorld [])) loggedIn) =
    (Ok aliceTokens,
     mkWorld [alice "ACTIVE" true false]
             [Session.mk 3 1 (AuthTokens.accessToken aliceTokens)
                         (AuthTokens.refreshToken aliceTokens)
                         1704068100000 1704672000000 None None]
             [] [] true 4 (clock (demoWorld []))).
Proof. vm_compute. reflexivity. Qed.

(** ** The price calculator *)

(** C7, as stated, fails: the total of the response is rounded to two
    decimals.  For one core, one GB of memory and 1.25 GB of storage the
    terms sum to 9.125 and the response says 9.13. *)
Lemma price_total_is_rounded :
  priced (vps.calculate_price
            (priceRequest 1 1 1.25 (JsString "Ubuntu 22.04 LTS"))
            (demoWorld []))
    = Some (9.13%float, mkBreakdown 5 4 0.125 0) /\
  price_formula 1 1 1.25 "Ubuntu 22.04 LTS" = 9.125%float /\
  9.13%float <> 9.125%float.
Proof.
  split; [vm_compute; reflexivity |].
  split; [vm_compute; reflexivity |].
  intros H. apply (f_equal Prim2SF) in H. vm_compute in H. discriminate H.
Qed.

Lemma forallb_seq (P : nat -> bool) (a len n : nat) :
  forallb P (seq a len) = true -> (a <= n < a + len)%nat -> P n = true.
Proof.
  intros H Hn. rewrite forallb_forall in H. apply H. apply in_seq. exact Hn.
Qed.

Lemma leibniz_eqb_eq (x y : float) : PrimFloat.Leibniz.eqb x y = true -> x = y.
Proof. apply FloatAxioms.Leibniz.eqb_spec. Qed.

(** On the sizes that the plans offer, every term and every partial sum of
    the price is a whole number that the floats represent exactly. *)
Lemma plan_cpu_ram_exact (c r : nat) :
  (1 <= c <= 16)%nat -> (1 <= r <= 64)%nat ->
  (float_of_nat c * 5 + float_of_nat r * 4)%float
    = float_of_nat (5 * c + 4 * r).
Proof.
  intros Hc Hr.
  pose (P := fun c r : nat =>
               PrimFloat.Leibniz.eqb
                 (float_of_nat c * 5 + float_of_nat r * 4)%float
                 (float_of_nat (5 * c + 4 * r))).
  assert (H : forallb (fun c => forallb (P c) (seq 1 64)) (seq 1 16) = true)
    by (vm_compute; reflexivity).
  apply leibniz_eqb_eq. change (P c r = true).
  apply (forallb_seq (P c) 1 64 r); [| lia].
  apply (forallb_seq (fun c => forallb (P c) (seq 1 64)) 1 16 c H). lia.
Qed.

Lemma plan_storage_exact (s : nat) :
  (1 <= s <= 100)%nat ->
  (float_of_nat (10 * s) * 0.1)%float = float_of_nat s.
Proof.
  intros Hs.
  pose (P := fun s : nat =>
               PrimFloat.Leibniz.eqb (float_of_nat (10 * s) * 0.1)%float
                                     (float_of_nat s)).
  assert (H : forallb P (seq 1 100) = true) by (vm_compute; reflexivity).
  apply leibniz_eqb_eq. change (P s = true).
  apply (forallb_seq P 1 100 s H). lia.
Qed.

Lemma plan_sum_exact (k s : nat) :
  (9 <= k <= 336)%nat -> (1 <= s <= 100)%nat ->
  (float_of_nat k + float_of_nat s)%float = float_of_nat (k + s).
Proof.
  intros Hk Hs.
  pose (P := fun k s : nat =>
               PrimFloat.Leibniz.eqb (float_of_nat k + float_of_nat s)%float
                                     (float_of_nat (k + s))).
  assert (H : forallb (fun k => forallb (P k) (seq 1 100)) (seq 9 328) = true)
    by (vm_compute; reflexivity).
  apply leibniz_eqb_eq. change (P k s = true).
  apply (forallb_seq (P k) 1 100 s); [| lia].
  apply (forallb_seq (fun k => forallb (P k) (seq 1 100)) 9 328 k H). lia.
Qed.

Lemma plan_total_stable (n : nat) (windows : bool) :
  (10 <= n <= 436)%nat ->
  let total := (float_of_nat n + (if windows then 15 else 0))%float in
  vps.toFixed2 total = total.
Proof.
  intros Hn.
  pose (P := fun (windows : bool) (n : nat) =>
               let total :=
                 (float_of_nat n + (if windows then 15 else 0))%float in
               PrimFloat.Leibniz.eqb (vps.toFixed2 total) total).
  assert (H : forall b, forallb (P b) (seq 10 427) = true)
    by (intros [|]; vm_compute; reflexivity).
  cbv zeta. apply leibniz_eqb_eq. change (P windows n = true).
  apply (forallb_seq (P windows) 10 427 n (H windows)). lia.
Qed.

Lemma price_exact_in_plans (c r s : nat) (os : string) :
  in_plans c r s os ->
  let total := price_formula (float_of_nat c) (float_of_nat r)
                             (float_of_nat (10 * s)) os in
  vps.toFixed2 total = total.
Proof.
  intros (Hc & Hr & Hs & _). cbv zeta. unfold price_formula.
  rewrite (plan_cpu_ram_exact c r Hc Hr), (plan_storage_exact s Hs).
  rewrite (plan_sum_exact (5 * c + 4 * r) s ltac:(lia) Hs).
  apply (plan_total_stable (5 * c + 4 * r + s) (Js.includes os "Windows")).
  lia.
Qed.

(** C7, amended.  For every configuration (three numbers and the name of an
    operating system) the handler answers 200 and changes nothing; the
    breakdown holds the four terms [cpuCores * 5], [ramGb * 4],
    [storageGb * 0.1] and 15 or 0; the total is the sum of the terms rounded
    to two decimals; doubling [storageGb] leaves the three other terms as
    they were; and on every configuration that the plans offer the rounding
    does nothing, so that the total is the sum itself.  (Being a function of
    the request, the answer is the same on repeated calls.) *)
Theorem calculate_price_rounds_formula
        (cpuCores ramGb storageGb : float) (os : string) (w : World) :
  let osPrice := if Js.includes os "Windows" then 15%float else 0%float in
  let answer storageGb :=
    vps.calculate_price
      (priceRequest cpuCores ramGb storageGb (JsString os)) w in
  priced (answer storageGb) =
    Some (vps.toFixed2 (price_formula cpuCores ramGb storageGb os),
          mkBreakdown (cpuCores * 5) (ramGb * 4) (storageGb * 0.1) osPrice) /\
  snd (answer storageGb) = w /\
  (exists total',
      priced (answer (2 * storageGb)%float) =
        Some (total',
              mkBreakdown (cpuCores * 5) (ramGb * 4) (2 * storageGb * 0.1)
                          osPrice)) /\
  (forall c r s : nat,
      in_plans c r s os ->
      cpuCores = float_of_nat c -> ramGb = float_of_nat r ->
      storageGb = float_of_nat (10 * s) ->
      priced (answer storageGb) =
        Some (price_formula cpuCores ramGb storageGb os,
              mkBreakdown (cpuCores * 5) (ramGb * 4) (storageGb * 0.1)
                          osPrice)).
Proof.
  cbv zeta.
  assert (Hrun : forall st,
             vps.calculate_price
               (priceRequest cpuCores ramGb st (JsString os)) w =
               (Sent (mkResponse 200 true None
                        (PriceData
                           (vps.toFixed2 (price_formula cpuCores ramGb st os))
                           (mkBreakdown (cpuCores * 5) (ramGb * 4) (st * 0.1)
                              (if Js.includes os "Windows"
                               then 15%float else 0%float)))), w)).
  { intros st. unfold vps.calculate_price, price_formula. simpl.
    destruct (Js.includes os "Windows"); reflexivity. }
  split; [rewrite Hrun; reflexivity |].
  split; [rewrite Hrun; reflexivity |].
  split; [eexists; rewrite Hrun; reflexivity |].
  intros c r s Hplan -> -> ->. rewrite Hrun.
  lazy beta iota delta [priced fst data].
  rewrite (price_exact_in_plans c r s os Hplan). reflexivity.
Qed.

Lemma calculate_price_rounds_formula_witness :
  priced (vps.calculate_price
            (priceRequest 4 8 100 (JsString "Ubuntu 22.04 LTS")) (demoWorld []))
    = Some (62%float, mkBreakdown 20 32 10 0).
Proof.
  pose proof (calculate_price_rounds_formula 4 8 100 "Ubuntu 22.04 LTS"
                (demoWorld [])) as H.
  cbv zeta in H. destruct H as (_ & _ & _ & H).
  rewrite (H 4%nat 8%nat 10%nat).
  - vm_compute. reflexivity.
  - unfold in_plans, plan_systems. simpl. repeat split; try lia. auto.
  - vm_compute. reflexivity.
  - vm_compute. reflexivity.
  - vm_compute. reflexivity.
Defined.

(** C10. The handler validates nothing: whenever the [operatingSystem] of
    the body is neither a string nor an array (absent, null, a number, a
    boolean or an object), evaluating [operatingSystem.includes] throws a
    TypeError, which reaches the error path of the server. *)
Theorem calculate_price_throws_TypeError
        (req : Request vps.PriceBody) (w : World) :
  has_includes (vps.operatingSystem (body req)) = false ->
  exists message,
    vps.calculate_price req w = (NextError (TypeError message), w).
Proof.
  unfold vps.calculate_price.
  destruct (vps.operatingSystem (body req)); simpl; intros H;
    try discriminate H; eexists; reflexivity.
Qed.

Lemma calculate_price_throws_TypeError_witness :
  exists message,
    vps.calculate_price (priceRequest 4 8 100 JsUndefined) (demoWorld []) =
      (NextError (TypeError message), demoWorld []).
Proof.
  apply (calculate_price_throws_TypeError
           (priceRequest 4 8 100 JsUndefined) (demoWorld [])).
  reflexivity.
Defined.

(** ** The second factor *)

(** The HOTP values of RFC 4226, appendix D. *)
Example hotp_rfc4226_vectors :
  map (speakeasy.hotp rfcSecret) [0; 1; 2; 3; 4; 5; 6; 7; 8; 9] =
    [755224; 287082; 359152; 969429; 338314;
     254676; 287922; 162583; 399871; 520489].
Proof. vm_compute. reflexivity. Qed.

Lemma hotp_range (secret : string) (c : Z) :
  0 <= speakeasy.hotp secret c < 1000000.
Proof. unfold speakeasy.hotp. apply Z.mod_pos_bound. lia. Qed.

Lemma digit_cases (d : Z) :
  0 <= d <= 9 ->
  d = 0 \/ d = 1 \/ d = 2 \/ d = 3 \/ d = 4 \/
  d = 5 \/ d = 6 \/ d = 7 \/ d = 8 \/ d = 9.
Proof. lia. Qed.

Ltac each_digit H :=
  apply digit_cases in H;
  repeat (destruct H as [H | H]); subst.

Lemma digit_of_digit_char (d : Z) :
  0 <= d <= 9 -> Js.digit_of 10 (speakeasy.digit_char d) = Some d.
Proof. intros H. each_digit H; reflexivity. Qed.

Lemma digits_step (acc : option Z) (d : Z) (rest : string) :
  0 <= d <= 9 ->
  Js.digits 10 acc (String (speakeasy.digit_char d) rest) =
  Js.digits 10
    (Some (10 * match acc with Some a => a | None => 0 end + d)) rest.
Proof.
  intros H. cbn [Js.digits]. rewrite (digit_of_digit_char d H). reflexivity.
Qed.

Lemma parseInt_of_digits (d e : Z) (rest : string) :
  0 <= d <= 9 -> 0 <= e <= 9 ->
  Js.parseInt10
    (String (speakeasy.digit_char d) (String (speakeasy.digit_char e) rest)) =
  Js.digits 10 None
    (String (speakeasy.digit_char d) (String (speakeasy.digit_char e) rest)).
Proof.
  intros Hd He. each_digit Hd; reflexivity.
Qed.

Lemma parseInt_code_string (n : Z) :
  0 <= n < 1000000 -> Js.parseInt10 (speakeasy.code_string n) = Some n.
Proof.
  intros Hn. unfold speakeasy.code_string. cbv zeta.
  assert (Hmod : forall x, 0 <= x mod 10 <= 9).
  { intros x. pose proof (Z.mod_pos_bound x 10). lia. }
  rewrite parseInt_of_digits by apply Hmod.
  rewrite !digits_step by apply Hmod.
  cbn [Js.digits]. f_equal.
  Z.div_mod_to_equations. lia.
Qed.

Lemma length_code_string (n : Z) :
  String.length (speakeasy.code_string n) = 6%nat.
Proof. reflexivity. Qed.

Lemma window_counters_2 (c : Z) :
  speakeasy.window_counters c 2 = [c - 2; c - 1; c; c + 1; c + 2].
Proof.
  unfold speakeasy.window_counters. simpl.
  repeat (f_equal; try lia).
Qed.

Lemma in_window_2 (c c' : Z) :
  In c' (speakeasy.window_counters c 2) <-> Z.abs (c' - c) <= 2.
Proof.
  rewrite window_counters_2. simpl. lia.
Qed.

(** What [totp.verify] with a window of two accepts. *)
Lemma totp_verify_iff (secret token : string) (now : Z) :
  speakeasy.totp_verify secret token 2 now = true <->
  String.length token = 6%nat /\
  exists n c,
    Js.parseInt10 token = Some n /\
    Z.abs (c - speakeasy.counter now) <= 2 /\
    speakeasy.hotp secret c = n.
Proof.
  unfold speakeasy.totp_verify.
  destruct (Nat.eqb_spec (String.length token) 6) as [Hlen | Hlen];
    cbn [negb].
  2:{ split; [discriminate | tauto]. }
  destruct (Js.parseInt10 token) as [n |].
  2:{ split; [discriminate |]. intros (_ & n & c & H & _). discriminate H. }
  rewrite existsb_exists. split.
  - intros (c & Hin & Heq). split; [exact Hlen |].
    exists n, c. apply in_window_2 in Hin. apply Z.eqb_eq in Heq. auto.
  - intros (_ & n' & c & Hn & Hin & Heq). injection Hn as Hn. subst n'.
    exists c. split; [apply in_window_2; exact Hin | apply Z.eqb_eq; exact Heq].
Qed.

(** C6, as stated, fails: the code generated at 01:06:00 is accepted at
    04:08:30, 365 time steps later, because the code of that later step is
    the same six digits. *)
Lemma verify2FAToken_accepts_old_code :
  speakeasy.counter later - speakeasy.counter earlier = 365 /\
  speakeasy.totp rfcSecret earlier = "130998" /\
  verify2FAToken rfcSecret (speakeasy.totp rfcSecret earlier)
                 (set_clock later (demoWorld [])) =
    (Ok true, set_clock later (demoWorld [])).
Proof.
  split; [reflexivity |]. split; vm_compute; reflexivity.
Qed.

(** C6, amended.  For every secret, a code generated at time [t0] is
    accepted whenever the checking time is at most two time steps (of 30 s)
    away from [t0], the edges included; and it is accepted exactly when it
    is the code of one of the five steps around the checking time, so that a
    code from outside the window is rejected unless it coincides with one of
    those five codes. *)
Theorem verify2FAToken_window (secret : string) (t0 : Z) (w : World) :
  (Z.abs (speakeasy.counter (clock w) - speakeasy.counter t0) <= 2 ->
   verify2FAToken secret (speakeasy.totp secret t0) w = (Ok true, w)) /\
  (verify2FAToken secret (speakeasy.totp secret t0) w = (Ok true, w) <->
   exists c,
     Z.abs (c - speakeasy.counter (clock w)) <= 2 /\
     speakeasy.hotp secret c = speakeasy.hotp secret (speakeasy.counter t0)) /\
  (verify2FAToken secret (speakeasy.totp secret t0) w = (Ok false, w) <->
   forall c,
     Z.abs (c - speakeasy.counter (clock w)) <= 2 ->
     speakeasy.hotp secret c <> speakeasy.hotp secret (speakeasy.counter t0)).
Proof.
  assert (Hiff : speakeasy.totp_verify secret (speakeasy.totp secret t0) 2
                                       (clock w) = true <->
                 exists c,
                   Z.abs (c - speakeasy.counter (clock w)) <= 2 /\
                   speakeasy.hotp secret c =
                     speakeasy.hotp secret (speakeasy.counter t0)).
  { rewrite totp_verify_iff. unfold speakeasy.totp.
    rewrite parseInt_code_string by apply hotp_range. split.
    - intros (_ & n & c & Hn & Hin & Heq). injection Hn as Hn. subst n.
      eauto.
    - intros (c & Hin & Heq). split; [apply length_code_string |].
      exists (speakeasy.hotp secret (speakeasy.counter t0)), c. auto. }
  unfold verify2FAToken. run.
  destruct (speakeasy.totp_verify secret (speakeasy.totp secret t0) 2 (clock w))
    eqn:E.
  - assert (Hex : exists c,
               Z.abs (c - speakeasy.counter (clock w)) <= 2 /\
               speakeasy.hotp secret c =
                 speakeasy.hotp secret (speakeasy.counter t0))
      by (apply Hiff; reflexivity).
    split; [reflexivity |]. split; [tauto |].
    split; [discriminate |].
    intros Hall. destruct Hex as (c & Hin & Heq). exfalso.
    exact (Hall c Hin Heq).
  - assert (Hno : ~ exists c,
               Z.abs (c - speakeasy.counter (clock w)) <= 2 /\
               speakeasy.hotp secret c =
                 speakeasy.hotp secret (speakeasy.counter t0)).
    { intros Hex. apply Hiff in Hex. discriminate Hex. }
    split.
    + intros Hin. exfalso. apply Hno.
      exists (speakeasy.counter t0). split; [lia | reflexivity].
    + split.
      * split; [discriminate | intros Hex; exfalso; exact (Hno Hex)].
      * split; [| reflexivity].
        intros _ c Hin Heq. apply Hno. exists c. auto.
Qed.

Lemma verify2FAToken_window_witness :
  verify2FAToken rfcSecret (speakeasy.totp rfcSecret earlier)
                 (set_clock (earlier + 60000) (demoWorld [])) =
    (Ok true, set_clock (earlier + 60000) (demoWorld [])).
Proof.
  pose proof (verify2FAToken_window rfcSecret earlier
                (set_clock (earlier + 60000) (demoWorld []))) as H.
  destruct H as [H _]. apply H.
  vm_compute. discriminate.
Defined.


(** * Further properties *)

(** ** Relations that every step of a computation respects *)

Section Respects.

Variable R : World -> World -> Prop.
Hypothesis R_refl : forall w, R w w.
Hypothesis R_trans : forall a b c, R a b -> R b c -> R a c.

Lemma respects_ret {A} (a : A) : respects R (ret a).
Proof. intros w. apply R_refl. Qed.

Lemma respects_throw {A} (e : Error) : respects R (@throw A e).
Proof. intros w. apply R_refl. Qed.

Lemma respects_lift {A} (r : Result A) : respects R (lift r).
Proof. intros w. apply R_refl. Qed.

Lemma respects_now : respects R now.
Proof. intros w. apply R_refl. Qed.

Lemma respects_bind {A B} (m : Async A) (k : A -> Async B) :
  respects R m -> (forall a, respects R (k a)) -> respects R (bind m k).
Proof.
  intros Hm Hk w. unfold bind. specialize (Hm w).
  destruct (m w) as [[a | e] w1]; simpl in *.
  - apply (R_trans _ _ _ Hm). apply Hk.
  - exact Hm.
Qed.

Lemma respects_try_catch {A} (m : Async A) (h : Error -> Async A) :
  respects R m -> (forall e, respects R (h e)) -> respects R (try_catch m h).
Proof.
  intros Hm Hh w. unfold try_catch. specialize (Hm w).
  destruct (m w) as [[a | e] w1]; simpl in *.
  - exact Hm.
  - apply (R_trans _ _ _ Hm). apply Hh.
Qed.

Lemma respects_controller (m : Async Response) (w : World) :
  respects R m -> R w (snd (controller m w)).
Proof.
  intros Hm. unfold controller. specialize (Hm w).
  destruct (m w) as [[a | e] w1]; exact Hm.
Qed.

Lemma respects_find_email (email : string) :
  respects R (prisma.user.findUnique_email email).
Proof. intros w. apply R_refl. Qed.

Lemma respects_find_id (id : N) : respects R (prisma.user.findUnique_id id).
Proof. intros w. apply R_refl. Qed.

Lemma respects_find_session (token : jwt.Token) :
  respects R (prisma.session.findUnique_refreshToken token).
Proof. intros w. apply R_refl. Qed.

Lemma respects_hashPassword (password : string) :
  respects R (hashPassword password).
Proof. intros w. apply R_refl. Qed.

Lemma respects_comparePassword (password : string) (h : bcrypt.Hash) :
  respects R (comparePassword password h).
Proof. intros w. apply R_refl. Qed.

End Respects.

(** The steps of a computation, taken apart down to the calls of the ORM
    and of the mail transport, which [leaf] settles. *)
Ltac respects_steps refl trans leaf :=
  repeat first
    [ apply (respects_bind _ trans); [| intros ?]
    | apply (respects_try_catch _ trans); [| intros ?]
    | apply (respects_ret _ refl)
    | apply (respects_throw _ refl)
    | apply (respects_lift _ refl)
    | apply (respects_now _ refl)
    | apply (respects_find_email _ refl)
    | apply (respects_find_id _ refl)
    | apply (respects_find_session _ refl)
    | apply (respects_hashPassword _ refl)
    | apply (respects_comparePassword _ refl)
    | leaf
    | match goal with
      | |- respects _ (match ?x with _ => _ end) => destruct x
      | |- respects _ (if ?b then _ else _) => destruct b
      end ].

(** ** What no handler undoes *)

Lemma extends_refl {A} (l : list A) : extends l l.
Proof. exists []. symmetry. apply app_nil_r. Qed.

Lemma extends_trans {A} (a b c : list A) :
  extends a b -> extends b c -> extends a c.
Proof.
  intros [x ->] [y ->]. exists (x ++ y). symmetry. apply app_assoc.
Qed.

Lemma extends_snoc {A} (l : list A) (x : A) : extends l (l ++ [x]).
Proof. exists [x]. reflexivity. Qed.

Lemma grows_refl (w : World) : grows w w.
Proof. unfold grows. auto using extends_refl, N.le_refl. Qed.

Lemma grows_trans (a b c : World) : grows a b -> grows b c -> grows a c.
Proof.
  unfold grows. intros (A1 & A2 & A3 & A4) (B1 & B2 & B3 & B4).
  repeat split; eauto using extends_trans. lia.
Qed.

Lemma grows_user_create (email : string) (h : bcrypt.Hash)
      (firstName lastName : string) (phone : option string)
      (role status : string) :
  respects grows
    (prisma.user.create email h firstName lastName phone role status).
Proof.
  intros w. unfold grows. simpl.
  repeat split; auto using extends_refl; [| lia].
  rewrite map_app. apply extends_snoc.
Qed.

Lemma grows_user_update (id : N) (data : User.t -> User.t) :
  (forall u, identity (data u) = identity u) ->
  respects grows (prisma.user.update id data).
Proof.
  intros Hdata w. unfold prisma.user.update.
  destruct (existsb _ (users w)); [| apply grows_refl].
  unfold grows. simpl. repeat split; auto using extends_refl; [| lia].
  rewrite map_map.
  replace (map (fun x => identity (if N.eqb (User.id x) id then data x else x))
               (users w))
    with (map identity (users w)); [apply extends_refl |].
  apply map_ext. intros u. destruct (N.eqb (User.id u) id); auto.
Qed.

Lemma grows_session_create (userId : N) (token refreshToken : jwt.Token)
      (e r : option Z) (ipAddress userAgent : option string) :
  respects grows
    (prisma.session.create userId token refreshToken e r ipAddress userAgent).
Proof.
  intros w. unfold prisma.session.create.
  destruct e, r; try apply grows_refl.
  destruct (existsb _ (sessions w)); [apply grows_refl |].
  unfold grows. simpl. repeat split; auto using extends_refl. lia.
Qed.

Lemma grows_session_delete (id : N) : respects grows (prisma.session.delete id).
Proof.
  intros w. unfold prisma.session.delete.
  destruct (existsb _ (sessions w)); [| apply grows_refl].
  unfold grows. simpl. auto using extends_refl, N.le_refl.
Qed.

Lemma grows_session_deleteMany (token : jwt.Token) :
  respects grows (prisma.session.deleteMany_token token).
Proof. intros w. unfold grows. simpl. auto using extends_refl, N.le_refl. Qed.

Lemma grows_auditLog_create (entry : AuditLog.t) :
  respects grows (prisma.auditLog.create entry).
Proof.
  intros w. unfold grows. simpl.
  repeat split; auto using extends_refl, extends_snoc. lia.
Qed.

Lemma grows_sendEmail (m : Mail.t) : respects grows (emailService.sendEmail m).
Proof.
  intros w. unfold emailService.sendEmail.
  destruct (smtpUp w); [| apply grows_refl].
  unfold grows. simpl.
  repeat split; auto using extends_refl, extends_snoc. lia.
Qed.

Ltac grows_leaf :=
  first
    [ apply grows_user_create
    | apply grows_user_update; intros ?; reflexivity
    | apply grows_session_create
    | apply grows_session_delete
    | apply grows_session_deleteMany
    | apply grows_auditLog_create
    | apply grows_sendEmail ].

Ltac grows_steps := respects_steps grows_refl grows_trans grows_leaf.

Lemma authenticate_changes_nothing {B} (JWT_SECRET : string) (req : Request B)
      (w : World) :
  snd (authenticate JWT_SECRET req w) = w.
Proof.
  unfold authenticate. run.
  destruct (authorization req) as [token |]; [| reflexivity].
  destruct (falsy_token (Some token)); [reflexivity |].
  destruct (jwt.verify token JWT_SECRET (clock w)); [| reflexivity].
  destruct (find _ (users w)) as [u |]; [| reflexivity].
  destruct (negb (String.eqb (User.status u) "active")); [reflexivity |].
  destruct (negb (User.emailVerified u)); reflexivity.
Qed.

Lemma grows_behind_authenticate {B} (JWT_SECRET : string) (req : Request B)
      (handler : AuthUser.t -> World -> Outcome * World) (w : World) :
  (forall a w1, grows w1 (snd (handler a w1))) ->
  grows w (snd (routes.behind_authenticate JWT_SECRET req handler w)).
Proof.
  intros Hh. unfold routes.behind_authenticate.
  pose proof (authenticate_changes_nothing JWT_SECRET req w) as E.
  destruct (authenticate JWT_SECRET req w) as [[res | a | e] w1];
    simpl in E; subst w1; simpl; auto using grows_refl.
Qed.

Lemma grows_auth (authService : AuthService.t) (call : routes.Call)
      (w : World) :
  grows w (snd (routes.auth authService call w)).
Proof.
  destruct call as [req | req | req | req | req | req | req]; simpl.
  - unfold register. apply respects_controller.
    unfold generateTokens, emailService.sendVerificationEmail.
    cbv zeta. grows_steps.
  - unfold login. apply respects_controller.
    unfold generateTokens, storeSession. cbv zeta. grows_steps.
  - unfold verify2FA. apply respects_controller.
    unfold generateTokens, storeSession, verifyAccessToken, verify2FAToken.
    cbv zeta. grows_steps.
  - unfold refreshToken. apply respects_controller.
    unfold refreshSession, generateTokens, storeSession, verifyRefreshToken.
    grows_steps.
  - apply grows_behind_authenticate. intros a w1.
    unfold logout. apply respects_controller.
    unfold revokeSession. grows_steps.
  - unfold verifyEmail. apply respects_controller.
    unfold verifyAccessToken. cbv zeta. grows_steps.
  - apply grows_behind_authenticate. intros a w1.
    unfold getProfile. apply respects_controller. grows_steps.
Qed.

Lemma grows_set_clock (t : Z) (w : World) : grows w (set_clock t w).
Proof. unfold grows. simpl. auto using extends_refl, N.le_refl. Qed.

(** X1. Whatever requests the authentication router serves, and whenever: the
    audit log and the outbox are only appended to; no user row is deleted
    or reordered, and the identity columns of a user (identifier, email,
    password hash, names, phone, role, second-factor settings) are never
    rewritten; the identifier counter never goes back. *)
Theorem serve_only_grows (authService : AuthService.t)
        (calls : list (Z * routes.Call)) (w : World) :
  grows w (routes.serve authService calls w).
Proof.
  revert w. induction calls as [| [t call] rest IH]; intros w; simpl.
  - apply grows_refl.
  - eapply grows_trans; [| apply IH].
    eapply grows_trans; [apply (grows_set_clock t) | apply grows_auth].
Qed.

(** ** The constraints of the schema are kept *)

Lemma keeps_db_refl (w : World) : keeps_db w w.
Proof. intros H. exact H. Qed.

Lemma keeps_db_trans (a b c : World) :
  keeps_db a b -> keeps_db b c -> keeps_db a c.
Proof. unfold keeps_db. auto. Qed.

Lemma unique_column_after_delete {Row Key} (keep : Row -> bool)
      (column : Row -> Key) (rows : list Row) :
  NoDup (map column rows) -> NoDup (map column (filter keep rows)).
Proof.
  intros Hnd. induction rows as [| row rows IH]; [constructor |].
  cbn [map] in Hnd. apply NoDup_cons_iff in Hnd. destruct Hnd as [Hnew Hnd].
  cbn [filter]. destruct (keep row); [| exact (IH Hnd)].
  cbn [map]. apply NoDup_cons; [| exact (IH Hnd)].
  rewrite in_map_iff. intros (other & Hsame & Hin).
  apply filter_In in Hin. apply Hnew. rewrite in_map_iff.
  exists other. tauto.
Qed.

(** [db_ok] looks at the two tables and at the counter only. *)
Lemma db_ok_same_tables (w w' : World) :
  users w' = users w -> sessions w' = sessions w -> nextId w' = nextId w ->
  db_ok w -> db_ok w'.
Proof.
  unfold db_ok, unique_refreshTokens. intros -> -> ->. tauto.
Qed.

Lemma db_ok_fewer_sessions (p : Session.t -> bool) (w w' : World) :
  users w' = users w -> sessions w' = filter p (sessions w) ->
  nextId w' = nextId w ->
  db_ok w -> db_ok w'.
Proof.
  unfold db_ok, unique_refreshTokens. intros -> -> ->.
  intros (H1 & H2 & H3 & H4 & H5 & H6).
  repeat split; auto using unique_column_after_delete.
  intros s Hs. apply filter_In in Hs. apply H6. tauto.
Qed.

Lemma db_ok_new_session (s : Session.t) (w w' : World) :
  users w' = users w -> sessions w' = sessions w ++ [s] ->
  nextId w' = N.succ (nextId w) ->
  Session.id s = nextId w ->
  existsb (fun x => jwt.eqb (Session.refreshToken x) (Session.refreshToken s))
          (sessions w) = false ->
  db_ok w -> db_ok w'.
Proof.
  unfold db_ok, unique_refreshTokens. intros -> -> -> Hid Hfresh.
  intros (H1 & H2 & H3 & H4 & H5 & H6).
  repeat split; auto.
  - intros u Hu. specialize (H3 u Hu). lia.
  - rewrite map_app. simpl. apply NoDup_snoc; [exact H4 |].
    intros Hin. apply in_map_iff in Hin. destruct Hin as (x & Hx & Hxin).
    specialize (H6 x Hxin). lia.
  - rewrite map_app. simpl. apply NoDup_snoc; [exact H5 |].
    intros Hin. apply in_map_iff in Hin. destruct Hin as (x & Hx & Hxin).
    assert (E : existsb
                  (fun x => jwt.eqb (Session.refreshToken x)
                                    (Session.refreshToken s))
                  (sessions w) = true).
    { apply existsb_exists. exists x. split; [exact Hxin |].
      apply jwt_eqb_eq. exact Hx. }
    rewrite E in Hfresh. discriminate Hfresh.
  - intros x Hx. apply in_app_or in Hx. destruct Hx as [Hx | [<- | []]].
    + specialize (H6 x Hx). lia.
    + lia.
Qed.

Lemma db_ok_new_user (u : User.t) (w w' : World) :
  users w' = users w ++ [u] -> sessions w' = sessions w ->
  nextId w' = N.succ (nextId w) ->
  User.id u = nextId w ->
  find (fun x => String.eqb (User.email x) (User.email u)) (users w) = None ->
  db_ok w -> db_ok w'.
Proof.
  unfold db_ok, unique_refreshTokens. intros -> -> -> Hid Hfresh.
  intros (H1 & H2 & H3 & H4 & H5 & H6).
  repeat split; auto.
  - rewrite map_app. simpl. apply NoDup_snoc; [exact H1 |].
    intros Hin. apply in_map_iff in Hin. destruct Hin as (x & Hx & Hxin).
    specialize (H3 x Hxin). lia.
  - rewrite map_app. simpl. apply NoDup_snoc; [exact H2 |].
    intros Hin. apply in_map_iff in Hin. destruct Hin as (x & Hx & Hxin).
    pose proof (find_none _ _ Hfresh x Hxin) as E. simpl in E.
    rewrite Hx, String.eqb_refl in E. discriminate E.
  - intros x Hx. apply in_app_or in Hx. destruct Hx as [Hx | [<- | []]].
    + specialize (H3 x Hx). lia.
    + lia.
  - intros s Hs. specialize (H6 s Hs). lia.
Qed.

Lemma db_ok_updated_users (id : N) (data : User.t -> User.t) (w w' : World) :
  (forall u, User.id (data u) = User.id u) ->
  (forall u, User.email (data u) = User.email u) ->
  users w' = map (fun u => if N.eqb (User.id u) id then data u else u)
                 (users w) ->
  sessions w' = sessions w -> nextId w' = nextId w ->
  db_ok w -> db_ok w'.
Proof.
  unfold db_ok, unique_refreshTokens. intros Hi He -> -> ->.
  intros (H1 & H2 & H3 & H4 & H5 & H6).
  assert (Eid : map User.id
                  (map (fun u => if N.eqb (User.id u) id then data u else u)
                       (users w)) = map User.id (users w)).
  { rewrite map_map. apply map_ext. intros u.
    destruct (N.eqb (User.id u) id); auto. }
  assert (Eem : map User.email
                  (map (fun u => if N.eqb (User.id u) id then data u else u)
                       (users w)) = map User.email (users w)).
  { rewrite map_map. apply map_ext. intros u.
    destruct (N.eqb (User.id u) id); auto. }
  rewrite Eid, Eem. repeat split; auto.
  intros u Hu. apply in_map_iff in Hu. destruct Hu as (x & <- & Hx).
  specialize (H3 x Hx). destruct (N.eqb (User.id x) id); [rewrite Hi |]; auto.
Qed.

Lemma keeps_db_user_update (id : N) (data : User.t -> User.t) :
  (forall u, User.id (data u) = User.id u) ->
  (forall u, User.email (data u) = User.email u) ->
  respects keeps_db (prisma.user.update id data).
Proof.
  intros Hi He w. unfold prisma.user.update.
  destruct (existsb _ (users w)); [| apply keeps_db_refl].
  intros Hok. simpl. apply (db_ok_updated_users id data w); auto.
Qed.

Lemma keeps_db_session_create (userId : N) (token refreshToken : jwt.Token)
      (e r : option Z) (ipAddress userAgent : option string) :
  respects keeps_db
    (prisma.session.create userId token refreshToken e r ipAddress userAgent).
Proof.
  intros w. unfold prisma.session.create.
  destruct e as [e |], r as [r |]; try apply keeps_db_refl.
  destruct (existsb _ (sessions w)) eqn:E; [apply keeps_db_refl |].
  intros Hok. simpl.
  apply (db_ok_new_session
           (Session.mk (nextId w) userId token refreshToken e r
                       ipAddress userAgent) w); auto.
Qed.

Lemma keeps_db_session_delete (id : N) :
  respects keeps_db (prisma.session.delete id).
Proof.
  intros w. unfold prisma.session.delete.
  destruct (existsb _ (sessions w)); [| apply keeps_db_refl].
  intros Hok. simpl.
  eapply db_ok_fewer_sessions; [| | | exact Hok]; reflexivity.
Qed.

Lemma keeps_db_session_deleteMany (token : jwt.Token) :
  respects keeps_db (prisma.session.deleteMany_token token).
Proof.
  intros w Hok. simpl.
  eapply db_ok_fewer_sessions; [| | | exact Hok]; reflexivity.
Qed.

Lemma keeps_db_auditLog_create (entry : AuditLog.t) :
  respects keeps_db (prisma.auditLog.create entry).
Proof.
  intros w Hok. simpl. apply (db_ok_same_tables w); auto.
Qed.

Lemma keeps_db_sendEmail (m : Mail.t) :
  respects keeps_db (emailService.sendEmail m).
Proof.
  intros w. unfold emailService.sendEmail.
  destruct (smtpUp w); [| apply keeps_db_refl].
  intros Hok. simpl. apply (db_ok_same_tables w); auto.
Qed.

Ltac keeps_db_leaf :=
  first
    [ apply keeps_db_user_update; intros ?; reflexivity
    | apply keeps_db_session_create
    | apply keeps_db_session_delete
    | apply keeps_db_session_deleteMany
    | apply keeps_db_auditLog_create
    | apply keeps_db_sendEmail ].

Ltac keeps_db_steps :=
  respects_steps keeps_db_refl keeps_db_trans keeps_db_leaf.

(** register creates the row only after it found no row with the email. *)
Lemma keeps_db_register (authService : AuthService.t)
      (req : Request RegisterBody) (w : World) :
  keeps_db w (snd (register authService req w)).
Proof.
  intros Hok. unfold register, controller.
  unfold bind at 1. unfold prisma.user.findUnique_email at 1.
  destruct (find _ (users w)) as [existing |] eqn:Hfind; [exact Hok |].
  unfold bind at 1. unfold hashPassword at 1, ret at 1.
  unfold bind at 1. unfold prisma.user.create at 1.
  match goal with
  | |- db_ok (snd (let (r, w') := ?k ?w1 in _)) =>
      assert (Hk : respects keeps_db k);
      [| assert (H1 : db_ok w1);
         [| specialize (Hk w1 H1); destruct (k w1) as [[res | e] w2];
            exact Hk ] ]
  end.
  - unfold generateTokens, emailService.sendVerificationEmail.
    keeps_db_steps.
  - eapply db_ok_new_user; try reflexivity; [| exact Hok]. exact Hfind.
Qed.

Lemma keeps_db_behind_authenticate {B} (JWT_SECRET : string) (req : Request B)
      (handler : AuthUser.t -> World -> Outcome * World) (w : World) :
  (forall a w1, keeps_db w1 (snd (handler a w1))) ->
  keeps_db w (snd (routes.behind_authenticate JWT_SECRET req handler w)).
Proof.
  intros Hh. unfold routes.behind_authenticate.
  pose proof (authenticate_changes_nothing JWT_SECRET req w) as E.
  destruct (authenticate JWT_SECRET req w) as [[res | a | e] w1];
    simpl in E; subst w1; simpl; auto using keeps_db_refl.
Qed.

Lemma keeps_db_auth (authService : AuthService.t) (call : routes.Call)
      (w : World) :
  keeps_db w (snd (routes.auth authService call w)).
Proof.
  destruct call as [req | req | req | req | req | req | req]; simpl.
  - apply keeps_db_register.
  - unfold login. apply respects_controller.
    unfold generateTokens, storeSession. cbv zeta. keeps_db_steps.
  - unfold verify2FA. apply respects_controller.
    unfold generateTokens, storeSession, verifyAccessToken, verify2FAToken.
    cbv zeta. keeps_db_steps.
  - unfold refreshToken. apply respects_controller.
    unfold refreshSession, generateTokens, storeSession, verifyRefreshToken.
    keeps_db_steps.
  - apply keeps_db_behind_authenticate. intros a w1.
    unfold logout. apply respects_controller.
    unfold revokeSession. keeps_db_steps.
  - unfold verifyEmail. apply respects_controller.
    unfold verifyAccessToken. cbv zeta. keeps_db_steps.
  - apply keeps_db_behind_authenticate. intros a w1.
    unfold getProfile. apply respects_controller. keeps_db_steps.
Qed.

(** X2. From a database that satisfies the constraints of the schema, whatever
    requests the authentication router serves leave one that satisfies them:
    no two users share an identifier or an email, no two sessions share an
    identifier or a refresh token, and every identifier in use is below the
    counter. *)
Theorem serve_keeps_db_ok (authService : AuthService.t)
        (calls : list (Z * routes.Call)) (w : World) :
  db_ok w -> db_ok (routes.serve authService calls w).
Proof.
  revert w. induction calls as [| [t call] rest IH]; intros w Hok; simpl.
  - exact Hok.
  - apply IH. apply keeps_db_auth.
    apply (db_ok_same_tables w); auto.
Qed.

Lemma serve_keeps_db_ok_witness :
  db_ok (routes.serve demoService
           [(1704067200000, routes.PostLogin loginAlice);
            (1704067201000, routes.PostRegister registerAlice)]
           (demoWorld [alice "PENDING" false false])).
Proof.
  apply (serve_keeps_db_ok demoService
           [(1704067200000, routes.PostLogin loginAlice);
            (1704067201000, routes.PostRegister registerAlice)]
           (demoWorld [alice "PENDING" false false])).
  unfold db_ok, unique_refreshTokens. simpl.
  repeat split; try (repeat constructor; simpl; tauto).
  all: intros x Hx; simpl in Hx; try tauto.
  destruct Hx as [<- | []]. reflexivity.
Defined.

(** ** The other middlewares and the routes behind them *)

(** X3. optionalAuth is authenticate with its refusals swallowed: it attaches
    a user exactly when authenticate lets the request through, the same
    user, and it never changes the world. *)
Theorem optionalAuth_is_authenticate_without_errors {B}
        (JWT_SECRET : string) (req : Request B) (w : World) :
  optionalAuth JWT_SECRET req w =
    (match fst (authenticate JWT_SECRET req w) with
     | Next user => Some user
     | _ => None
     end, w).
Proof.
  unfold optionalAuth, authenticate. run.
  destruct (authorization req) as [token |]; [| reflexivity].
  destruct (falsy_token (Some token)); [reflexivity |].
  destruct (jwt.verify token JWT_SECRET (clock w)); [| reflexivity].
  destruct (find _ (users w)) as [u |]; [| reflexivity].
  destruct (String.eqb (User.status u) "active"); [| reflexivity].
  destruct (User.emailVerified u); reflexivity.
Qed.

Lemma authenticate_reads_users_and_clock {B}
      (JWT_SECRET : string) (req : Request B) (w w1 : World) :
  users w1 = users w -> clock w1 = clock w ->
  fst (authenticate JWT_SECRET req w1) = fst (authenticate JWT_SECRET req w).
Proof.
  intros Hu Hc. unfold authenticate.
  destruct (authorization req) as [token |]; [| reflexivity].
  destruct (falsy_token (Some token)); [reflexivity |].
  run. rewrite Hu, Hc.
  destruct (jwt.verify token JWT_SECRET (clock w)); [| reflexivity].
  simpl. destruct (find _ (users w)) as [u |]; [| reflexivity].
  destruct (negb (String.eqb (User.status u) "active")); [reflexivity |].
  destruct (negb (User.emailVerified u)); reflexivity.
Qed.

Lemma logout_sent (req : Request unit) (reqUser : option AuthUser.t)
      (w : World) :
  exists w1,
    logout req reqUser w =
      (Sent (mkResponse 200 true (Some "Logout successful") NoData), w1) /\
    users w1 = users w /\ clock w1 = clock w /\
    extends (auditLogs w) (auditLogs w1) /\
    sessions w1 =
      match authorization req with
      | Some token =>
          if falsy_token (Some token) then sessions w
          else filter (fun s => negb (jwt.eqb (Session.token s) token))
                      (sessions w)
      | None => sessions w
      end.
Proof.
  unfold logout, revokeSession, prisma.session.deleteMany_token,
    prisma.auditLog.create. run.
  destruct (authorization req) as [token |];
    [destruct (falsy_token (Some token)) |];
    destruct reqUser as [a |]; simpl;
    eexists; (split; [reflexivity |]); simpl;
    repeat split; eauto using extends_refl, extends_snoc.
Qed.

(** X4. Logging out does not invalidate the access token: authenticate reads
    the users and the clock only, so after a logout, or after all sessions
    of a user were revoked, every request is accepted or refused by the
    middleware exactly as before. *)
Theorem access_token_survives_logout {B}
        (JWT_SECRET : string) (req : Request B) (w : World)
        (logoutReq : Request unit) (reqUser : option AuthUser.t)
        (userId : N) :
  fst (authenticate JWT_SECRET req (snd (logout logoutReq reqUser w))) =
    fst (authenticate JWT_SECRET req w) /\
  fst (authenticate JWT_SECRET req (snd (revokeAllUserSessions userId w))) =
    fst (authenticate JWT_SECRET req w).
Proof.
  split.
  - destruct (logout_sent logoutReq reqUser w) as (w1 & E & Hu & Hc & _).
    rewrite E. simpl. now apply authenticate_reads_users_and_clock.
  - now apply authenticate_reads_users_and_clock.
Qed.

(** ** The statuses that the handlers write *)

Lemma keeps_known_refl (w : World) : keeps_known w w.
Proof. intros H. exact H. Qed.

Lemma keeps_known_trans (a b c : World) :
  keeps_known a b -> keeps_known b c -> keeps_known a c.
Proof. unfold keeps_known. auto. Qed.

Lemma keeps_known_same_users (w w' : World) :
  users w' = users w -> keeps_known w w'.
Proof. unfold keeps_known, statuses_known. intros ->. auto. Qed.

Lemma keeps_known_user_create
      (email : string) (passwordHash : bcrypt.Hash)
      (firstName lastName : string) (phoneNumber : option string)
      (role status : string) :
  known_status status ->
  respects keeps_known
    (prisma.user.create email passwordHash firstName lastName phoneNumber
                        role status).
Proof.
  intros Hst w Hok u Hu. simpl in Hu. apply in_app_or in Hu.
  destruct Hu as [Hu | [<- | []]]; [auto | exact Hst].
Qed.

Lemma keeps_known_user_update (id : N) (data : User.t -> User.t) :
  (forall u, known_status (User.status u) ->
             known_status (User.status (data u))) ->
  respects keeps_known (prisma.user.update id data).
Proof.
  intros Hd w. unfold prisma.user.update.
  destruct (existsb _ (users w)); [| apply keeps_known_refl].
  intros Hok u Hu. simpl in Hu. apply in_map_iff in Hu.
  destruct Hu as (x & <- & Hx).
  destruct (N.eqb (User.id x) id); auto.
Qed.

Lemma keeps_known_session_create
      (userId : N) (token refreshToken : jwt.Token)
      (e r : option Z) (ipAddress userAgent : option string) :
  respects keeps_known
    (prisma.session.create userId token refreshToken e r ipAddress userAgent).
Proof.
  intros w. unfold prisma.session.create.
  destruct e as [e |], r as [r |]; try apply keeps_known_refl.
  destruct (existsb _ (sessions w)); [apply keeps_known_refl |].
  now apply keeps_known_same_users.
Qed.

Lemma keeps_known_session_delete (id : N) :
  respects keeps_known (prisma.session.delete id).
Proof.
  intros w. unfold prisma.session.delete.
  destruct (existsb _ (sessions w)); [| apply keeps_known_refl].
  now apply keeps_known_same_users.
Qed.

Lemma keeps_known_session_deleteMany (token : jwt.Token) :
  respects keeps_known (prisma.session.deleteMany_token token).
Proof. intros w. now apply keeps_known_same_users. Qed.

Lemma keeps_known_auditLog_create (entry : AuditLog.t) :
  respects keeps_known (prisma.auditLog.create entry).
Proof. intros w. now apply keeps_known_same_users. Qed.

Lemma keeps_known_sendEmail (m : Mail.t) :
  respects keeps_known (emailService.sendEmail m).
Proof.
  intros w. unfold emailService.sendEmail.
  destruct (smtpUp w); [| apply keeps_known_refl].
  now apply keeps_known_same_users.
Qed.

Ltac keeps_known_leaf :=
  first
    [ apply keeps_known_user_create; unfold known_status; tauto
    | apply keeps_known_user_update; intros ? ?;
      solve [ assumption | unfold known_status; simpl; tauto ]
    | apply keeps_known_session_create
    | apply keeps_known_session_delete
    | apply keeps_known_session_deleteMany
    | apply keeps_known_auditLog_create
    | apply keeps_known_sendEmail ].

Ltac keeps_known_steps :=
  respects_steps keeps_known_refl keeps_known_trans keeps_known_leaf.

Lemma keeps_known_behind_authenticate {B}
      (JWT_SECRET : string) (req : Request B)
      (handler : AuthUser.t -> World -> Outcome * World) (w : World) :
  (forall a w1, keeps_known w1 (snd (handler a w1))) ->
  keeps_known w (snd (routes.behind_authenticate JWT_SECRET req handler w)).
Proof.
  intros Hh. unfold routes.behind_authenticate.
  pose proof (authenticate_changes_nothing JWT_SECRET req w) as E.
  destruct (authenticate JWT_SECRET req w) as [[res | a | e] w1];
    simpl in E; subst w1; simpl; auto using keeps_known_refl.
Qed.

Lemma keeps_known_auth (authService : AuthService.t) (call : routes.Call)
      (w : World) :
  keeps_known w (snd (routes.auth authService call w)).
Proof.
  destruct call as [req | req | req | req | req | req | req]; simpl.
  - unfold register. apply respects_controller.
    unfold generateTokens, emailService.sendVerificationEmail.
    cbv zeta. keeps_known_steps.
  - unfold login. apply respects_controller.
    unfold generateTokens, storeSession. cbv zeta. keeps_known_steps.
  - unfold verify2FA. apply respects_controller.
    unfold generateTokens, storeSession, verifyAccessToken, verify2FAToken.
    cbv zeta. keeps_known_steps.
  - unfold refreshToken. apply respects_controller.
    unfold refreshSession, generateTokens, storeSession, verifyRefreshToken.
    keeps_known_steps.
  - apply keeps_known_behind_authenticate. intros a w1.
    unfold logout. apply respects_controller.
    unfold revokeSession. keeps_known_steps.
  - unfold verifyEmail. apply respects_controller.
    unfold verifyAccessToken. cbv zeta. keeps_known_steps.
  - apply keeps_known_behind_authenticate. intros a w1.
    unfold getProfile. apply respects_controller. keeps_known_steps.
Qed.

Lemma serve_keeps_known (authService : AuthService.t)
      (calls : list (Z * routes.Call)) (w : World) :
  statuses_known w -> statuses_known (routes.serve authService calls w).
Proof.
  revert w. induction calls as [| [t call] rest IH]; intros w Hok; simpl.
  - exact Hok.
  - apply IH. apply keeps_known_auth. exact Hok.
Qed.

Lemma behind_authenticate_refused {B} (JWT_SECRET : string) (req : Request B)
      (handler : AuthUser.t -> World -> Outcome * World) (w : World) :
  statuses_known w ->
  exists e,
    routes.behind_authenticate JWT_SECRET req handler w = (NextError e, w).
Proof.
  intros Hok. unfold routes.behind_authenticate.
  pose proof (authenticate_changes_nothing JWT_SECRET req w) as E.
  pose proof (authenticate_never_proceeds JWT_SECRET req w) as Hn.
  destruct (authenticate JWT_SECRET req w) as [[res | a | e] w1] eqn:Ha;
    simpl in E; subst w1.
  - exfalso. revert Ha. unfold authenticate, middleware.
    match goal with
    | |- context [match ?m with _ => _ end] => destruct m as [[? | ?] ?]
    end; discriminate.
  - exfalso. exact (Hn w a Hok eq_refl).
  - eauto.
Qed.

(** X5. Starting from a user table whose statuses are the upper-case values
    of the schema, and whatever requests the authentication router has
    served since, the routes behind authenticate stay closed: a logout, a
    profile request and every administration request end in next(error)
    and change nothing.  (The handlers write PENDING and ACTIVE only, and
    the middleware asks for "active".) *)
Theorem protected_routes_stay_closed
        (authService : AuthService.t) (calls : list (Z * routes.Call))
        (w : World) :
  statuses_known w ->
  let w' := routes.serve authService calls w in
  statuses_known w' /\
  (forall req, exists e,
      routes.auth authService (routes.PostLogout req) w' = (NextError e, w')) /\
  (forall req, exists e,
      routes.auth authService (routes.GetProfile req) w' = (NextError e, w')) /\
  (forall message (req : Request unit), exists e,
      routes.admin (jwtSecret authService) message req w' = (NextError e, w')).
Proof.
  intros Hok w'.
  assert (Hok' : statuses_known w') by now apply serve_keeps_known.
  split; [exact Hok' |].
  repeat split; intros; simpl; unfold routes.admin;
    now apply behind_authenticate_refused.
Qed.

Lemma protected_routes_stay_closed_witness :
  statuses_known (demoWorld [alice "PENDING" false false]) /\
  exists e,
    routes.auth demoService (routes.PostLogout bearerAlice)
      (routes.serve demoService
         [(1704067200000, routes.PostLogin loginAlice)]
         (demoWorld [alice "PENDING" false false])) =
    (NextError e,
     routes.serve demoService
       [(1704067200000, routes.PostLogin loginAlice)]
       (demoWorld [alice "PENDING" false false])).
Proof.
  assert (H : statuses_known (demoWorld [alice "PENDING" false false])).
  { intros u [<- | []]. left. reflexivity. }
  split; [exact H |].
  pose proof (protected_routes_stay_closed demoService
                [(1704067200000, routes.PostLogin loginAlice)]
                (demoWorld [alice "PENDING" false false]) H) as P.
  destruct P as (_ & P & _). exact (P bearerAlice).
Defined.

(** X6. An administration request reaches its handler (which answers 501)
    exactly when the access token verifies, the user it names exists with
    status "active" and a verified email, and the role in that user's ROW is
    ADMIN or SUPER_ADMIN: the role claim inside the token is not consulted.
    The world is unchanged. *)
Theorem admin_reached_iff {B}
        (JWT_SECRET message : string) (req : Request B) (w w' : World)
        (res : Response) :
  routes.admin JWT_SECRET message req w = (Sent res, w') <->
  w' = w /\ res = mkResponse 501 false (Some message) NoData /\
  exists token payload user,
    authorization req = Some token /\
    falsy_token (Some token) = false /\
    jwt.verify token JWT_SECRET (clock w) = Ok payload /\
    find (fun u => N.eqb (User.id u) (JWTPayload.userId payload)) (users w)
      = Some user /\
    User.status user = "active" /\
    User.emailVerified user = true /\
    (User.role user = "ADMIN" \/ User.role user = "SUPER_ADMIN").
Proof.
  unfold routes.admin, routes.behind_authenticate, authorize.
  destruct (authenticate JWT_SECRET req w) as [[r | a | e] w1] eqn:Ha.
  - exfalso. revert Ha. unfold authenticate, middleware.
    match goal with
    | |- context [match ?m with _ => _ end] => destruct m as [[? | ?] ?]
    end; discriminate.
  - apply authenticate_proceeds_iff in Ha.
    destruct Ha as (-> & token & payload & user & H1 & H2 & H3 & H4 & H5 & H6
                    & ->).
    cbn [existsb AuthUser.role].
    split.
    + destruct (String.eqb_spec "ADMIN" (User.role user)) as [E | NE];
        [| destruct (String.eqb_spec "SUPER_ADMIN" (User.role user))
             as [E' | NE']]; cbn [orb]; intros H; inversion H; subst;
        (split; [reflexivity |]); (split; [reflexivity |]);
        exists token, payload, user; auto 10.
    + intros (-> & -> & token' & payload' & user' & K1 & K2 & K3 & K4 & K5
              & K6 & K7).
      rewrite H1 in K1. injection K1 as <-.
      rewrite H3 in K3. injection K3 as <-.
      rewrite H4 in K4. injection K4 as <-.
      destruct K7 as [-> | ->]; reflexivity.
  - split; [discriminate |].
    intros (-> & -> & token & payload & user & K1 & K2 & K3 & K4 & K5 & K6
            & K7).
    assert (Hp : authenticate JWT_SECRET req w =
                   (Next (AuthUser.mk (User.id user) (User.email user)
                                      (User.role user) (User.status user)), w)).
    { apply authenticate_proceeds_iff. split; [reflexivity |].
      exists token, payload, user. auto 10. }
    rewrite Hp in Ha. discriminate Ha.
Qed.

(** An authenticated user whose row carries another role gets the 403
    error of authorize. *)
Lemma admin_refuses_other_roles {B}
      (JWT_SECRET message : string) (req : Request B) (w : World)
      (a : AuthUser.t) :
  authenticate JWT_SECRET req w = (Next a, w) ->
  AuthUser.role a <> "ADMIN" -> AuthUser.role a <> "SUPER_ADMIN" ->
  routes.admin JWT_SECRET message req w =
    (NextError (createError "Insufficient permissions" 403), w).
Proof.
  intros Ha H1 H2. unfold routes.admin, routes.behind_authenticate, authorize.
  rewrite Ha. cbn [existsb].
  destruct (String.eqb_spec "ADMIN" (AuthUser.role a)); [congruence |].
  destruct (String.eqb_spec "SUPER_ADMIN" (AuthUser.role a)); [congruence |].
  reflexivity.
Qed.

(** X7. Behind authenticate, getProfile always finds the row: a profile request
    is answered with the row of the user named in the token, or refused by
    the middleware with one of its 401 errors or the error of jwt.verify;
    the handler's own 404 cannot occur, and nothing is written. *)
Theorem getProfile_behind_authenticate
        (authService : AuthService.t) (req : Request unit) (w : World) :
  snd (routes.auth authService (routes.GetProfile req) w) = w /\
  match fst (routes.auth authService (routes.GetProfile req) w) with
  | Sent res =>
      exists token payload user,
        authorization req = Some token /\
        jwt.verify token (jwtSecret authService) (clock w) = Ok payload /\
        In user (users w) /\
        User.id user = JWTPayload.userId payload /\
        res = mkResponse 200 true None (RegisterData user)
  | Next _ => False
  | NextError e =>
      fst (authenticate (jwtSecret authService) req w) = NextError e /\
      e <> createError "User not found" 404
  end.
Proof.
  cbn [routes.auth]. unfold routes.behind_authenticate.
  destruct (authenticate (jwtSecret authService) req w) as [[r | a | e] w1]
    eqn:Ha.
  - exfalso. revert Ha. unfold authenticate, middleware.
    match goal with
    | |- context [match ?m with _ => _ end] => destruct m as [[? | ?] ?]
    end; discriminate.
  - apply authenticate_proceeds_iff in Ha.
    destruct Ha as (-> & token & payload & user & H1 & H2 & H3 & H4 & H5 & H6
                    & ->).
    unfold getProfile. run. cbn [AuthUser.id].
    pose proof (find_some _ _ H4) as [Hin Hid].
    apply N.eqb_eq in Hid.
    rewrite <- Hid in H4. rewrite H4. cbn [fst snd].
    split; [reflexivity |].
    exists token, payload, user. auto 10.
  - pose proof (authenticate_changes_nothing (jwtSecret authService) req w)
      as E.
    rewrite Ha in E. simpl in E. subst w1. cbn [fst snd].
    split; [reflexivity |]. split; [reflexivity |].
    revert Ha. unfold authenticate. run.
    destruct (authorization req) as [token |]; [| intros H; inversion H;
                                                   discriminate].
    destruct (falsy_token (Some token));
      [intros H; inversion H; discriminate |].
    destruct (jwt.verify token (jwtSecret authService) (clock w)) as [p | e']
      eqn:Hv.
    2:{ intros H. inversion H; subst. unfold jwt.verify in Hv.
        destruct token; [| inversion Hv; discriminate].
        destruct (negb _); [inversion Hv; discriminate |].
        destruct (_ <=? _); inversion Hv; discriminate. }
    cbn [fst snd]. destruct (find _ (users w)) as [u |];
      [| intros H; inversion H; discriminate].
    destruct (negb (String.eqb (User.status u) "active"));
      [intros H; inversion H; discriminate |].
    destruct (negb (User.emailVerified u)); intros H; inversion H;
      discriminate.
Qed.

(** ** Revoking sessions *)

Lemma removed_session_is_not_found
      (keep : Session.t -> bool) (ss : list Session.t) (s : Session.t) :
  NoDup (map Session.refreshToken ss) -> In s ss -> keep s = false ->
  find (fun x => jwt.eqb (Session.refreshToken x) (Session.refreshToken s))
       (filter keep ss) = None.
Proof.
  intros Hnd Hin Hk. apply find_none_iff. intros x Hx.
  apply filter_In in Hx. destruct Hx as [Hxin Hkx].
  destruct (jwt.eqb (Session.refreshToken x) (Session.refreshToken s)) eqn:E;
    [| reflexivity].
  apply jwt_eqb_eq in E.
  assert (x = s) by (eapply NoDup_map_injective; eauto).
  subst x. congruence.
Qed.

(** X8. logout answers "Logout successful" and removes exactly the session
    rows that carry the access token of the request; with refresh tokens
    unique, the refresh token of a removed session is refused from then on
    with SessionExpired, however long it would still have been valid. *)
Theorem logout_ends_the_session
        (authService : AuthService.t) (req : Request unit)
        (reqUser : option AuthUser.t) (w : World) (s : Session.t)
        (payload : JWTPayload.t) (later : Z) :
  authorization req = Some (Session.token s) ->
  falsy_token (Some (Session.token s)) = false ->
  In s (sessions w) ->
  unique_refreshTokens w ->
  jwt.verify (Session.refreshToken s) (jwtRefreshSecret authService) later
    = Ok payload ->
  exists w1,
    logout req reqUser w =
      (Sent (mkResponse 200 true (Some "Logout successful") NoData), w1) /\
    (forall x, In x (sessions w1) <->
               In x (sessions w) /\ Session.token x <> Session.token s) /\
    refreshSession authService (Session.refreshToken s) (set_clock later w1)
      = (Throw SessionExpired, set_clock later w1).
Proof.
  intros Hauth Hf Hin Hnd Hv.
  destruct (logout_sent req reqUser w) as (w1 & E & Hu & Hc & _ & Hs).
  rewrite Hauth, Hf in Hs.
  exists w1. split; [exact E |]. split.
  - intros x. rewrite Hs, filter_In.
    split; intros [H1 H2]; (split; [exact H1 |]).
    + intros Heq. apply jwt_eqb_eq in Heq. rewrite Heq in H2. discriminate.
    + destruct (jwt.eqb (Session.token x) (Session.token s)) eqn:Eq;
        [| reflexivity].
      apply jwt_eqb_eq in Eq. contradiction.
  - apply (refreshSession_without_row _ _ _ payload); [exact Hv |].
    cbn [set_clock sessions]. rewrite Hs.
    apply removed_session_is_not_found; auto.
    destruct (jwt.eqb (Session.token s) (Session.token s)) eqn:Eq;
      [reflexivity |].
    assert (Ht : jwt.eqb (Session.token s) (Session.token s) = true)
      by now apply jwt_eqb_eq.
    congruence.
Qed.

Lemma logout_ends_the_session_witness :
  exists w1,
    logout bearerAlice None loggedIn =
      (Sent (mkResponse 200 true (Some "Logout successful") NoData), w1) /\
    (forall x, In x (sessions w1) <->
               In x (sessions loggedIn) /\
               Session.token x <> Session.token aliceSession) /\
    refreshSession demoService (Session.refreshToken aliceSession)
                   (set_clock 1704070000000 w1)
      = (Throw SessionExpired, set_clock 1704070000000 w1).
Proof.
  apply (logout_ends_the_session demoService bearerAlice None loggedIn
           aliceSession alicePayload 1704070000000).
  - reflexivity.
  - reflexivity.
  - left. reflexivity.
  - unfold unique_refreshTokens. simpl. repeat constructor. simpl. tauto.
  - reflexivity.
Defined.

(** X9. revokeAllUserSessions removes exactly the sessions of the user; with
    refresh tokens unique, none of that user's refresh tokens is accepted
    afterwards; the rows of everybody else stay. *)
Theorem revokeAllUserSessions_ends_every_session
        (authService : AuthService.t) (userId : N) (w : World)
        (s : Session.t) (payload : JWTPayload.t) (later : Z) :
  In s (sessions w) ->
  Session.userId s = userId ->
  unique_refreshTokens w ->
  jwt.verify (Session.refreshToken s) (jwtRefreshSecret authService) later
    = Ok payload ->
  fst (revokeAllUserSessions userId w) = Ok tt /\
  (forall x, In x (sessions (snd (revokeAllUserSessions userId w))) <->
             In x (sessions w) /\ Session.userId x <> userId) /\
  refreshSession authService (Session.refreshToken s)
                 (set_clock later (snd (revokeAllUserSessions userId w)))
    = (Throw SessionExpired,
       set_clock later (snd (revokeAllUserSessions userId w))).
Proof.
  intros Hin Hid Hnd Hv.
  unfold revokeAllUserSessions, prisma.session.deleteMany_userId.
  cbn [fst snd set_sessions sessions].
  split; [reflexivity |]. split.
  - intros x. rewrite filter_In.
    split; intros [H1 H2]; (split; [exact H1 |]).
    + intros Heq. apply N.eqb_eq in Heq. rewrite Heq in H2. discriminate.
    + destruct (N.eqb_spec (Session.userId x) userId); [contradiction |].
      reflexivity.
  - apply (refreshSession_without_row _ _ _ payload); [exact Hv |].
    cbn [set_clock set_sessions sessions].
    apply removed_session_is_not_found; auto.
    rewrite Hid, N.eqb_refl. reflexivity.
Qed.

Lemma revokeAllUserSessions_ends_every_session_witness :
  sessions (snd (revokeAllUserSessions 1 loggedIn)) = [] /\
  refreshSession demoService (Session.refreshToken aliceSession)
                 (set_clock 1704070000000
                    (snd (revokeAllUserSessions 1 loggedIn)))
    = (Throw SessionExpired,
       set_clock 1704070000000 (snd (revokeAllUserSessions 1 loggedIn))).
Proof.
  split; [reflexivity |].
  pose proof (revokeAllUserSessions_ends_every_session demoService 1 loggedIn
                aliceSession alicePayload 1704070000000) as H.
  apply H.
  - left. reflexivity.
  - reflexivity.
  - unfold unique_refreshTokens. simpl. repeat constructor. simpl. tauto.
  - reflexivity.
Defined.

(** ** refreshSession, step by step *)

(** X10. What a successful refresh does: the presented token verified against
    the refresh secret, its row was found, not past its date, and belonged
    to a user whose status is ACTIVE; that row is deleted and one row is
    added for the returned pair, which is signed at the clock for the
    payload of the presented token.  The new row is owned by the user
    named in the token and carries neither IP address nor user agent; no
    user and no audit entry is written. *)
Theorem refreshSession_rotates
        (authService : AuthService.t) (token : jwt.Token) (w w1 : World)
        (tokens : AuthTokens.t) :
  refreshSession authService token w = (Ok tokens, w1) <->
  exists payload s owner access_ms refresh_ms,
    jwt.verify token (jwtRefreshSecret authService) (clock w) = Ok payload /\
    find (fun x => jwt.eqb (Session.refreshToken x) token) (sessions w)
      = Some s /\
    clock w <= Session.refreshExpiresAt s /\
    find (fun u => N.eqb (User.id u) (Session.userId s)) (users w)
      = Some owner /\
    User.status owner = "ACTIVE" /\
    jwt.sign payload (jwtSecret authService) (jwtExpiresIn authService)
             (clock w) = Ok (AuthTokens.accessToken tokens) /\
    jwt.sign payload (jwtRefreshSecret authService)
             (jwtRefreshExpiresIn authService) (clock w)
      = Ok (AuthTokens.refreshToken tokens) /\
    parseTimeToMs (jwtExpiresIn authService) = Ok (Some access_ms) /\
    parseTimeToMs (jwtRefreshExpiresIn authService) = Ok (Some refresh_ms) /\
    existsb (fun x => jwt.eqb (Session.refreshToken x)
                              (AuthTokens.refreshToken tokens))
            (filter (fun x => negb (N.eqb (Session.id x) (Session.id s)))
                    (sessions w)) = false /\
    w1 = mkWorld (users w)
           (filter (fun x => negb (N.eqb (Session.id x) (Session.id s)))
                   (sessions w)
            ++ [Session.mk (nextId w) (JWTPayload.userId payload)
                  (AuthTokens.accessToken tokens)
                  (AuthTokens.refreshToken tokens)
                  (clock w + access_ms) (clock w + refresh_ms) None None])
           (auditLogs w) (outbox w) (smtpUp w) (N.succ (nextId w)) (clock w).
Proof.
  unfold refreshSession, verifyRefreshToken, generateTokens, storeSession,
    prisma.session.delete, prisma.session.create.
  run.
  split.
  - destruct (jwt.verify token (jwtRefreshSecret authService) (clock w))
      as [payload | e] eqn:Hv;
      [| destruct e as [? ? | [|] | ? | ? | ?]; discriminate].
    cbn [fst snd].
    destruct (find (fun x => jwt.eqb (Session.refreshToken x) token)
                   (sessions w)) as [s |] eqn:Hs; [| discriminate].
    cbn [fst snd].
    destruct (Z.ltb_spec (Session.refreshExpiresAt s) (clock w))
      as [Hlt | Hge]; [discriminate |].
    destruct (find (fun u => N.eqb (User.id u) (Session.userId s)) (users w))
      as [owner |] eqn:Ho; [| discriminate].
    destruct (String.eqb_spec (User.status owner) "ACTIVE") as [Hst | Hst];
      cbn [negb]; [| discriminate].
    destruct (existsb (fun x => N.eqb (Session.id x) (Session.id s))
                      (sessions w)); [| discriminate].
    destruct payload as [uid em ro].
    cbn [fst snd set_sessions clock sessions users auditLogs
         outbox smtpUp nextId JWTPayload.userId JWTPayload.email
         JWTPayload.role].
    set (payload := JWTPayload.mk uid em ro) in *.
    destruct (jwt.sign payload (jwtSecret authService)
                       (jwtExpiresIn authService) (clock w))
      as [access | e1] eqn:Ha; [| discriminate].
    destruct (jwt.sign payload (jwtRefreshSecret authService)
                       (jwtRefreshExpiresIn authService) (clock w))
      as [refresh | e2] eqn:Hr; [| discriminate].
    cbn [fst snd AuthTokens.accessToken AuthTokens.refreshToken clock
         sessions users auditLogs outbox smtpUp nextId].
    destruct (parseTimeToMs (jwtExpiresIn authService)) as [[ams |] | e3]
      eqn:Hpa;
      [ | destruct (parseTimeToMs (jwtRefreshExpiresIn authService))
            as [[rms |] | e4]; discriminate
        | discriminate ].
    destruct (parseTimeToMs (jwtRefreshExpiresIn authService))
      as [[rms |] | e4] eqn:Hpr; [| discriminate | discriminate].
    cbn [fst snd date_after option_map set_sessions clock sessions users
         auditLogs outbox smtpUp nextId].
    destruct (existsb (fun x => jwt.eqb (Session.refreshToken x) refresh)
                      (filter (fun x => negb (N.eqb (Session.id x)
                                                    (Session.id s)))
                              (sessions w))) eqn:Hdup; [discriminate |].
    cbn [fst snd].
    intros H. injection H as <- <-.
    exists payload, s, owner, ams, rms.
    cbn [AuthTokens.accessToken AuthTokens.refreshToken].
    repeat (split; [first [reflexivity | assumption] |]). reflexivity.
  - intros (payload & s & owner & ams & rms & Hv & Hs & Hle & Ho & Hst & Ha
            & Hr & Hpa & Hpr & Hdup & ->).
    rewrite Hv. cbn [fst snd]. rewrite Hs. cbn [fst snd]. rewrite Ho.
    destruct (Z.ltb_spec (Session.refreshExpiresAt s) (clock w)); [lia |].
    rewrite Hst. cbn [String.eqb Ascii.eqb Bool.eqb negb].
    assert (Hex : existsb (fun x => N.eqb (Session.id x) (Session.id s))
                          (sessions w) = true).
    { apply existsb_exists. exists s. apply find_some in Hs.
      split; [tauto | apply N.eqb_refl]. }
    rewrite Hex. destruct payload as [uid em ro].
    cbn [fst snd set_sessions clock sessions users auditLogs
         outbox smtpUp nextId JWTPayload.userId JWTPayload.email
         JWTPayload.role].
    rewrite Ha, Hr.
    cbn [fst snd AuthTokens.accessToken AuthTokens.refreshToken clock
         sessions users auditLogs outbox smtpUp nextId].
    rewrite Hpa, Hpr.
    cbn [fst snd date_after option_map set_sessions clock sessions users
         auditLogs outbox smtpUp nextId].
    rewrite Hdup. destruct tokens as [ta tr]. reflexivity.
Qed.

(** ** Tokens and the dates of their sessions *)

Lemma digit_of_10_char (c : ascii) (d : Z) :
  Js.digit_of 10 c = Some d ->
  In c ["0"; "1"; "2"; "3"; "4"; "5"; "6"; "7"; "8"; "9"]%char.
Proof.
  destruct c as [[] [] [] [] [] [] [] []]; intros H; vm_compute in H;
    try discriminate H; clear H;
    repeat first [left; reflexivity | right].
Qed.

Ltac each_digit_char H :=
  cbn [In] in H;
  repeat (destruct H as [H | H]; [subst |]); [.. | destruct H].

Lemma parseInt_all_digits (c : ascii) (rest : string) :
  jwt.all_digits (String c rest) = true ->
  Js.parseInt (String c rest) = Js.digits 10 None (String c rest).
Proof.
  cbn [jwt.all_digits]. destruct (Js.digit_of 10 c) as [d |] eqn:Hd;
    [| discriminate].
  intros Hrest. apply digit_of_10_char in Hd.
  each_digit_char Hd; try reflexivity.
  destruct rest as [| x r']; [reflexivity |].
  cbn [jwt.all_digits] in Hrest.
  destruct (Js.digit_of 10 x) as [d' |] eqn:Hx; [| discriminate Hrest].
  apply digit_of_10_char in Hx.
  each_digit_char Hx; reflexivity.
Qed.

(** On the spellings of a duration that the model of jsonwebtoken reads
    (digits and one of s, m, h, d), parseTimeToMs returns a number, and it
    is the same duration in milliseconds. *)
Lemma parseTimeToMs_timespan (timeString : string) (span : Z) :
  jwt.timespan timeString = Some span ->
  parseTimeToMs timeString = Ok (Some (span * 1000)).
Proof.
  unfold jwt.timespan, parseTimeToMs.
  destruct (Js.slice_init timeString) as [| c rest] eqn:Hi; [discriminate |].
  destruct (jwt.all_digits (String c rest)) eqn:Hd; [| discriminate].
  rewrite (parseInt_all_digits c rest Hd).
  destruct (Js.digits 10 None (String c rest)) as [n |]; [| discriminate].
  destruct (Js.slice_last timeString)
    as [| [[] [] [] [] [] [] [] []] [| ? ?]];
    try discriminate; intros H; injection H as <-; cbn [option_map];
    do 2 f_equal; lia.
Qed.

(** X11. parseTimeToMs throws exactly when the last character of its argument
    is none of s, m, h, d (so also on the empty string); otherwise it
    returns, NaN included. *)
Theorem parseTimeToMs_throws_iff (timeString : string) :
  (exists e, parseTimeToMs timeString = Throw e) <->
  ~ In (Js.slice_last timeString) ["s"; "m"; "h"; "d"]%string.
Proof.
  unfold parseTimeToMs.
  destruct (Js.slice_last timeString)
    as [| [[] [] [] [] [] [] [] []] [| ? ?]];
    cbn [In];
    (split;
     [ intros [e H]; try discriminate H;
       intros [K | [K | [K | [K | []]]]]; discriminate K
     | intros H; try (eexists; reflexivity); exfalso; apply H; tauto ]).
Qed.

Lemma generateTokens_inv (authService : AuthService.t) (payload : JWTPayload.t)
      (w w1 : World) (tokens : AuthTokens.t) :
  generateTokens authService payload w = (Ok tokens, w1) ->
  w1 = w /\
  exists a r,
    jwt.timespan (jwtExpiresIn authService) = Some a /\
    jwt.timespan (jwtRefreshExpiresIn authService) = Some r /\
    tokens =
      AuthTokens.mk
        (jwt.Signed payload (jwt.hmac_key (jwtSecret authService))
                    (clock w / 1000) (clock w / 1000 + a))
        (jwt.Signed payload (jwt.hmac_key (jwtRefreshSecret authService))
                    (clock w / 1000) (clock w / 1000 + r)).
Proof.
  unfold generateTokens, jwt.sign. run.
  destruct (jwt.timespan (jwtExpiresIn authService)) as [a |];
    [| discriminate].
  destruct (jwt.timespan (jwtRefreshExpiresIn authService)) as [r |];
    [| discriminate].
  intros H. injection H as <- <-. split; [reflexivity |].
  exists a, r. auto.
Qed.

(** X12. The pair of generateTokens, read back: at every later clock, each
    token gives back the payload it was signed for, up to the second in
    which its lifetime ends, and the 401 "expired" error of its kind from
    that second on.  Signing changes nothing in the world. *)
Theorem generateTokens_round_trip
        (authService : AuthService.t) (payload : JWTPayload.t)
        (w w1 : World) (tokens : AuthTokens.t) :
  generateTokens authService payload w = (Ok tokens, w1) ->
  w1 = w /\
  exists a r,
    jwt.timespan (jwtExpiresIn authService) = Some a /\
    jwt.timespan (jwtRefreshExpiresIn authService) = Some r /\
    forall w2 : World,
      verifyAccessToken authService (AuthTokens.accessToken tokens) w2 =
        (if clock w / 1000 + a <=? clock w2 / 1000
         then Throw (createError "Access token expired" 401)
         else Ok payload, w2) /\
      verifyRefreshToken authService (AuthTokens.refreshToken tokens) w2 =
        (if clock w / 1000 + r <=? clock w2 / 1000
         then Throw (createError "Refresh token expired" 401)
         else Ok payload, w2).
Proof.
  intros H. apply generateTokens_inv in H.
  destruct H as (-> & a & r & Ha & Hr & ->).
  split; [reflexivity |]. exists a, r. repeat split; auto.
  - unfold verifyAccessToken. run.
    cbn [AuthTokens.accessToken jwt.verify].
    rewrite String.eqb_refl. cbn [negb].
    destruct (clock w / 1000 + a <=? clock w2 / 1000); reflexivity.
  - unfold verifyRefreshToken. run.
    cbn [AuthTokens.refreshToken jwt.verify].
    rewrite String.eqb_refl. cbn [negb].
    destruct (clock w / 1000 + r <=? clock w2 / 1000); reflexivity.
Qed.

Lemma generateTokens_round_trip_witness :
  verifyAccessToken demoService (AuthTokens.accessToken aliceTokens)
                    (set_clock 1704068099999 (demoWorld []))
    = (Ok alicePayload, set_clock 1704068099999 (demoWorld [])) /\
  verifyAccessToken demoService (AuthTokens.accessToken aliceTokens)
                    (set_clock 1704068100000 (demoWorld []))
    = (Throw (createError "Access token expired" 401),
       set_clock 1704068100000 (demoWorld [])).
Proof.
  pose proof (generateTokens_round_trip demoService alicePayload
                (demoWorld []) (demoWorld []) aliceTokens eq_refl) as H.
  destruct H as (_ & a & r & Ha & Hr & H).
  injection Ha as <-.
  split.
  - exact (proj1 (H (set_clock 1704068099999 (demoWorld [])))).
  - exact (proj1 (H (set_clock 1704068100000 (demoWorld [])))).
Defined.

Lemma verifyRefreshToken_inv (authService : AuthService.t) (token : jwt.Token)
      (w w' : World) (payload : JWTPayload.t) :
  verifyRefreshToken authService token w = (Ok payload, w') ->
  jwt.verify token (jwtRefreshSecret authService) (clock w) = Ok payload /\
  w' = w.
Proof.
  unfold verifyRefreshToken. run.
  destruct (jwt.verify token (jwtRefreshSecret authService) (clock w))
    as [p | e].
  - intros H. inversion H. auto.
  - destruct e as [| [|] | | |]; discriminate.
Qed.

(** X13. The constructor accepts two equal secrets, and then the two kinds of
    token are interchangeable: whenever the refresh token of a pair is
    valid as a refresh token it is accepted as an access token, and the
    access token is accepted as a refresh token. *)
Theorem equal_secrets_confuse_tokens
        (secret : string) (expiresIn refreshExpiresIn : option string)
        (authService : AuthService.t) (payload : JWTPayload.t)
        (w w1 w2 : World) (tokens : AuthTokens.t) :
  AuthService.constructor (Some secret) (Some secret)
                          expiresIn refreshExpiresIn = Ok authService ->
  generateTokens authService payload w = (Ok tokens, w1) ->
  (verifyRefreshToken authService (AuthTokens.refreshToken tokens) w2
     = (Ok payload, w2) ->
   verifyAccessToken authService (AuthTokens.refreshToken tokens) w2
     = (Ok payload, w2)) /\
  (verifyAccessToken authService (AuthTokens.accessToken tokens) w2
     = (Ok payload, w2) ->
   verifyRefreshToken authService (AuthTokens.accessToken tokens) w2
     = (Ok payload, w2)).
Proof.
  intros Hc Hg.
  assert (Hs : jwtRefreshSecret authService = jwtSecret authService).
  { unfold AuthService.constructor in Hc.
    destruct secret as [| c s]; [discriminate Hc |].
    injection Hc as <-. reflexivity. }
  split; intros H.
  - apply verifyRefreshToken_inv in H. destruct H as [H _].
    rewrite Hs in H. now apply verifyAccessToken_ok.
  - apply verifyAccessToken_inv in H. destruct H as [H _].
    rewrite <- Hs in H. now apply verifyRefreshToken_ok.
Qed.

Lemma equal_secrets_confuse_tokens_witness :
  verifyAccessToken (AuthService.mk "one" "one" "15m" "7d")
    (jwt.Signed alicePayload "one" 1704067200 1704672000) (demoWorld [])
  = (Ok alicePayload, demoWorld []).
Proof.
  pose proof (equal_secrets_confuse_tokens "one" None None
                (AuthService.mk "one" "one" "15m" "7d") alicePayload
                (demoWorld []) (demoWorld []) (demoWorld [])
                (AuthTokens.mk
                   (jwt.Signed alicePayload "one" 1704067200 1704068100)
                   (jwt.Signed alicePayload "one" 1704067200 1704672000))
                eq_refl eq_refl) as H.
  destruct H as [H _]. apply H. reflexivity.
Defined.

(** X14. The dates that storeSession writes lie after every instant at which
    the tokens of generateTokens still verify: a session row never runs
    out before its tokens do, so the date check of refreshSession cannot be
    what refuses a refresh token that verifies and still has its row. *)
Theorem stored_session_outlives_its_tokens
        (authService : AuthService.t) (payload : JWTPayload.t)
        (userId : N) (ipAddress userAgent : option string)
        (w w0 w1 : World) (tokens : AuthTokens.t) :
  generateTokens authService payload w = (Ok tokens, w0) ->
  storeSession authService userId tokens ipAddress userAgent w
    = (Ok tt, w1) ->
  exists s,
    sessions w1 = sessions w ++ [s] /\
    Session.userId s = userId /\
    Session.token s = AuthTokens.accessToken tokens /\
    Session.refreshToken s = AuthTokens.refreshToken tokens /\
    Session.ipAddress s = ipAddress /\ Session.userAgent s = userAgent /\
    (forall t p,
        jwt.verify (AuthTokens.accessToken tokens) (jwtSecret authService) t
          = Ok p -> t < Session.expiresAt s) /\
    (forall t p,
        jwt.verify (AuthTokens.refreshToken tokens)
                   (jwtRefreshSecret authService) t = Ok p ->
        t < Session.refreshExpiresAt s).
Proof.
  intros Hg. apply generateTokens_inv in Hg.
  destruct Hg as (-> & a & r & Ha & Hr & ->).
  unfold storeSession, prisma.session.create. run.
  rewrite (parseTimeToMs_timespan _ _ Ha), (parseTimeToMs_timespan _ _ Hr).
  cbn [fst snd date_after option_map AuthTokens.accessToken
       AuthTokens.refreshToken].
  destruct (existsb _ (sessions w)); [discriminate |].
  intros H. injection H as <-.
  eexists. cbn [sessions]. split; [reflexivity |].
  cbn [Session.userId Session.token Session.refreshToken Session.ipAddress
       Session.userAgent Session.expiresAt Session.refreshExpiresAt].
  repeat (split; [reflexivity |]).
  assert (Hlt : forall c t n, t / 1000 < c / 1000 + n -> t < c + n * 1000).
  { intros c t n H.
    pose proof (Z.div_mod t 1000 ltac:(lia)) as Ht.
    pose proof (Z.mod_pos_bound t 1000 ltac:(lia)) as Ht'.
    pose proof (Z.div_mod c 1000 ltac:(lia)) as Hc.
    pose proof (Z.mod_pos_bound c 1000 ltac:(lia)) as Hc'.
    lia. }
  split; intros t p; cbn [jwt.verify]; rewrite String.eqb_refl; cbn [negb];
    match goal with
    | |- context [?x <=? ?y] =>
        destruct (Z.leb_spec x y) as [Hle | Hgt]; [discriminate |]
    end; intros _; apply Hlt; exact Hgt.
Qed.

Lemma stored_session_outlives_its_tokens_witness :
  exists s,
    sessions (snd (storeSession demoService 1 aliceTokens None None
                                (demoWorld []))) = [] ++ [s] /\
    (forall t p,
        jwt.verify (AuthTokens.refreshToken aliceTokens) "refresh-secret" t
          = Ok p -> t < Session.refreshExpiresAt s).
Proof.
  pose proof (stored_session_outlives_its_tokens demoService alicePayload 1
                None None (demoWorld []) (demoWorld [])
                (snd (storeSession demoService 1 aliceTokens None None
                                   (demoWorld [])))
                aliceTokens eq_refl eq_refl) as H.
  destruct H as (s & H1 & _ & _ & _ & _ & _ & _ & H2).
  exists s. split; [exact H1 | exact H2].
Defined.

(** ** Registration and the verification link *)

Lemma find_app_fresh {A} (p : A -> bool) (l : list A) (x : A) :
  find p l = None -> find p (l ++ [x]) = if p x then Some x else None.
Proof.
  induction l as [| a l IH]; simpl; [reflexivity |].
  destruct (p a); [discriminate | exact IH].
Qed.

(** register for an email that no row carries, step by step. *)
Lemma register_new_email (authService : AuthService.t)
      (req : Request RegisterBody) (w : World) :
  find (fun u => String.eqb (User.email u) (reg_email (body req))) (users w)
    = None ->
  let user :=
    User.mk (nextId w) (reg_email (body req))
            (bcrypt.hash (reg_password (body req)))
            (reg_firstName (body req)) (reg_lastName (body req))
            (reg_phoneNumber (body req)) "CUSTOMER" "PENDING"
            false false None None in
  let payload := JWTPayload.mk (nextId w) (reg_email (body req)) "CUSTOMER" in
  let created :=
    mkWorld (users w ++ [user]) (sessions w) (auditLogs w) (outbox w)
            (smtpUp w) (N.succ (nextId w)) (clock w) in
  register authService req w =
    match jwt.sign payload (jwtSecret authService) (jwtExpiresIn authService)
                   (clock w),
          jwt.sign payload (jwtRefreshSecret authService)
                   (jwtRefreshExpiresIn authService) (clock w) with
    | Ok link, Ok _ =>
        if smtpUp w then
          (Sent (mkResponse 201 true (Some registered) (RegisterData user)),
           mkWorld (users w ++ [user]) (sessions w)
             (auditLogs w ++
              [AuditLog.mk (nextId w) "USER_REGISTERED" "USER" (nextId w)
                 (Some (JsObject
                          [("email", JsString (reg_email (body req)));
                           ("firstName", JsString (reg_firstName (body req)));
                           ("lastName", JsString (reg_lastName (body req)))]))
                 (ip req) (userAgent req)])
             (outbox w ++
              [Mail.mk (reg_email (body req))
                 "Verify Your Email Address - VPS Seller Portal" link])
             true (N.succ (nextId w)) (clock w))
        else (NextError (createError "Failed to send email" 500), created)
    | Throw e, _ => (NextError e, created)
    | Ok _, Throw e => (NextError e, created)
    end.
Proof.
  intros Hfind user payload created.
  unfold register, generateTokens, emailService.sendVerificationEmail,
    emailService.sendEmail, prisma.user.create, prisma.auditLog.create.
  run. cbv zeta. rewrite Hfind.
  cbn [fst snd User.id User.email User.role clock smtpUp users sessions
       auditLogs outbox nextId].
  fold payload.
  destruct (jwt.sign payload (jwtSecret authService)
                     (jwtExpiresIn authService) (clock w)) as [link | e];
    [| reflexivity].
  destruct (jwt.sign payload (jwtRefreshSecret authService)
                     (jwtRefreshExpiresIn authService) (clock w))
    as [refresh | e]; [| reflexivity].
  cbn [fst snd AuthTokens.accessToken smtpUp].
  destruct (smtpUp w); reflexivity.
Qed.

(** X15. When the mail transport fails, register ends in the 500 error "Failed
    to send email", but the user row it created stays (PENDING, not
    verified), with no verification mail and no audit entry; every later
    attempt to register the same email is then refused with the 409
    conflict, whether the transport works again or not. *)
Theorem register_mail_failure_keeps_the_account
        (authService : AuthService.t) (req : Request RegisterBody)
        (w : World) (a r : Z) :
  find (fun u => String.eqb (User.email u) (reg_email (body req))) (users w)
    = None ->
  jwt.timespan (jwtExpiresIn authService) = Some a ->
  jwt.timespan (jwtRefreshExpiresIn authService) = Some r ->
  smtpUp w = false ->
  exists w1 user,
    register authService req w =
      (NextError (createError "Failed to send email" 500), w1) /\
    users w1 = users w ++ [user] /\
    User.email user = reg_email (body req) /\
    User.status user = "PENDING" /\ User.emailVerified user = false /\
    outbox w1 = outbox w /\ auditLogs w1 = auditLogs w /\
    forall w2 : World,
      users w2 = users w1 ->
      register authService req w2 =
        (NextError (createError "A user with this email already exists" 409),
         w2).
Proof.
  intros Hfind Ha Hr Hsmtp.
  pose proof (register_new_email authService req w Hfind) as E.
  cbv zeta in E. unfold jwt.sign in E. rewrite Ha, Hr, Hsmtp in E.
  eexists. eexists. split; [exact E |].
  cbn [users outbox auditLogs User.email User.status User.emailVerified].
  repeat (split; [reflexivity |]).
  intros w2 Hu. unfold register. run. cbv zeta. rewrite Hu.
  rewrite (find_app_fresh _ _ _ Hfind).
  cbn [User.email]. rewrite String.eqb_refl. reflexivity.
Qed.

Lemma register_mail_failure_keeps_the_account_witness :
  exists w1 user,
    register demoService registerAlice
             (mkWorld [] [] [] [] false 2 1704067200000) =
      (NextError (createError "Failed to send email" 500), w1) /\
    users w1 = [] ++ [user] /\
    User.email user = "a@x.com" /\
    User.status user = "PENDING" /\ User.emailVerified user = false /\
    outbox w1 = [] /\ auditLogs w1 = [] /\
    forall w2 : World,
      users w2 = users w1 ->
      register demoService registerAlice w2 =
        (NextError (createError "A user with this email already exists" 409),
         w2).
Proof.
  apply (register_mail_failure_keeps_the_account demoService registerAlice
           (mkWorld [] [] [] [] false 2 1704067200000) 900 604800);
    reflexivity.
Defined.

Lemma verifyEmail_activation_steps
      (authService : AuthService.t) (req : Request jwt.Token)
      (w : World) (payload : JWTPayload.t) (u : User.t) :
  jwt.verify (body req) (jwtSecret authService) (clock w) = Ok payload ->
  find (fun x => N.eqb (User.id x) (JWTPayload.userId payload)) (users w)
    = Some u ->
  User.emailVerified u = false ->
  exists w1,
    verifyEmail authService req w =
      (Sent (mkResponse 200 true (Some "Email verified successfully") NoData),
       w1) /\
    users w1 = map (fun x => if N.eqb (User.id x) (User.id u)
                             then User.with_verified x else x) (users w).
Proof.
  intros Hv Hu He.
  assert (Hex : existsb (fun x => N.eqb (User.id x) (User.id u)) (users w)
                = true).
  { apply existsb_exists. exists u. apply find_some in Hu.
    split; [tauto | apply N.eqb_refl]. }
  unfold verifyEmail, prisma.user.update, prisma.auditLog.create. run.
  cbv zeta. rewrite (verifyAccessToken_ok _ _ _ _ Hv). cbn [fst snd].
  rewrite Hu, He, Hex.
  eexists. split; reflexivity.
Qed.

(** X16. verifyEmail on an account whose email is not verified yet: the status
    becomes ACTIVE whatever it was before (SUSPENDED and TERMINATED
    included) and the email counts as verified; the other columns of the
    row, the other rows and the sessions stay, and one audit entry is
    added. *)
Theorem verifyEmail_activates_whatever_the_status
        (authService : AuthService.t) (req : Request jwt.Token)
        (w : World) (payload : JWTPayload.t) (u : User.t) :
  jwt.verify (body req) (jwtSecret authService) (clock w) = Ok payload ->
  find (fun x => N.eqb (User.id x) (JWTPayload.userId payload)) (users w)
    = Some u ->
  User.emailVerified u = false ->
  exists w1,
    verifyEmail authService req w =
      (Sent (mkResponse 200 true (Some "Email verified successfully") NoData),
       w1) /\
    find (fun x => N.eqb (User.id x) (JWTPayload.userId payload)) (users w1)
      = Some (User.with_verified u) /\
    User.status (User.with_verified u) = "ACTIVE" /\
    User.emailVerified (User.with_verified u) = true /\
    identity (User.with_verified u) = identity u /\
    users w1 = map (fun x => if N.eqb (User.id x) (User.id u)
                             then User.with_verified x else x) (users w) /\
    sessions w1 = sessions w /\
    auditLogs w1 =
      auditLogs w ++ [AuditLog.mk (User.id u) "EMAIL_VERIFIED" "USER"
                        (User.id u) None (ip req) (userAgent req)].
Proof.
  intros Hv Hu He.
  assert (Hid : User.id u = JWTPayload.userId payload).
  { apply find_some in Hu. apply N.eqb_eq. tauto. }
  assert (Hex : existsb (fun x => N.eqb (User.id x) (User.id u)) (users w)
                = true).
  { apply existsb_exists. exists u. apply find_some in Hu.
    split; [tauto | apply N.eqb_refl]. }
  unfold verifyEmail, prisma.user.update, prisma.auditLog.create. run.
  cbv zeta. rewrite (verifyAccessToken_ok _ _ _ _ Hv). cbn [fst snd].
  rewrite Hu, He, Hex.
  cbn [fst snd set_users users sessions auditLogs outbox smtpUp nextId clock].
  eexists. split; [reflexivity |].
  cbn [users sessions auditLogs].
  split.
  { rewrite Hid, find_after_update by reflexivity. rewrite Hu. reflexivity. }
  repeat (split; [reflexivity |]). reflexivity.
Qed.

Lemma verifyEmail_activates_whatever_the_status_witness :
  exists w1,
    verifyEmail demoService
      (mkRequest (AuthTokens.accessToken aliceTokens) None None None)
      (demoWorld [alice "SUSPENDED" false false]) =
      (Sent (mkResponse 200 true (Some "Email verified successfully") NoData),
       w1) /\
    users w1 = [alice "ACTIVE" true false].
Proof.
  pose proof (verifyEmail_activates_whatever_the_status demoService
                (mkRequest (AuthTokens.accessToken aliceTokens) None None None)
                (demoWorld [alice "SUSPENDED" false false])
                alicePayload (alice "SUSPENDED" false false)
                eq_refl eq_refl eq_refl) as H.
  destruct H as (w1 & H1 & _ & _ & _ & _ & H2 & _).
  exists w1. split; [exact H1 | exact H2].
Defined.

(** X17. From registration to an active account: when register answers 201,
    the mail it handed to the transport carries a link token for the new
    PENDING row, and verifyEmail with that token, at any time at which the
    token still verifies, answers "Email verified successfully" and leaves
    the row ACTIVE and verified.  (Identifiers in use lie below the
    counter of the database.) *)
Theorem registration_link_activates
        (authService : AuthService.t) (req : Request RegisterBody)
        (w w1 : World) (res : Response) :
  (forall u, In u (users w) -> (User.id u < nextId w)%N) ->
  register authService req w = (Sent res, w1) ->
  exists user mail,
    res = mkResponse 201 true (Some registered) (RegisterData user) /\
    users w1 = users w ++ [user] /\
    User.email user = reg_email (body req) /\
    User.role user = "CUSTOMER" /\ User.status user = "PENDING" /\
    User.emailVerified user = false /\
    User.passwordHash user = bcrypt.hash (reg_password (body req)) /\
    outbox w1 = outbox w ++ [mail] /\
    Mail.to mail = reg_email (body req) /\
    forall (t : Z) (p : JWTPayload.t) (verifyReq : Request jwt.Token),
      body verifyReq = Mail.linkToken mail ->
      jwt.verify (Mail.linkToken mail) (jwtSecret authService) t = Ok p ->
      exists w2,
        verifyEmail authService verifyReq (set_clock t w1) =
          (Sent (mkResponse 200 true (Some "Email verified successfully")
                            NoData), w2) /\
        find (fun x => String.eqb (User.email x) (reg_email (body req)))
             (users w2) = Some (User.with_verified user).
Proof.
  intros Hfresh.
  destruct (find (fun u => String.eqb (User.email u) (reg_email (body req)))
                 (users w)) as [existing |] eqn:Hfind.
  { unfold register. run. cbv zeta. rewrite Hfind. discriminate. }
  rewrite (register_new_email authService req w Hfind). cbv zeta.
  destruct (jwt.sign _ (jwtSecret authService) _ _) as [link | e] eqn:Hl;
    [| discriminate].
  destruct (jwt.sign _ (jwtRefreshSecret authService) _ _) as [rt | e];
    [| discriminate].
  destruct (smtpUp w); [| discriminate].
  intros H. injection H as <- <-.
  eexists. eexists. cbn [users outbox].
  repeat (split; [reflexivity |]).
  cbn [Mail.linkToken]. intros t p verifyReq Hb Hv.
  assert (Hp : p = JWTPayload.mk (nextId w) (reg_email (body req)) "CUSTOMER").
  { unfold jwt.sign in Hl. destruct (jwt.timespan _); [| discriminate Hl].
    injection Hl as <-. cbn [jwt.verify] in Hv.
    destruct (negb _); [discriminate Hv |].
    destruct (_ <=? _); [discriminate Hv |]. injection Hv as <-.
    reflexivity. }
  assert (Hnone : find (fun x => N.eqb (User.id x) (nextId w)) (users w)
                  = None).
  { apply find_none_iff. intros x Hx. apply N.eqb_neq.
    specialize (Hfresh x Hx). lia. }
  match goal with
  | |- exists w2, verifyEmail _ _ ?w1 = _ /\
                  find _ _ = Some (User.with_verified ?u) =>
      pose proof (verifyEmail_activation_steps authService verifyReq w1 p u)
        as K
  end.
  rewrite Hb in K. cbn [set_clock clock users] in K.
  specialize (K Hv).
  rewrite Hp in K. cbn [JWTPayload.userId] in K.
  rewrite (find_app_fresh _ _ _ Hnone) in K.
  cbn [User.id] in K. rewrite N.eqb_refl in K.
  destruct (K eq_refl eq_refl) as (w2 & K1 & K2).
  exists w2. split; [exact K1 |].
  rewrite K2. rewrite map_app. cbn [map User.id]. rewrite N.eqb_refl.
  assert (Hmap : map (fun x => if N.eqb (User.id x) (nextId w)
                               then User.with_verified x else x) (users w)
                 = users w).
  { rewrite <- (map_id (users w)) at 2. apply map_ext_in. intros x Hx.
    specialize (Hfresh x Hx).
    destruct (N.eqb_spec (User.id x) (nextId w)); [lia | reflexivity]. }
  rewrite Hmap, (find_app_fresh _ _ _ Hfind).
  cbn [User.email User.with_verified]. rewrite String.eqb_refl. reflexivity.
Qed.

Lemma registration_link_activates_witness :
  exists user mail w2,
    users (snd (register demoService registerAlice (demoWorld [])))
      = [] ++ [user] /\
    outbox (snd (register demoService registerAlice (demoWorld [])))
      = [] ++ [mail] /\
    verifyEmail demoService (mkRequest (Mail.linkToken mail) None None None)
      (set_clock 1704067260000
         (snd (register demoService registerAlice (demoWorld [])))) =
      (Sent (mkResponse 200 true (Some "Email verified successfully") NoData),
       w2) /\
    find (fun x => String.eqb (User.email x) "a@x.com") (users w2)
      = Some (User.with_verified user).
Proof.
  assert (Hfresh : forall u, In u (users (demoWorld [])) ->
                             (User.id u < nextId (demoWorld []))%N).
  { intros u []. }
  pose proof (registration_link_activates demoService registerAlice
                (demoWorld [])
                (snd (register demoService registerAlice (demoWorld [])))
                (mkResponse 201 true (Some registered)
                   (RegisterData
                      (User.mk 2 "a@x.com" (bcrypt.hash "Passw0rd!")
                               "Alice" "Doe" None "CUSTOMER" "PENDING"
                               false false None None)))
                Hfresh eq_refl) as H.
  destruct H as (user & mail & _ & Hu & _ & _ & _ & _ & _ & Hout & _ & H).
  assert (Hm : mail = Mail.mk "a@x.com"
                        "Verify Your Email Address - VPS Seller Portal"
                        (jwt.Signed (JWTPayload.mk 2 "a@x.com" "CUSTOMER")
                                    "access-secret" 1704067200 1704068100)).
  { vm_compute in Hout. injection Hout as <-. reflexivity. }
  destruct (H 1704067260000 (JWTPayload.mk 2 "a@x.com" "CUSTOMER")
              (mkRequest (Mail.linkToken mail) None None None) eq_refl)
    as (w2 & H1 & H2).
  { rewrite Hm. reflexivity. }
  exists user, mail, w2. auto.
Defined.

(** ** Logging in *)

(** X18. An unknown email and a wrong password are answered alike, with the
    401 error "Invalid email or password", and nothing is written.  The
    password is checked before the status: who does not know the password
    of a suspended or terminated account learns nothing about its status. *)
Theorem login_failures_look_alike
        (authService : AuthService.t) (req : Request LoginBody) (w : World) :
  (forall u,
      find (fun x => String.eqb (User.email x) (login_email (body req)))
           (users w) = Some u ->
      bcrypt.compare (login_password (body req)) (User.passwordHash u)
        = false) ->
  login authService req w =
    (NextError (createError "Invalid email or password" 401), w).
Proof.
  intros H. unfold login. run. cbv zeta.
  destruct (find _ (users w)) as [u |]; [| reflexivity].
  cbn [fst snd]. rewrite (H u eq_refl). reflexivity.
Qed.

Lemma login_failures_look_alike_witness :
  login demoService
        (mkRequest (mkLoginBody "a@x.com" "guess" None) None None None)
        (demoWorld [alice "SUSPENDED" true false]) =
    (NextError (createError "Invalid email or password" 401),
     demoWorld [alice "SUSPENDED" true false]) /\
  login demoService
        (mkRequest (mkLoginBody "nobody@x.com" "guess" None) None None None)
        (demoWorld [alice "SUSPENDED" true false]) =
    (NextError (createError "Invalid email or password" 401),
     demoWorld [alice "SUSPENDED" true false]).
Proof.
  split; apply login_failures_look_alike.
  - intros u H. injection H as <-. reflexivity.
  - intros u H. discriminate H.
Defined.

Lemma existsb_id_of_find {p : User.t -> bool} (l : list User.t) (u : User.t) :
  find p l = Some u ->
  existsb (fun x => N.eqb (User.id x) (User.id u)) l = true.
Proof.
  intros H. apply find_some in H. apply existsb_exists.
  exists u. split; [tauto | apply N.eqb_refl].
Qed.

(** X19. A login that ends in one of the errors raised up to the insert of
    the session (a refusal of login itself, an error of signing or of a
    lifetime, an invalid date, the unique constraint on the refresh token)
    leaves no trace: no session, no audit entry, no change of the user
    row.  login runs in no transaction: what a rejection of one of the two
    later writes would leave behind is not covered. *)
Theorem login_fails_without_a_trace
        (authService : AuthService.t) (req : Request LoginBody)
        (w w1 : World) (e : Error) :
  login authService req w = (NextError e, w1) ->
  In e (login_errors authService) ->
  w1 = w.
Proof.
  intros Hlogin _. revert Hlogin.
  unfold login, generateTokens, storeSession, prisma.session.create,
    prisma.user.update, prisma.auditLog.create.
  run. cbv zeta.
  destruct (find _ (users w)) as [u |] eqn:Hu;
    [| intros H; injection H as _ <-; reflexivity].
  cbn [fst snd].
  destruct (negb (bcrypt.compare _ _));
    [intros H; injection H as _ <-; reflexivity |].
  destruct (String.eqb (User.status u) "SUSPENDED");
    [intros H; injection H as _ <-; reflexivity |].
  destruct (String.eqb (User.status u) "TERMINATED");
    [intros H; injection H as _ <-; reflexivity |].
  destruct (jwt.sign _ (jwtSecret authService) _ _) as [a |];
    [| intros H; injection H as _ <-; reflexivity].
  destruct (jwt.sign _ (jwtRefreshSecret authService) _ _) as [r |];
    [| intros H; injection H as _ <-; reflexivity].
  cbn [fst snd].
  destruct (parseTimeToMs (jwtExpiresIn authService)) as [[ea |] |];
    destruct (parseTimeToMs (jwtRefreshExpiresIn authService)) as [[er |] |];
    cbn [fst snd date_after option_map];
    try (intros H; injection H as _ <-; reflexivity).
  destruct (existsb _ (sessions w));
    [intros H; injection H as _ <-; reflexivity |].
  cbn [fst snd users sessions].
  rewrite (existsb_id_of_find _ _ Hu).
  cbn [fst snd].
  destruct (User.twoFactorEnabled u); discriminate.
Qed.

(** A second login within the second of the first signs the same pair. *)
Lemma login_fails_without_a_trace_witness :
  fst (login demoService loginAlice (set_clock 1704067200500 loggedIn))
    = NextError (PrismaError "P2002") /\
  snd (login demoService loginAlice (set_clock 1704067200500 loggedIn))
    = set_clock 1704067200500 loggedIn.
Proof.
  split; [reflexivity |].
  apply (login_fails_without_a_trace demoService loginAlice
           (set_clock 1704067200500 loggedIn) _ (PrismaError "P2002")).
  - reflexivity.
  - unfold login_errors, storeSession_errors. cbn [app In]. auto 10.
Defined.

(** X20. The same for the second step of a login: a verify2FA that ends in
    one of the errors raised up to the insert of the session (a refusal of
    its own, an error of signing or of a lifetime, an invalid date, the
    unique constraint on the refresh token) has written nothing.  What a
    rejection of the audit entry, which follows the insert outside any
    transaction, would leave behind is not covered. *)
Theorem verify2FA_fails_without_a_trace
        (authService : AuthService.t) (req : Request Verify2FABody)
        (w w1 : World) (e : Error) :
  verify2FA authService req w = (NextError e, w1) ->
  In e (verify2FA_errors authService) ->
  w1 = w.
Proof.
  intros Hverify _. revert Hverify.
  unfold verify2FA, verifyAccessToken, verify2FAToken, generateTokens,
    storeSession, prisma.session.create, prisma.auditLog.create.
  run. cbv zeta.
  destruct (jwt.verify _ (jwtSecret authService) (clock w)) as [p | err];
    [| destruct err as [| [|] | | |]; intros H; injection H as _ <-;
       reflexivity].
  cbn [fst snd].
  destruct (find _ (users w)) as [u |];
    [| intros H; injection H as _ <-; reflexivity].
  destruct (usable_secret u) as [secret |];
    [| intros H; injection H as _ <-; reflexivity].
  cbn [fst snd].
  destruct (negb (speakeasy.totp_verify _ _ _ _));
    [intros H; injection H as _ <-; reflexivity |].
  destruct (jwt.sign _ (jwtSecret authService) _ _) as [a |];
    [| intros H; injection H as _ <-; reflexivity].
  destruct (jwt.sign _ (jwtRefreshSecret authService) _ _) as [r |];
    [| intros H; injection H as _ <-; reflexivity].
  cbn [fst snd].
  destruct (parseTimeToMs (jwtExpiresIn authService)) as [[ea |] |];
    destruct (parseTimeToMs (jwtRefreshExpiresIn authService)) as [[er |] |];
    cbn [fst snd date_after option_map];
    try (intros H; injection H as _ <-; reflexivity).
  destruct (existsb _ (sessions w));
    [intros H; injection H as _ <-; reflexivity |].
  discriminate.
Qed.

Lemma verify2FA_fails_without_a_trace_witness :
  snd (verify2FA demoService
         (mkRequest (mkVerify2FABody "000000" (jwt.Malformed "x"))
                    None None None)
         (demoWorld [alice "ACTIVE" true true]))
    = demoWorld [alice "ACTIVE" true true].
Proof.
  apply (verify2FA_fails_without_a_trace demoService
           (mkRequest (mkVerify2FABody "000000" (jwt.Malformed "x"))
                      None None None)
           (demoWorld [alice "ACTIVE" true true]) _
           (createError "Invalid or expired temporary token" 401)).
  - reflexivity.
  - left. reflexivity.
Defined.

(** ** Refreshing for an account that is not ACTIVE *)

(** X21. A refresh token that verifies and has its row, not past its date, is
    refused with the 401 error "Account is not active" when the status of
    the session's owner is anything but ACTIVE, and the row stays: an
    account that login lets in while PENDING can never refresh. *)
Theorem refreshSession_refuses_inactive_owner
        (authService : AuthService.t) (token : jwt.Token) (w : World)
        (payload : JWTPayload.t) (s : Session.t) (owner : User.t) :
  jwt.verify token (jwtRefreshSecret authService) (clock w) = Ok payload ->
  find (fun x => jwt.eqb (Session.refreshToken x) token) (sessions w)
    = Some s ->
  clock w <= Session.refreshExpiresAt s ->
  find (fun u => N.eqb (User.id u) (Session.userId s)) (users w)
    = Some owner ->
  User.status owner <> "ACTIVE" ->
  refreshSession authService token w =
    (Throw (createError "Account is not active" 401), w).
Proof.
  intros Hv Hs Hle Ho Hst. unfold refreshSession. run.
  rewrite (verifyRefreshToken_ok _ _ _ _ Hv). cbn [fst snd].
  rewrite Hs. cbn [fst snd]. rewrite Ho.
  destruct (Z.ltb_spec (Session.refreshExpiresAt s) (clock w)); [lia |].
  destruct (String.eqb_spec (User.status owner) "ACTIVE"); [contradiction |].
  reflexivity.
Qed.

Lemma refreshSession_refuses_inactive_owner_witness :
  refreshSession demoService (AuthTokens.refreshToken aliceTokens)
    (mkWorld [alice "PENDING" false false] [aliceSession] [] [] true 3
             1704067260000) =
    (Throw (createError "Account is not active" 401),
     mkWorld [alice "PENDING" false false] [aliceSession] [] [] true 3
             1704067260000).
Proof.
  apply (refreshSession_refuses_inactive_owner demoService
           (AuthTokens.refreshToken aliceTokens)
           (mkWorld [alice "PENDING" false false] [aliceSession] [] [] true 3
                    1704067260000)
           alicePayload aliceSession (alice "PENDING" false false)).
  - reflexivity.
  - reflexivity.
  - cbn. lia.
  - reflexivity.
  - discriminate.
Defined.

(** ** The client: the reducer of the authentication context *)

Lemma authReducer_keeps_invariant
      (state : AuthContext.AuthState) (action : AuthContext.AuthAction) :
  let ok s :=
    (AuthContext.isAuthenticated s = true ->
     AuthContext.user s <> None /\ AuthContext.tokens s <> None) /\
    (AuthContext.tempToken s <> None -> AuthContext.requires2FA s = true) in
  ok state -> ok (AuthContext.authReducer state action).
Proof.
  cbv zeta. intros [H1 H2].
  destruct action as [| u t | temp | | payload | b | [u |] t | type];
    cbn [AuthContext.authReducer AuthContext.isAuthenticated AuthContext.user
         AuthContext.tokens AuthContext.tempToken AuthContext.requires2FA];
    split; try tauto; try discriminate; try congruence.
  - intros _. split; discriminate.
  - intros H. split; [discriminate | tauto].
  - intros _. split; discriminate.
Qed.

(** X22. Whatever actions are dispatched, starting from the initial state: when
    the state says isAuthenticated, it holds a user and a token pair; and
    when it holds a temporary token, it says requires2FA.  The converse of
    the first fails: UPDATE_USER after LOGOUT leaves a user object in a
    state that is not authenticated. *)
Theorem authReducer_invariant
        (actions : list AuthContext.AuthAction) (payload : AuthContext.Obj) :
  let state :=
    fold_left AuthContext.authReducer actions AuthContext.initialState in
  let updated :=
    AuthContext.authReducer
      (AuthContext.authReducer state AuthContext.LOGOUT)
      (AuthContext.UPDATE_USER payload) in
  (AuthContext.isAuthenticated state = true ->
   AuthContext.user state <> None /\ AuthContext.tokens state <> None) /\
  (AuthContext.tempToken state <> None ->
   AuthContext.requires2FA state = true) /\
  AuthContext.isAuthenticated updated = false /\
  AuthContext.user updated <> None.
Proof.
  cbv zeta.
  assert (H0 : (AuthContext.isAuthenticated AuthContext.initialState = true ->
                AuthContext.user AuthContext.initialState <> None /\
                AuthContext.tokens AuthContext.initialState <> None) /\
               (AuthContext.tempToken AuthContext.initialState <> None ->
                AuthContext.requires2FA AuthContext.initialState = true)).
  { split; [discriminate | intros H; exfalso; apply H; reflexivity]. }
  revert H0. generalize AuthContext.initialState.
  induction actions as [| a rest IH]; intros s Hs; cbn [fold_left].
  - destruct Hs as [H1 H2].
    repeat split; try tauto; try reflexivity.
    discriminate.
  - apply IH. exact (authReducer_keeps_invariant s a Hs).
Qed.

(** ** The price on the configuration page and the price of the server *)

Lemma client_osPrice (os : string) :
  configurePage.or_zero
    (option_map snd
       (find (fun entry => String.eqb (fst entry) os)
             configurePage.operatingSystems)) =
  if String.eqb "Windows Server 2022" os then 15%float else 0%float.
Proof.
  unfold configurePage.operatingSystems. cbn [find fst].
  destruct (String.eqb_spec "Ubuntu 22.04 LTS" os) as [<- | _];
    [reflexivity |].
  destruct (String.eqb_spec "Debian 11" os) as [<- | _]; [reflexivity |].
  destruct (String.eqb_spec "CentOS Stream 9" os) as [<- | _];
    [reflexivity |].
  destruct (String.eqb_spec "Windows Server 2022" os) as [<- | _];
    reflexivity.
Qed.

(** X23. The configuration page computes the price on its own.  For every
    system that GET /plans lists, and for every name without "Windows", it
    shows the total and the lines that POST /calculate-price answers, but
    for the storage line, which only the page rounds to cents; and the
    price that the catalogue lists for the system is the surcharge that
    both add.  For a name with "Windows" that the catalogue does not list
    the page adds nothing and the server adds 15. *)
Theorem client_price_and_server_price
        (cpuCores ramGb storageGb : float) (os datacenter : string)
        (w : World) :
  let client :=
    configurePage.calculatePrice
      (configurePage.mkConfiguration cpuCores ramGb storageGb os datacenter) in
  let server :=
    priced (vps.calculate_price
              (priceRequest cpuCores ramGb storageGb (JsString os)) w) in
  storage (snd client) = vps.toFixed2 (storageGb * 0.1) /\
  (In os (map fst plans.operatingSystems) \/ Js.includes os "Windows" = false
   -> server =
        Some (fst client,
              mkBreakdown (cpu (snd client)) (ram (snd client))
                          (storageGb * 0.1)
                          (operatingSystem (snd client))) /\
      forall price, In (os, price) plans.operatingSystems ->
                    operatingSystem (snd client) = price) /\
  (~ In os (map fst plans.operatingSystems) ->
   Js.includes os "Windows" = true ->
   operatingSystem (snd client) = 0%float /\
   option_map (fun answer => operatingSystem (snd answer)) server
     = Some 15%float).
Proof.
  cbv zeta.
  unfold configurePage.calculatePrice, vps.calculate_price, priced,
    priceRequest, vps.includes.
  cbn [body vps.cpuCores vps.ramGb vps.storageGb vps.operatingSystem
       configurePage.cpuCores configurePage.ramGb configurePage.storageGb
       configurePage.operatingSystem fst snd data storage cpu ram
       operatingSystem option_map].
  rewrite client_osPrice.
  split; [reflexivity |]. split.
  - intros H.
    assert (E : String.eqb "Windows Server 2022" os
                = Js.includes os "Windows").
    { destruct H as [H | H].
      - cbn [map fst plans.operatingSystems In] in H.
        destruct H as [<- | [<- | [<- | [<- | []]]]]; reflexivity.
      - rewrite H. destruct (String.eqb_spec "Windows Server 2022" os)
          as [<- | _]; [discriminate H | reflexivity]. }
    rewrite E. split; [reflexivity |].
    intros price Hin. cbn [plans.operatingSystems In] in Hin.
    destruct Hin as [Hin | [Hin | [Hin | [Hin | []]]]];
      injection Hin as <- <-; reflexivity.
  - intros Hnot Hw. rewrite Hw.
    destruct (String.eqb_spec "Windows Server 2022" os) as [<- | _].
    + exfalso. apply Hnot. cbn. tauto.
    + split; reflexivity.
Qed.

(** ** Two sessions of one user, refreshed within the same second *)

(** X24. Tokens are a function of payload, secret and second.  When the table
    already holds a row with the refresh token that a rotation is about to
    sign (another session of the same user was logged in or refreshed in
    this very second), refreshSession has deleted the presented session
    before the insertion fails on the unique column: the caller gets the
    error of the database and the session is gone. *)
Theorem refresh_collision_loses_the_session
        (authService : AuthService.t) (token : jwt.Token) (w : World)
        (payload : JWTPayload.t) (s other : Session.t) (owner : User.t)
        (a r : Z) :
  jwt.timespan (jwtExpiresIn authService) = Some a ->
  jwt.timespan (jwtRefreshExpiresIn authService) = Some r ->
  jwt.verify token (jwtRefreshSecret authService) (clock w) = Ok payload ->
  find (fun x => jwt.eqb (Session.refreshToken x) token) (sessions w)
    = Some s ->
  clock w <= Session.refreshExpiresAt s ->
  find (fun u => N.eqb (User.id u) (Session.userId s)) (users w)
    = Some owner ->
  User.status owner = "ACTIVE" ->
  In other (sessions w) ->
  Session.id other <> Session.id s ->
  Session.refreshToken other =
    jwt.Signed payload (jwt.hmac_key (jwtRefreshSecret authService))
               (clock w / 1000) (clock w / 1000 + r) ->
  refreshSession authService token w =
    (Throw (PrismaError "P2002"),
     set_sessions
       (filter (fun x => negb (N.eqb (Session.id x) (Session.id s)))
               (sessions w)) w) /\
  ~ In s (sessions (snd (refreshSession authService token w))).
Proof.
  intros Ha Hr Hv Hs Hle Ho Hst Hin Hid Htok.
  assert (E : refreshSession authService token w =
              (Throw (PrismaError "P2002"),
               set_sessions
                 (filter (fun x => negb (N.eqb (Session.id x) (Session.id s)))
                         (sessions w)) w)).
  { unfold refreshSession, generateTokens, storeSession,
      prisma.session.delete, prisma.session.create, jwt.sign.
    run.
    rewrite (verifyRefreshToken_ok _ _ _ _ Hv). cbn [fst snd].
    rewrite Hs. cbn [fst snd]. rewrite Ho.
    destruct (Z.ltb_spec (Session.refreshExpiresAt s) (clock w)); [lia |].
    rewrite Hst. cbn [String.eqb Ascii.eqb Bool.eqb negb].
    assert (Hex : existsb (fun x => N.eqb (Session.id x) (Session.id s))
                          (sessions w) = true).
    { apply existsb_exists. exists s. apply find_some in Hs.
      split; [tauto | apply N.eqb_refl]. }
    rewrite Hex, Ha, Hr. destruct payload as [uid em ro].
    cbn [fst snd set_sessions clock sessions users auditLogs
         outbox smtpUp nextId JWTPayload.userId JWTPayload.email
         JWTPayload.role AuthTokens.accessToken AuthTokens.refreshToken].
    rewrite (parseTimeToMs_timespan _ _ Ha), (parseTimeToMs_timespan _ _ Hr).
    cbn [fst snd date_after option_map set_sessions clock sessions users
         auditLogs outbox smtpUp nextId].
    match goal with
    | |- context [existsb ?p ?l] =>
        assert (Hdup : existsb p l = true)
    end.
    { apply existsb_exists. exists other. split.
      - apply filter_In. split; [exact Hin |].
        destruct (N.eqb_spec (Session.id other) (Session.id s));
          [contradiction | reflexivity].
      - apply jwt_eqb_eq. exact Htok. }
    rewrite Hdup. reflexivity. }
  split; [exact E |].
  rewrite E. cbn [snd set_sessions sessions]. intros H.
  apply filter_In in H. destruct H as [_ H].
  rewrite N.eqb_refl in H. discriminate H.
Qed.

Lemma refresh_collision_loses_the_session_witness :
  refreshSession demoService (AuthTokens.refreshToken aliceTokens)
    (mkWorld [alice "ACTIVE" true false] [aliceSession; rotatedSession]
             [] [] true 4 1704067260000) =
    (Throw (PrismaError "P2002"),
     mkWorld [alice "ACTIVE" true false] [rotatedSession]
             [] [] true 4 1704067260000).
Proof.
  pose proof (refresh_collision_loses_the_session demoService
                (AuthTokens.refreshToken aliceTokens)
                (mkWorld [alice "ACTIVE" true false]
                         [aliceSession; rotatedSession]
                         [] [] true 4 1704067260000)
                alicePayload aliceSession rotatedSession
                (alice "ACTIVE" true false) 900 604800
                eq_refl eq_refl eq_refl eq_refl) as H.
  apply H.
  - cbn. lia.
  - reflexivity.
  - reflexivity.
  - right. left. reflexivity.
  - discriminate.
  - reflexivity.
Defined.

(** ** The configuration of the service *)

(** X25. A service that the constructor built has two secrets that are not
    empty; with no lifetimes configured, its access tokens live fifteen
    minutes and its refresh tokens seven days, counted from the second of
    issue. *)
Theorem default_lifetimes
        (JWT_SECRET JWT_REFRESH_SECRET : option string)
        (authService : AuthService.t) (payload : JWTPayload.t) (w : World) :
  AuthService.constructor JWT_SECRET JWT_REFRESH_SECRET None None
    = Ok authService ->
  exists secret refreshSecret,
    JWT_SECRET = Some secret /\ JWT_REFRESH_SECRET = Some refreshSecret /\
    secret <> "" /\ refreshSecret <> "" /\
    generateTokens authService payload w =
      (Ok (AuthTokens.mk
             (jwt.Signed payload (jwt.hmac_key secret) (clock w / 1000)
                         (clock w / 1000 + 900))
             (jwt.Signed payload (jwt.hmac_key refreshSecret)
                         (clock w / 1000) (clock w / 1000 + 604800))), w).
Proof.
  unfold AuthService.constructor.
  destruct JWT_SECRET as [[| c s] |]; try discriminate.
  destruct JWT_REFRESH_SECRET as [[| c' s'] |]; try discriminate.
  intros H. injection H as <-.
  exists (String c s), (String c' s').
  repeat (split; [first [reflexivity | discriminate] |]).
  reflexivity.
Qed.

Lemma default_lifetimes_witness :
  exists secret refreshSecret,
    Some "access-secret" = Some secret /\
    Some "refresh-secret" = Some refreshSecret /\
    secret <> "" /\ refreshSecret <> "" /\
    generateTokens demoService alicePayload (demoWorld []) =
      (Ok (AuthTokens.mk
             (jwt.Signed alicePayload (jwt.hmac_key secret)
                         (clock (demoWorld []) / 1000)
                         (clock (demoWorld []) / 1000 + 900))
             (jwt.Signed alicePayload (jwt.hmac_key refreshSecret)
                         (clock (demoWorld []) / 1000)
                         (clock (demoWorld []) / 1000 + 604800))),
       demoWorld []).
Proof.
  apply (default_lifetimes (Some "access-secret") (Some "refresh-secret")
           demoService alicePayload (demoWorld [])).
  reflexivity.
Defined.
